(** * webdrive/client.py: the transfer engine of the command-line client

    A shallow embedding of [process_names], [mkdir], [rexists],
    [remote_file_offset], [upload_one_file], [upload], [cp] and the
    command dispatch of [__main__], followed by the properties of the
    transfer engine.  The module [Shell] adds the session file and the
    commands [login], [logout], [ls], [rmdir] and [fetch].

    Python values are modelled as follows.
    - [str] is [string], the UTF-8 encoding of the text; a list of
      names is [list string].
    - An exception is a value of [exn]; a computation that can raise
      returns an [outcome].  The names [digest_of_path] and
      [one_mode_upload], which client.py uses but neither defines nor
      imports, raise [NameError].
    - The network, the local file system and the console are the
      environment: every HTTP request, every file that is opened and
      every line printed is appended to a chronological trace of
      [event]s, and the answers of the environment come from the
      oracles of a [World].
    - The [while] loop of [upload] is given fuel; [OutOfFuel] is kept
      apart from every Python result. *)

From Stdlib Require Import List String Ascii ZArith Lia Bool DecimalString
  Permutation.
Import ListNotations.
Open Scope string_scope.
Open Scope list_scope.

(** ** String operations of Python used by the client *)

Module Py.

(** [s.startswith(pre)] *)
Definition startswith (s pre : string) : bool := String.prefix pre s.

(** [s.endswith('/')] *)
Fixpoint endswith_sep (s : string) : bool :=
  match s with
  | EmptyString => false
  | String c EmptyString => Ascii.eqb c "/"
  | String _ r => endswith_sep r
  end.

(** A [str] is kept as its UTF-8 encoding, the encoding of the command
    line and of the file names.  One character is a well-formed
    sequence of one to four bytes; a byte that starts none is one
    character of its own (Python decodes it with [surrogateescape]). *)
Definition byte_in (lo hi : nat) (c : ascii) : bool :=
  let n := nat_of_ascii c in (lo <=? n)%nat && (n <=? hi)%nat.

Definition continuation (c : ascii) : bool := byte_in 128 191 c.

(** The first two bytes of a well-formed sequence of three bytes *)
Definition lead3 (a b : ascii) : bool :=
  byte_in 224 224 a && byte_in 160 191 b
  || byte_in 225 236 a && continuation b
  || byte_in 237 237 a && byte_in 128 159 b
  || byte_in 238 239 a && continuation b.

(** The first two bytes of a well-formed sequence of four bytes *)
Definition lead4 (a b : ascii) : bool :=
  byte_in 240 240 a && byte_in 144 191 b
  || byte_in 241 243 a && continuation b
  || byte_in 244 244 a && byte_in 128 143 b.

(** The number of bytes of the first character of [s] *)
Definition first_width (s : string) : nat :=
  match s with
  | EmptyString => 0
  | String a (String b (String c (String d _))) =>
      if byte_in 194 223 a && continuation b then 2
      else if lead3 a b && continuation c then 3
      else if lead4 a b && continuation c && continuation d then 4
      else 1
  | String a (String b (String c EmptyString)) =>
      if byte_in 194 223 a && continuation b then 2
      else if lead3 a b && continuation c then 3
      else 1
  | String a (String b EmptyString) =>
      if byte_in 194 223 a && continuation b then 2 else 1
  | String _ EmptyString => 1
  end.

Fixpoint drop_bytes (n : nat) (s : string) : string :=
  match n, s with
  | S n', String _ r => drop_bytes n' r
  | _, _ => s
  end.

(** [s[1:]] *)
Definition drop_first (s : string) : string := drop_bytes (first_width s) s.

(** [s.rstrip('/')] *)
Fixpoint rstrip_sep (s : string) : string :=
  match s with
  | EmptyString => EmptyString
  | String c r =>
      match rstrip_sep r with
      | EmptyString => if Ascii.eqb c "/" then EmptyString else String c EmptyString
      | r' => String c r'
      end
  end.

(** [s == '/' * len(s)] *)
Fixpoint all_sep (s : string) : bool :=
  match s with
  | EmptyString => true
  | String c r => Ascii.eqb c "/" && all_sep r
  end.

(** [(p[:i], p[i:])] with [i = p.rfind('/') + 1] *)
Fixpoint rsplit_sep (p : string) : string * string :=
  match p with
  | EmptyString => (EmptyString, EmptyString)
  | String c r =>
      match rsplit_sep r with
      | (EmptyString, _) =>
          if Ascii.eqb c "/" then (String c EmptyString, r)
          else (EmptyString, String c r)
      | (h, t) => (String c h, t)
      end
  end.

(** [posixpath.join(a, b)] *)
Definition join (a b : string) : string :=
  if startswith b "/" then b
  else if (a =? "") || endswith_sep a then (a ++ b)%string
  else (a ++ "/" ++ b)%string.

(** [posixpath.basename(p)] *)
Definition basename (p : string) : string := snd (rsplit_sep p).

(** [posixpath.dirname(p)] *)
Definition dirname (p : string) : string :=
  let head := fst (rsplit_sep p) in
  if negb (head =? "") && negb (all_sep head) then rstrip_sep head else head.

(** ['%s' % n] for an integer [n] *)
Definition str_of_int (n : Z) : string := NilZero.string_of_int (Z.to_int n).

End Py.

(** ** Exceptions, results and the environment *)

Inductive exn : Type :=
| AssertionError (msg : string)
| IndexError (msg : string)
| UnboundLocalError (var : string)
| OSError (msg : string)
| NameError (name : string)
| ValueError (msg : string)
| OtherError (name msg : string).

Inductive outcome (A : Type) : Type :=
| Return (a : A)
| Raise (e : exn)
| OutOfFuel.
Arguments Return {A} a.
Arguments Raise {A} e.
Arguments OutOfFuel {A}.

(** The second component of the pair returned by [upload]: [None], a
    message, or the server's list of errors. *)
Inductive errval : Type :=
| ENone
| EStr (s : string)
| EList (l : list string).

(** The JSON object of a server response. *)
Record json : Type := mk_json {
  status : bool;
  errors : list string;
  offset : Z;
  output : list string
}.

(** The requests posted by the transfer engine, by endpoint. *)
Inductive request : Type :=
| ReqExists (name : string)
| ReqOffset (src dst : string)
| ReqUpload (offset : Z) (field src : string)
| ReqMkdir (parents verbose : bool) (names : list string).

(** What [requests.post] produces: a response with [r.ok] and its JSON
    body, a response that is not [r.ok] with its status code, or an
    exception of the transport. *)
Inductive response : Type :=
| RespOk (j : json)
| RespFail (code : Z)
| RespRaise (e : exn).

Inductive event : Type :=
| EvRequest (rq : request) (rs : response)
| EvOpen (path : string)
| EvSeek (path : string) (pos : Z)
| EvPrint (v : errval)
| EvPrintExn (e : exn).

Definition trace : Type := list event.

(** The environment of one run.  The local file system is only read by
    the transfer engine, so its oracles do not depend on the trace; the
    server may answer by the whole history of the run.  [w_seek] tells
    whether the file system accepts a position of a file that is not
    negative and fits [off_t]. *)
Record World : Type := mk_world {
  w_exists : string -> bool;
  w_isdir : string -> bool;
  w_isfile : string -> bool;
  w_listdir : string -> exn + list string;
  w_open : string -> bool;
  w_seek : string -> Z -> bool;
  w_post : trace -> request -> response
}.

(** ** Computations: a trace is threaded, an exception stops the run *)

Definition M (A : Type) : Type := trace -> outcome A * trace.

Definition ret {A} (a : A) : M A := fun t => (Return a, t).

Definition raise {A} (e : exn) : M A := fun t => (Raise e, t).

Definition out_of_fuel {A} : M A := fun t => (OutOfFuel, t).

Definition bind {A B} (m : M A) (k : A -> M B) : M B :=
  fun t =>
    match m t with
    | (Return a, t') => k a t'
    | (Raise e, t') => (Raise e, t')
    | (OutOfFuel, t') => (OutOfFuel, t')
    end.

Definition obind {A B} (m : outcome A) (k : A -> outcome B) : outcome B :=
  match m with
  | Return a => k a
  | Raise e => Raise e
  | OutOfFuel => OutOfFuel
  end.

Definition lift {A} (o : outcome A) : M A := fun t => (o, t).

Definition emit (e : event) : M unit := fun t => (Return tt, t ++ [e]).

Declare Scope py_scope.
Delimit Scope py_scope with py.
Notation "x <- m ;; k" := (bind m (fun x => k))
  (at level 61, m at next level, right associativity) : py_scope.
Notation "' p <- m ;; k" := (bind m (fun x => match x with p => k end))
  (at level 61, p pattern, m at next level, right associativity) : py_scope.
Notation "m ;; k" := (bind m (fun _ => k))
  (at level 61, right associativity) : py_scope.
Notation "x <~ m ;; k" := (obind m (fun x => k))
  (at level 61, m at next level, right associativity) : py_scope.
Open Scope py_scope.

(** [assert c, msg] *)
Definition assert_ (c : bool) (msg : string) : M unit :=
  if c then ret tt else raise (AssertionError msg).

Definition oassert (c : bool) (msg : string) : outcome unit :=
  if c then Return tt else Raise (AssertionError msg).

(** [print(v)] *)
Definition print (v : errval) : M unit := emit (EvPrint v).

(** [for x in l: print(f(x))] *)
Fixpoint print_each (f : string -> string) (l : list string) : M unit :=
  match l with
  | [] => ret tt
  | x :: r => print (EStr (f x)) ;; print_each f r
  end.

(** ** The client *)

Module Client.

(** Modelled from the spec: [thinap.ArgParser] is imported by client.py
    but is not part of it.  By the command-line surface of section 6
    ([mkdir [-p] [-v] [names...]], [cp [-o] [-r] [-v] <sources...>
    <dest>]) a token equal to a flag of the request sets that flag and
    every other token is a name, in order. *)
Definition parse_flag (flag : string) (args : list string) : bool :=
  existsb (String.eqb flag) args.

(** Modelled from the spec: the names left by [thinap.ArgParser], see
    [parse_flag]. *)
Definition parse_names (flags args : list string) : list string :=
  filter (fun a => negb (existsb (String.eqb a) flags)) args.

Section WithWorld.

Variable w : World.

(** [requests.post(api, ...)], recorded on the trace *)
Definition post (rq : request) : M response :=
  fun t => let rs := w_post w t rq in (Return rs, t ++ [EvRequest rq rs]).

(** [send_request]: the JSON body, or [None] after a response that is
    not [r.ok]. *)
Definition send_request (rq : request) : M (option json) :=
  rs <- post rq ;;
  match rs with
  | RespOk j => ret (Some j)
  | RespFail code =>
      print (EStr ("request failed (code " ++ Py.str_of_int code ++ ")")) ;;
      ret None
  | RespRaise e => raise e
  end.

(** [assert res] on the first component of [send_request]'s answer *)
Definition assert_res (res : option json) : M json :=
  match res with
  | Some j => ret j
  | None => raise (AssertionError "")
  end.

Definition mkdir (args : list string) : M bool :=
  let parents := parse_flag "-p" args in
  let verbose := parse_flag "-v" args in
  let names := parse_names ["-p"; "-v"] args in
  res <- send_request (ReqMkdir parents verbose names) ;;
  match res with
  | None => ret false
  | Some j =>
      (if verbose
       then print_each (fun name => "created directory: " ++ name)%string (output j)
       else ret tt) ;;
      if negb (status j)
      then print_each (fun e => "error: " ++ e)%string (errors j) ;; ret false
      else ret true
  end.

Definition rexists (path : string) : M bool :=
  res <- send_request (ReqExists path) ;;
  j <- assert_res res ;;
  ret (status j).

Definition remote_file_offset (src dst : string) : M Z :=
  res <- send_request (ReqOffset src dst) ;;
  j <- assert_res res ;;
  ret (offset j).

(** [digest_of_path(src)]: client.py neither defines nor imports the
    name, so its evaluation raises [NameError]. *)
Definition digest_of_path (src : string) : M string :=
  raise (NameError "digest_of_path").

(** [one_mode_upload(src, dst, sha1)]: the name is bound nowhere
    either. *)
Definition one_mode_upload (src dst sha1 : string) : M bool :=
  raise (NameError "one_mode_upload").

(** [open(src, 'rb')] *)
Definition open_rb (src : string) : M string :=
  if w_open w src then emit (EvOpen src) ;; ret src
  else raise (OSError "No such file or directory").

(** The least position that does not fit [off_t]: 2 ^ 63. *)
Definition off_t_bound : Z := 9223372036854775808.

(** [sfile.seek(pos)] on the buffered reader: a position that does not
    fit [off_t] is refused by the conversion with [ValueError]; a
    negative one, or one that the file system does not accept, is
    refused by the operating system. *)
Definition seek (sfile : string) (pos : Z) : M unit :=
  if (pos <? - off_t_bound)%Z || (off_t_bound <=? pos)%Z
  then raise (ValueError "cannot fit 'int' into an offset-sized integer")
  else if (pos <? 0)%Z || negb (w_seek w sfile pos)
  then raise (OSError "Invalid argument")
  else emit (EvSeek sfile pos).

Definition upload_one_file (src dst : string) (one verbose : bool)
  : M (bool * errval) :=
  let put (s : string) : M unit := if verbose then print (EStr s) else ret tt in
  short <- (if one then
              put "calculating/loading digest" ;;
              sha1 <- digest_of_path src ;;
              one_mode_upload src dst sha1
            else ret false) ;;
  if short then ret (true, ENone)
  else
    offset <- remote_file_offset src dst ;;
    (* the tuple of line 379 is evaluated and dropped *)
    let _ := if (offset =? -1)%Z then Some (true, ENone) else None in
    sfile <- open_rb src ;;
    seek sfile offset ;;
    put ("uploading " ++ src ++ " -> " ++ dst)%string ;;
    res <- send_request (ReqUpload offset (Py.basename src) sfile) ;;
    j <- assert_res res ;;
    ret (status j, EList (errors j)).

(** The local variables [status, errmsg] of [upload]: unbound until a
    file has been uploaded. *)
Definition last_status : Type := option (bool * errval).

(** The body of [for sub in os.listdir(dir)]: [dirs] is the queue,
    [last] the pair [status, errmsg]. *)
Fixpoint scan_entries (one verbose : bool) (dir dst_dir : string)
    (subs : list string) (dirs : list (string * string)) (last : last_status)
  : M (list (string * string) * last_status) :=
  match subs with
  | [] => ret (dirs, last)
  | sub :: subs' =>
      let path := Py.join dir sub in
      if w_isdir w path then
        scan_entries one verbose dir dst_dir subs'
          (dirs ++ [(path, Py.join dst_dir sub)]) last
      else if w_isfile w path then
        let dst := Py.join dst_dir sub in
        r <- upload_one_file path dst one verbose ;;
        scan_entries one verbose dir dst_dir subs' dirs (Some r)
      else scan_entries one verbose dir dst_dir subs' dirs last
  end.

(** [os.listdir(dir)] *)
Definition listdir (dir : string) : M (list string) :=
  match w_listdir w dir with
  | inr l => ret l
  | inl e => raise e
  end.

(** One turn of [while dirs]: the task [(dir, dst_dir)] has been popped
    and [dirs] is the rest of the queue. *)
Definition dir_task (one verbose : bool) (dir dst_dir : string)
    (dirs : list (string * string)) (assume_not_exists : bool)
    (last : last_status)
  : M (list (string * string) * bool * last_status) :=
  absent <- (if assume_not_exists then ret true
             else (e <- rexists dst_dir ;; ret (negb e))) ;;
  let new_dir := if absent then dst_dir else Py.join dst_dir dir in
  let assume_not_exists := if absent then true else assume_not_exists in
  let args := [new_dir; "-p"] in
  let args := if verbose then args ++ ["-v"] else args in
  ok <- mkdir args ;;
  assert_ ok "" ;;
  subs <- listdir dir ;;
  '(dirs, last) <- scan_entries one verbose dir dst_dir subs dirs last ;;
  ret (dirs, assume_not_exists, last).

(** [while dirs: ...] *)
Fixpoint walk (fuel : nat) (one verbose : bool) (dirs : list (string * string))
    (assume_not_exists : bool) (last : last_status) : M last_status :=
  match dirs with
  | [] => ret last
  | (dir, dst_dir) :: dirs =>
      match fuel with
      | O => out_of_fuel
      | S fuel =>
          '(dirs, assume_not_exists, last) <-
            dir_task one verbose dir dst_dir dirs assume_not_exists last ;;
          walk fuel one verbose dirs assume_not_exists last
      end
  end.

(** [return status, errmsg] *)
Definition return_status (last : last_status) : M (bool * errval) :=
  match last with
  | Some r => ret r
  | None => raise (UnboundLocalError "status")
  end.

(** [upload]; the assignment to [dst] inside the loop is never read
    again and is left out. *)
Definition upload (fuel : nat) (src dst : string) (one recursive verbose : bool)
  : M (bool * errval) :=
  if w_isdir w src then
    if negb recursive then ret (false, EStr ("omitting directory: " ++ src))
    else
      last <- walk fuel one verbose [(src, dst)] false None ;;
      return_status last
  else
    ok <- mkdir [Py.dirname dst; "-p"] ;;
    assert_ ok "" ;;
    r <- upload_one_file src dst one verbose ;;
    return_status (Some r).

(** [[x[0] for x in src]]; of every first character the first byte is
    kept, which is the colon exactly when the character is. *)
Fixpoint first_chars (src : list string) : outcome (list ascii) :=
  match src with
  | [] => Return []
  | EmptyString :: _ => Raise (IndexError "string index out of range")
  | String c _ :: r => cs <~ first_chars r ;; Return (c :: cs)
  end.

(** [for name in src: assert exists(name), ...] *)
Fixpoint assert_all_exist (src : list string) : outcome unit :=
  match src with
  | [] => Return tt
  | name :: r =>
      _ <~ oassert (w_exists w name) ("file not exists: " ++ name) ;;
      assert_all_exist r
  end.

Definition address_error : exn :=
  AssertionError "wrong source or destination address".

Definition usage_error : exn :=
  AssertionError "expect at least two file names".

Definition process_names (names : list string)
  : outcome (list string * string * bool) :=
  let names_len := List.length names in
  _ <~ oassert (2 <=? names_len)%nat "expect at least two file names" ;;
  sd <~ match names with
        | [src; dst] =>
            if Py.startswith src ":" && Py.startswith dst ":"
               || negb (Py.startswith src ":") && negb (Py.startswith dst ":")
            then Raise address_error
            else Return ([src], dst)
        | _ =>
            let src := removelast names in
            let dst := last names "" in
            chars <~ first_chars src ;;
            let colons := count_occ ascii_dec chars ":"%char in
            if Py.startswith dst ":" && negb (colons =? 0)%nat
               || negb (Py.startswith dst ":") && negb (colons =? List.length chars)%nat
            then Raise address_error
            else Return (src, dst)
        end ;;
  let '(src, dst) := sd in
  let is_upload := Py.startswith dst ":" in
  _ <~ (if is_upload then assert_all_exist src
        else if w_exists w dst
             then oassert (w_isdir w dst) "destination exists but is not a directory"
             else let p := Py.dirname dst in
                  oassert (w_isdir w p) (p ++ " not exists or not a directory")) ;;
  let dst := Py.drop_first dst in
  Return (src, dst, is_upload).

(** [for src_path in src: ...] of [cp], with the running value of [res] *)
Fixpoint cp_loop (fuel : nat) (src : list string) (dst : string)
    (one recursive verbose : bool) (res : bool) : M bool :=
  match src with
  | [] => ret res
  | src_path :: rest =>
      '(status, errmsg) <- upload fuel src_path dst one recursive verbose ;;
      if negb status
      then print errmsg ;; cp_loop fuel rest dst one recursive verbose false
      else cp_loop fuel rest dst one recursive verbose res
  end.

Definition cp (fuel : nat) (args : list string) : M bool :=
  let one := parse_flag "-o" args in
  let recursive := parse_flag "-r" args in
  let verbose := parse_flag "-v" args in
  let names := parse_names ["-o"; "-r"; "-v"] args in
  '(src, dst, is_upload) <- lift (process_names names) ;;
  cp_loop fuel src dst one recursive verbose true.

(** The dispatch of [__main__] for the command [cp]: the exit code. *)
Definition main_cp (fuel : nat) (args : list string) : M Z :=
  fun t =>
    match cp fuel args t with
    | (Return st, t') => (Return (if st then 0 else 1)%Z, t')
    | (Raise e, t') => (Return 1%Z, t' ++ [EvPrintExn e])
    | (OutOfFuel, t') => (OutOfFuel, t')
    end.

End WithWorld.

End Client.

(** ** Observing a trace *)

(** The requests of a trace, in order. *)
Fixpoint requests_of (t : trace) : list request :=
  match t with
  | [] => []
  | EvRequest rq _ :: r => rq :: requests_of r
  | _ :: r => requests_of r
  end.

Definition is_upload_request (rq : request) : bool :=
  match rq with ReqUpload _ _ _ => true | _ => false end.

Definition is_probe (rq : request) : bool :=
  match rq with ReqExists _ => true | _ => false end.

Definition is_mkdir (rq : request) : bool :=
  match rq with ReqMkdir _ _ _ => true | _ => false end.

(** The calls of the upload endpoint: the only requests with a body. *)
Definition upload_calls (t : trace) : list request :=
  filter is_upload_request (requests_of t).

(** The existence probes of a trace. *)
Definition probes (t : trace) : list request :=
  filter is_probe (requests_of t).

(** The names of the directories whose creation was requested. *)
Definition created_dirs (t : trace) : list string :=
  flat_map (fun rq => match rq with ReqMkdir _ _ names => names | _ => [] end)
           (requests_of t).

(** The destinations of the files whose offset was queried. *)
Definition file_destinations (t : trace) : list string :=
  flat_map (fun rq => match rq with ReqOffset _ dst => [dst] | _ => [] end)
           (requests_of t).

(** A directory-creation request that [mkdir] reports as failed. *)
Definition rejected (rs : response) : bool :=
  match rs with
  | RespOk j => negb (status j)
  | RespFail _ => true
  | RespRaise _ => false
  end.

(** ** Vocabulary of the properties *)

(** [appends P m]: from every trace, [m] only appends events, all of
    them in the class [P]. *)
Definition appends {A} (P : event -> bool) (m : M A) : Prop :=
  forall t, exists evs, snd (m t) = t ++ evs /\ forallb P evs = true.

(** Events other than a directory creation or an existence probe. *)
Definition quiet (e : event) : bool :=
  match e with
  | EvRequest (ReqMkdir _ _ _) _ | EvRequest (ReqExists _) _ => false
  | _ => true
  end.

Definition is_print (e : event) : bool :=
  match e with EvPrint _ => true | _ => false end.

(** The effective remote directory in the words of section 4.2. *)
Definition spec_effective_dir (target_exists : bool)
    (remote_target local_dir : string) : string :=
  if target_exists then remote_target
  else Py.join remote_target (Py.basename local_dir).

(** One character in UTF-8, by table 3-7 of the Unicode standard: the
    well-formed sequences of one, two, three and four bytes. *)
Inductive utf8_char : string -> Prop :=
| utf8_one a :
    (nat_of_ascii a <= 127)%nat -> utf8_char (String a "")
| utf8_two a b :
    (194 <= nat_of_ascii a <= 223)%nat ->
    (128 <= nat_of_ascii b <= 191)%nat ->
    utf8_char (String a (String b ""))
| utf8_three a b c :
    (nat_of_ascii a = 224 /\ 160 <= nat_of_ascii b <= 191
     \/ 225 <= nat_of_ascii a <= 236 /\ 128 <= nat_of_ascii b <= 191
     \/ nat_of_ascii a = 237 /\ 128 <= nat_of_ascii b <= 159
     \/ 238 <= nat_of_ascii a <= 239 /\ 128 <= nat_of_ascii b <= 191)%nat ->
    (128 <= nat_of_ascii c <= 191)%nat ->
    utf8_char (String a (String b (String c "")))
| utf8_four a b c d :
    (nat_of_ascii a = 240 /\ 144 <= nat_of_ascii b <= 191
     \/ 241 <= nat_of_ascii a <= 243 /\ 128 <= nat_of_ascii b <= 191
     \/ nat_of_ascii a = 244 /\ 128 <= nat_of_ascii b <= 143)%nat ->
    (128 <= nat_of_ascii c <= 191)%nat ->
    (128 <= nat_of_ascii d <= 191)%nat ->
    utf8_char (String a (String b (String c (String d "")))).

(** The sources of [cp] uploaded one after the other from the trace
    [t]: [rs] holds the pair that [upload] returned for each source,
    in order, and the message of a source whose status is false is
    printed before the next source is taken. *)
Inductive uploads_each (w : World) (fuel : nat) (dst : string)
    (one recursive verbose : bool)
  : list string -> trace -> list (bool * errval) -> trace -> Prop :=
| uploads_done t : uploads_each w fuel dst one recursive verbose [] t [] t
| uploads_next s rest t st msg t1 rs t' :
    Client.upload w fuel s dst one recursive verbose t = (Return (st, msg), t1) ->
    uploads_each w fuel dst one recursive verbose rest
      (if st then t1 else t1 ++ [EvPrint msg]) rs t' ->
    uploads_each w fuel dst one recursive verbose (s :: rest) t
      ((st, msg) :: rs) t'.

(** A token carries the remote marker. *)
Definition is_remote (s : string) : bool := Py.startswith s ":".

(** The markers are uniform: the destination is remote and no source
    is, or the destination is local and every source is remote. *)
Definition uniform_markers (names : list string) : bool :=
  if is_remote (last names "")
  then forallb (fun s => negb (is_remote s)) (removelast names)
  else forallb is_remote (removelast names).

(** The preconditions on the local file system checked after the
    classification. *)
Definition fs_ready (w : World) (names : list string) : bool :=
  let dst := last names "" in
  if is_remote dst then forallb (w_exists w) (removelast names)
  else if w_exists w dst then w_isdir w dst
       else w_isdir w (Py.dirname dst).

(** With three tokens or more, no source is the empty string. *)
Definition sources_indexable (names : list string) : Prop :=
  List.length names = 2
  \/ Forall (fun s => s <> EmptyString) (removelast names).

(** Events other than an existence probe. *)
Definition not_probe (e : event) : bool :=
  match e with
  | EvRequest (ReqExists _) _ => false
  | _ => true
  end.

(** Events other than a directory creation. *)
Definition no_mkdir (e : event) : bool :=
  match e with
  | EvRequest (ReqMkdir _ _ _) _ => false
  | _ => true
  end.

(** Events other than a request. *)
Definition no_request (e : event) : bool :=
  match e with
  | EvRequest _ _ => false
  | _ => true
  end.

(** [faithful w m]: [m] only appends events, and every request that a
    run of [m] records carries the answer that the server of [w] gave
    to it at the moment it was posted. *)
Definition faithful (w : World) {A} (m : M A) : Prop :=
  forall t,
    exists evs,
      snd (m t) = t ++ evs
      /\ forall before rq rs after,
           evs = before ++ EvRequest rq rs :: after ->
           rs = w_post w (t ++ before) rq.

(** [fail_fast m]: [m] only appends events, and a run of [m] in which
    the server rejects a directory creation ends with the assertion
    error, with no request after the rejected one. *)
Definition fail_fast {A} (m : M A) : Prop :=
  forall t,
    exists evs,
      snd (m t) = t ++ evs
      /\ forall before rq rs after,
           evs = before ++ EvRequest rq rs :: after ->
           is_mkdir rq = true -> rejected rs = true ->
           fst (m t) = Raise (AssertionError "") /\ requests_of after = [].

(** [yields Q m]: every value returned by [m] satisfies [Q]. *)
Definition yields {A} (Q : A -> Prop) (m : M A) : Prop :=
  forall t a, fst (m t) = Return a -> Q a.

(** The shape of a finite local tree: a directory with its named
    entries, a regular file, or an entry that is neither. *)
#[warnings="-register-all"] Inductive shape : Type :=
| SDir (entries : list (string * shape))
| SFile
| SOther.

(** The number of directories of a tree: the fuel its walk needs. *)
Fixpoint dirs_in (s : shape) : nat :=
  match s with
  | SDir entries =>
      S (list_sum (map (fun e => dirs_in (snd e)) entries))
  | _ => 0
  end.

(** No regular file anywhere in the tree. *)
Fixpoint no_files (s : shape) : bool :=
  match s with
  | SDir entries => forallb (fun e => no_files (snd e)) entries
  | SFile => false
  | SOther => true
  end.

(** The local file system of [w] has the shape [s] at the path [p]. *)
#[warnings="-register-all"] Inductive models (w : World) : string -> shape -> Prop :=
| models_dir p entries :
    w_isdir w p = true ->
    w_listdir w p = inr (map fst entries) ->
    Forall (fun e => models w (Py.join p (fst e)) (snd e)) entries ->
    models w p (SDir entries)
| models_file p :
    w_isdir w p = false -> w_isfile w p = true -> models w p SFile
| models_other p :
    w_isdir w p = false -> w_isfile w p = false -> models w p SOther.

(** The server answers every probe and accepts every directory
    creation. *)
Definition server_accepts (w : World) : Prop :=
  (forall t name, exists j, w_post w t (ReqExists name) = RespOk j)
  /\ (forall t p v names,
        exists j, w_post w t (ReqMkdir p v names) = RespOk j /\ status j = true).

(** The tasks queued for the subdirectories among the entries of a
    directory. *)
Fixpoint child_tasks (dir dst_dir : string) (entries : list (string * shape))
  : list (string * string) :=
  match entries with
  | [] => []
  | (name, SDir _) :: r =>
      (Py.join dir name, Py.join dst_dir name) :: child_tasks dir dst_dir r
  | _ :: r => child_tasks dir dst_dir r
  end.

Fixpoint child_shapes (entries : list (string * shape)) : list shape :=
  match entries with
  | [] => []
  | (_, SDir es) :: r => SDir es :: child_shapes r
  | _ :: r => child_shapes r
  end.

(** [ensures strict Q m]: [m] never runs out of fuel, every value it
    returns satisfies [Q], and when [strict] it does not raise. *)
Definition ensures {A} (strict : bool) (Q : A -> Prop) (m : M A) : Prop :=
  forall t,
    match fst (m t) with
    | Return a => Q a
    | Raise _ => strict = false
    | OutOfFuel => False
    end.

(** A queued task whose local directory is a tree without files. *)
Definition queued (w : World) (d : string * string) (s : shape) : Prop :=
  (exists entries, s = SDir entries) /\ models w (fst d) s /\ no_files s = true.

(** A queued task whose local directory is a finite tree. *)
Definition queued_dir (w : World) (d : string * string) (s : shape) : Prop :=
  (exists entries, s = SDir entries) /\ models w (fst d) s.

(** [total m]: [m] returns or raises; it never runs out of fuel. *)
Definition total {A} (m : M A) : Prop := ensures false (fun _ => True) m.

(** ** The mirror of a local tree *)

(** The remote directories of the mirror of a tree at [dst]. *)
Fixpoint mirror_dirs (dst : string) (s : shape) : list string :=
  match s with
  | SDir entries =>
      dst :: flat_map (fun e => mirror_dirs (Py.join dst (fst e)) (snd e))
               entries
  | _ => []
  end.

(** The remote files of the mirror of a tree at [dst]. *)
Fixpoint mirror_files (dst : string) (s : shape) : list string :=
  match s with
  | SDir entries =>
      flat_map (fun e => mirror_files (Py.join dst (fst e)) (snd e)) entries
  | SFile => [dst]
  | SOther => []
  end.

(** The remote paths of the regular files listed in a directory. *)
Fixpoint direct_files (dst_dir : string) (entries : list (string * shape))
  : list string :=
  match entries with
  | [] => []
  | (name, SFile) :: r => Py.join dst_dir name :: direct_files dst_dir r
  | _ :: r => direct_files dst_dir r
  end.

(** A queue of directory tasks, each with the shape of its local
    directory. *)
Definition tree_queue : Type := list ((string * string) * shape).

(** The tasks of the subdirectories listed in a directory, with their
    shapes. *)
Fixpoint children_queue (dir dst_dir : string) (entries : list (string * shape))
  : tree_queue :=
  match entries with
  | [] => []
  | (name, SDir es) :: r =>
      ((Py.join dir name, Py.join dst_dir name), SDir es)
      :: children_queue dir dst_dir r
  | _ :: r => children_queue dir dst_dir r
  end.

Definition queue_dirs (q : tree_queue) : list string :=
  flat_map (fun x => mirror_dirs (snd (fst x)) (snd x)) q.

Definition queue_files (q : tree_queue) : list string :=
  flat_map (fun x => mirror_files (snd (fst x)) (snd x)) q.

(** A name that [mkdir] does not read as one of its flags. *)
Definition not_flag (name : string) : Prop := name <> "-p" /\ name <> "-v".

(** Events other than an offset query. *)
Definition not_offset (e : event) : bool :=
  match e with
  | EvRequest (ReqOffset _ _) _ => false
  | _ => true
  end.

(** ** The other commands and the dispatch of [__main__] *)

Module Shell.

(** The dictionary kept in the session file; a missing file reads as
    the empty dictionary. *)
Definition cookies : Type := list (string * string).

(** One entry of a long listing. *)
Record file_info : Type := mk_file_info {
  fi_regular : bool;
  fi_owner : string;
  fi_size : Z;
  fi_time : string;
  fi_name : string
}.

(** The body of the answer to [login]: [status], [errors] and the
    cookie [sessionid] of the response, if any. *)
Record login_body : Type := mk_login_body {
  lg_status : bool;
  lg_errors : list string;
  lg_sessionid : option string
}.

(** The body of the answer to [ls]: [output] is a list of blocks, each
    a dictionary from a name to its entries. *)
Record ls_body (X : Type) : Type := mk_ls_body {
  ls_status : bool;
  ls_errors : list string;
  ls_output : list (list (string * list X))
}.
Arguments mk_ls_body {X}.
Arguments ls_status {X}.
Arguments ls_errors {X}.
Arguments ls_output {X}.

Inductive srequest : Type :=
| SLogin (username password : string)
| SLs (long directory : bool) (names : list string)
| SRmdir (parents verbose : bool) (names : list string).

Inductive answer (A : Type) : Type :=
| AnsOk (body : A)
| AnsFail (code : Z)
| AnsRaise (e : exn).
Arguments AnsOk {A}.
Arguments AnsFail {A}.
Arguments AnsRaise {A}.

(** What a run of the program does, in order: a POST with the cookies
    sent, the GET of [logout], a line printed, the session file
    written, the help text printed, an event of the transfer engine. *)
Inductive sevent : Type :=
| SPost (sent : cookies) (rq : srequest)
| SGet
| SOut (v : errval)
| SOutExn (e : exn)
| SSave (data : cookies)
| SHelp
| SClient (e : event).

Record sstate : Type := mk_sstate {
  session : cookies;
  log : list sevent
}.

(** The server and, for the commands of the transfer engine, the world
    they run in under a given session.  A long listing is answered with
    records, a short one with names. *)
Record Server : Type := mk_server {
  sv_login : string -> string -> answer login_body;
  sv_logout : option exn;
  sv_ls_short : cookies -> bool -> list string -> answer (ls_body string);
  sv_ls_long : cookies -> bool -> list string -> answer (ls_body file_info);
  sv_rmdir : cookies -> bool -> bool -> list string -> answer json;
  sv_world : cookies -> World
}.

Definition SM (A : Type) : Type := sstate -> outcome A * sstate.

Definition sret {A} (a : A) : SM A := fun s => (Return a, s).

Definition sraise {A} (e : exn) : SM A := fun s => (Raise e, s).

Definition sbind {A B} (m : SM A) (k : A -> SM B) : SM B :=
  fun s =>
    match m s with
    | (Return a, s') => k a s'
    | (Raise e, s') => (Raise e, s')
    | (OutOfFuel, s') => (OutOfFuel, s')
    end.

Notation "x <<- m ;; k" := (sbind m (fun x => k))
  (at level 61, m at next level, right associativity).
Notation "m >>; k" := (sbind m (fun _ => k))
  (at level 61, right associativity).

Definition slift {A} (o : outcome A) : SM A := fun s => (o, s).

Definition slog (e : sevent) : SM unit :=
  fun s => (Return tt, mk_sstate (session s) (log s ++ [e])).

(** [print(v)] *)
Definition sprint (v : errval) : SM unit := slog (SOut v).

(** [for x in l: print(f(x))] *)
Fixpoint sprint_each (f : string -> string) (l : list string) : SM unit :=
  match l with
  | [] => sret tt
  | x :: r => sprint (EStr (f x)) >>; sprint_each f r
  end.

(** [load_session()] *)
Definition load_session : SM cookies := fun s => (Return (session s), s).

(** [save_session(data)] *)
Definition save_session (data : cookies) : SM unit :=
  fun s => (Return tt, mk_sstate data (log s ++ [SSave data])).

(** [send_request(api, data, send_cookies=...)] for the commands below:
    the answer of the server to the request is [ans]. *)
Definition send_request {A} (send_cookies : bool) (rq : srequest)
    (ans : cookies -> answer A) : SM (option A) :=
  sent <<- (if send_cookies then load_session else sret []) ;;
  slog (SPost sent rq) >>;
  match ans sent with
  | AnsOk body => sret (Some body)
  | AnsFail code =>
      sprint (EStr ("request failed (code " ++ Py.str_of_int code ++ ")")) >>;
      sret None
  | AnsRaise e => sraise e
  end.

(** A computation of the transfer engine, run as a command: its
    events are appended to the log, the session is left alone. *)
Definition run_client {A} (m : M A) : SM A :=
  fun s =>
    let (o, t) := m [] in
    (o, mk_sstate (session s) (log s ++ map SClient t)).

Section WithServer.

Variable srv : Server.

(** The truth value of [x] for a string or [None]. *)
Definition truthy (x : option string) : option string :=
  match x with
  | Some EmptyString => None
  | other => other
  end.

(** [login], from the values that [thinap.ArgParser] found for [-u]
    and [-p] ([None] when absent). *)
Definition login (username password : option string) : SM (option bool) :=
  match truthy username, truthy password with
  | Some u, Some p =>
      res <<- send_request false (SLogin u p) (fun _ => sv_login srv u p) ;;
      match res with
      | None => sret (Some false)
      | Some body =>
          if lg_status body then
            match truthy (lg_sessionid body) with
            | Some sid => save_session [("sessionid", sid)] >>; sret (Some true)
            | None => sret None
            end
          else sprint (EList (lg_errors body)) >>; sret (Some false)
      end
  | _, _ => sraise (AssertionError "user name and password are required")
  end.

(** [logout]: the answer to the GET is not looked at. *)
Definition logout : SM (option bool) :=
  slog SGet >>;
  match sv_logout srv with
  | Some e => sraise e
  | None => save_session [] >>; sret (Some true)
  end.

(** [max(sizes)] *)
Definition py_max (l : list nat) : outcome nat :=
  match l with
  | [] => Raise (OtherError "ValueError" "max() arg is an empty sequence")
  | x :: r => Return (fold_left Nat.max r x)
  end.

Fixpoint spaces (k : nat) : string :=
  match k with
  | O => EmptyString
  | S k => String " " (spaces k)
  end.

(** ['%<n>s' % s] *)
Definition pad_left (n : nat) (s : string) : string :=
  (spaces (n - String.length s) ++ s)%string.

(** The line printed by [format_output] for one entry. *)
Definition format_line (size_len : nat) (f : file_info) : string :=
  ((if fi_regular f then "-" else "d") ++ " " ++ fi_owner f ++ " "
   ++ pad_left size_len (Py.str_of_int (fi_size f)) ++ " "
   ++ fi_time f ++ " " ++ fi_name f)%string.

Fixpoint print_lines (lines : list string) : SM unit :=
  match lines with
  | [] => sret tt
  | l :: r => sprint (EStr l) >>; print_lines r
  end.

Definition format_output (files : list file_info) : SM unit :=
  let sizes := map (fun f => String.length (Py.str_of_int (fi_size f))) files in
  size_len <<- slift (py_max sizes) ;;
  print_lines (map (format_line size_len) files).

(** [files.extend(list(block.values())[0])] for every block *)
Fixpoint first_values {X} (output : list (list (string * list X)))
  : outcome (list X) :=
  match output with
  | [] => Return []
  | [] :: _ => Raise (IndexError "list index out of range")
  | ((_, files) :: _) :: r =>
      match first_values r with
      | Return l => Return (files ++ l)
      | other => other
      end
  end.

(** The names printed by a short listing: every entry of every value
    of every block. *)
Definition short_lines (output : list (list (string * list string)))
  : list string :=
  flat_map (fun block => flat_map snd block) output.

(** The end of [ls], [mkdir] and [rmdir]: the errors are printed when
    the status is false. *)
Definition report (status : bool) (errors : list string) : SM (option bool) :=
  if negb status
  then sprint_each (fun e => "error: " ++ e)%string errors >>; sret (Some false)
  else sret (Some true).

(** [ls], from the flags and names that [thinap.ArgParser] found. *)
Definition ls (long directory : bool) (names : list string) : SM (option bool) :=
  if long then
    res <<- send_request true (SLs long directory names)
              (fun c => sv_ls_long srv c directory names) ;;
    match res with
    | None => sret (Some false)
    | Some body =>
        files <<- slift (first_values (ls_output body)) ;;
        format_output files >>;
        report (ls_status body) (ls_errors body)
    end
  else
    res <<- send_request true (SLs long directory names)
              (fun c => sv_ls_short srv c directory names) ;;
    match res with
    | None => sret (Some false)
    | Some body =>
        print_lines (short_lines (ls_output body)) >>;
        report (ls_status body) (ls_errors body)
    end.

(** [rmdir], from the flags and names that [thinap.ArgParser] found. *)
Definition rmdir (parents verbose : bool) (names : list string)
  : SM (option bool) :=
  res <<- send_request true (SRmdir parents verbose names)
            (fun c => sv_rmdir srv c parents verbose names) ;;
  match res with
  | None => sret (Some false)
  | Some j =>
      (if verbose
       then sprint_each (fun name => "removing directory: " ++ name)%string
              (output j)
       else sret tt) >>;
      report (status j) (errors j)
  end.

(** [fetch]: its body is [...]. *)
Definition fetch : SM (option bool) := sret None.

(** [mkdir] and [cp] as commands: the transfer engine under the
    session of the moment. *)
Definition mkdir_command (args : list string) : SM (option bool) :=
  c <<- load_session ;;
  b <<- run_client (Client.mkdir (sv_world srv c) args) ;;
  sret (Some b).

Definition cp_command (fuel : nat) (args : list string) : SM (option bool) :=
  c <<- load_session ;;
  b <<- run_client (Client.cp (sv_world srv c) fuel args) ;;
  sret (Some b).

(** The parsers of [login], [ls] and [rmdir]: [thinap.ArgParser] is not
    part of client.py, so what it finds in the arguments is a
    parameter. *)
Variable parse_login : list string -> option string * option string.
Variable parse_ls : list string -> bool * bool * list string.
Variable parse_rmdir : list string -> bool * bool * list string.

(** [commands.get(cmd)] *)
Definition commands (fuel : nat) (cmd : string)
  : option (list string -> SM (option bool)) :=
  if cmd =? "login" then
    Some (fun args => let '(u, p) := parse_login args in login u p)
  else if cmd =? "logout" then Some (fun _ => logout)
  else if cmd =? "ls" then
    Some (fun args => let '(l, d, names) := parse_ls args in ls l d names)
  else if cmd =? "mkdir" then Some mkdir_command
  else if cmd =? "rmdir" then
    Some (fun args => let '(p, v, names) := parse_rmdir args in rmdir p v names)
  else if cmd =? "cp" then Some (cp_command fuel)
  else if cmd =? "fetch" then Some (fun _ => fetch)
  else None.

(** The text printed when no command is given. *)
Definition usage (prog : string) : string :=
  ("usage: " ++ Py.basename prog ++ " <command> [options] [arguments]"
   ++ String (ascii_of_nat 10) ("for more info, run " ++ Py.basename prog
                                ++ " --help"))%string.

(** [__main__]: [prog] is [sys.argv[0]], [rest] is [sys.argv[1:]]; the
    value is the exit code. *)
Definition main (fuel : nat) (prog : string) (rest : list string) : SM Z :=
  if existsb (String.eqb "--help") (prog :: rest) then
    slog SHelp >>; sret 0%Z
  else
    match rest with
    | [] => sprint (EStr (usage prog)) >>; sret 1%Z
    | cmd :: args =>
        match commands fuel cmd with
        | None => sprint (EStr ("invalid command " ++ cmd)) >>; sret 1%Z
        | Some command =>
            fun s =>
              match command args s with
              | (Return st, s') =>
                  (Return (match st with Some true => 0 | _ => 1 end)%Z, s')
              | (Raise e, s') =>
                  (Return 1%Z, mk_sstate (session s') (log s' ++ [SOutExn e]))
              | (OutOfFuel, s') => (OutOfFuel, s')
              end
        end
    end.

End WithServer.

End Shell.

(** A string of blanks. *)
Fixpoint blank (s : string) : bool :=
  match s with
  | EmptyString => true
  | String c r => Ascii.eqb c " " && blank r
  end.

(** The command named on the command line [rest] comes to the outcome
    [o] from the state [s]. *)
Definition command_outcome (srv : Shell.Server)
    (parse_login : list string -> option string * option string)
    (parse_ls parse_rmdir : list string -> bool * bool * list string)
    (fuel : nat) (rest : list string) (s : Shell.sstate)
    (o : outcome (option bool)) : Prop :=
  exists cmd args command,
    rest = cmd :: args
    /\ Shell.commands srv parse_login parse_ls parse_rmdir fuel cmd = Some command
    /\ fst (command args s) = o.

(** ** Concrete worlds *)

Inductive node : Type :=
| NFile
| NDir (entries : list string).

Fixpoint lookup (fs : list (string * node)) (p : string) : option node :=
  match fs with
  | [] => None
  | (q, n) :: r => if String.eqb p q then Some n else lookup r p
  end.

Definition json_ok : json := mk_json true [] 0 [].

Definition json_no (errs : list string) : json := mk_json false errs 0 [].

(** A world over a finite local file system and a server that answers
    by the request alone. *)
Definition world_of (fs : list (string * node)) (post : request -> response)
  : World :=
  {| w_exists := fun p => match lookup fs p with Some _ => true | None => false end;
     w_isdir := fun p => match lookup fs p with Some (NDir _) => true | _ => false end;
     w_isfile := fun p => match lookup fs p with Some NFile => true | _ => false end;
     w_listdir := fun p => match lookup fs p with
                           | Some (NDir l) => inr l
                           | _ => inl (OSError "Not a directory")
                           end;
     w_open := fun p => match lookup fs p with Some NFile => true | _ => false end;
     w_seek := fun _ _ => true;
     w_post := fun _ rq => post rq |}.

(** The local tree of the scenarios of section 8. *)
Definition photos_fs : list (string * node) :=
  [ ("photos", NDir ["a.jpg"; "sub"]);
    ("photos/a.jpg", NFile);
    ("photos/sub", NDir ["b.jpg"]);
    ("photos/sub/b.jpg", NFile) ].

(** A server on which nothing exists yet and every request succeeds. *)
Definition fresh_server (rq : request) : response :=
  match rq with
  | ReqExists _ => RespOk (json_no [])
  | _ => RespOk json_ok
  end.

(** A server on which every probed path exists and every request
    succeeds. *)
Definition mirrored_server (rq : request) : response := RespOk json_ok.

(** A server on which every queried file is already complete. *)
Definition complete_server (rq : request) : response :=
  match rq with
  | ReqOffset _ _ => RespOk (mk_json true [] (-1) [])
  | _ => RespOk json_ok
  end.

(** A local tree with two sibling subdirectories. *)
Definition siblings_fs : list (string * node) :=
  [ ("d", NDir ["x"; "y"]);
    ("d/x", NDir []);
    ("d/y", NDir []) ].

(** A server that refuses to create [r/x] and accepts everything else. *)
Definition refusing_server (rq : request) : response :=
  match rq with
  | ReqExists _ => RespOk (json_no [])
  | ReqMkdir _ _ names =>
      if existsb (String.eqb "r/x") names
      then RespOk (json_no ["permission denied"])
      else RespOk json_ok
  | _ => RespOk json_ok
  end.

(** A local directory with two files. *)
Definition pair_fs : list (string * node) :=
  [ ("d", NDir ["a"; "b"]);
    ("d/a", NFile);
    ("d/b", NFile) ].

(** A server that rejects the upload of [a] and accepts everything
    else; nothing exists on it yet. *)
Definition quota_server (rq : request) : response :=
  match rq with
  | ReqExists _ => RespOk (json_no [])
  | ReqUpload _ field _ =>
      if String.eqb field "a" then RespOk (json_no ["disk full"])
      else RespOk json_ok
  | _ => RespOk json_ok
  end.

(** A world whose local files are those of the examples of the help
    text. *)
Definition media_fs : list (string * node) :=
  [ ("genesis.mp3", NFile);
    ("goodday.mp4", NFile);
    (".", NDir ["genesis.mp3"; "goodday.mp4"]) ].

(** Local entries whose names begin with a colon. *)
Definition colon_fs : list (string * node) :=
  [ (".", NDir [":multimedia"; ":calculus.pdf"]);
    (":multimedia", NDir []);
    (":calculus.pdf", NFile) ].

(** The shape of [siblings_fs] at [d]. *)
Definition siblings_shape : list (string * shape) :=
  [ ("x", SDir []); ("y", SDir []) ].

(** The scenario [cp -r photos :albums/2020] of section 8, with the
    remote target absent and present. *)
Definition scenario_absent : outcome (bool * errval) * trace :=
  Client.upload (world_of photos_fs fresh_server) 10
    "photos" "albums/2020" false true false [].

Definition scenario_present : outcome (bool * errval) * trace :=
  Client.upload (world_of photos_fs mirrored_server) 10
    "photos" "albums/2020" false true false [].

(** The recursive upload of [d] to [r] on the refusing server. *)
Definition refused_run : outcome (bool * errval) * trace :=
  Client.upload (world_of siblings_fs refusing_server) 10
    "d" "r" false true false [].

(** The command [cp -r d :r] on the server that rejects [a]. *)
Definition quota_run : outcome Z * trace :=
  Client.main_cp (world_of pair_fs quota_server) 10 ["-r"; "d"; ":r"] [].

(** A server that already holds the first five bytes of every file. *)
Definition partial_server (rq : request) : response :=
  match rq with
  | ReqOffset _ _ => RespOk (mk_json true [] 5 [])
  | _ => RespOk json_ok
  end.

(** A server that reports an offset of 2 ^ 63 for every file. *)
Definition overflowing_server (rq : request) : response :=
  match rq with
  | ReqOffset _ _ => RespOk (mk_json true [] 9223372036854775808 [])
  | _ => RespOk json_ok
  end.

(** A server behind a gateway that answers 502 to everything. *)
Definition down_server (rq : request) : response := RespFail 502.

(** The shape of [photos_fs] at [photos]. *)
Definition photos_shape : list (string * shape) :=
  [ ("a.jpg", SFile); ("sub", SDir [("b.jpg", SFile)]) ].

(** Two entries of a long listing. *)
Definition listed_files : list Shell.file_info :=
  [ Shell.mk_file_info true "alice" 1048576 "2020-05-01" "calculus.pdf";
    Shell.mk_file_info false "alice" 4096 "2020-05-02" "multimedia" ].

(** A server that accepts the login of alice, with or without the
    session cookie according to the password, and lists her home. *)
Definition home_server : Shell.Server :=
  {| Shell.sv_login := fun u p =>
       if String.eqb u "alice"
       then Shell.AnsOk
              (Shell.mk_login_body true []
                 (if String.eqb p "secret" then Some "s3ss10n" else None))
       else Shell.AnsOk (Shell.mk_login_body false ["no such user"] None);
     Shell.sv_logout := None;
     Shell.sv_ls_short := fun _ _ _ =>
       Shell.AnsOk
         (Shell.mk_ls_body false ["nofile: not found"]
            [[("", ["calculus.pdf"; "multimedia"])]; [("data", [])]]);
     Shell.sv_ls_long := fun _ _ names =>
       Shell.AnsOk
         (Shell.mk_ls_body true []
            (match names with
             | [] => [[("", listed_files)]]
             | _ => [[("empty", [])]]
             end));
     Shell.sv_rmdir := fun _ _ _ _ => Shell.AnsOk json_ok;
     Shell.sv_world := fun _ => world_of pair_fs quota_server |}.

(** Parsers for the command lines of the examples: [-u alice -p pw],
    and flags followed by names. *)
Definition demo_parse_login (args : list string)
  : option string * option string :=
  match args with
  | [_; u; _; p] => (Some u, Some p)
  | _ => (None, None)
  end.

Definition demo_parse_flags (args : list string) : bool * bool * list string :=
  (false, false, args).

Definition fresh_state : Shell.sstate := Shell.mk_sstate [] [].

(** * Properties *)

Import Client.

(** ** Paths *)

Example join_rel : Py.join "albums/2020" "photos" = "albums/2020/photos".
Proof. reflexivity. Qed.

Example join_abs : Py.join "albums/2020" "/home/u/photos" = "/home/u/photos".
Proof. reflexivity. Qed.

Example join_slash : Py.join "backup/" "f" = "backup/f".
Proof. reflexivity. Qed.

Example dirname_file : Py.dirname "backup/bigfile.bin" = "backup".
Proof. reflexivity. Qed.

Example dirname_plain : Py.dirname "fetched" = "".
Proof. reflexivity. Qed.

Example dirname_root : Py.dirname "//x" = "//".
Proof. reflexivity. Qed.

Example basename_file : Py.basename "photos/sub/b.jpg" = "b.jpg".
Proof. reflexivity. Qed.

Example join_empty_left : Py.join "" "a.jpg" = "a.jpg".
Proof. reflexivity. Qed.

Example join_empty_right : Py.join "r" "" = "r/".
Proof. reflexivity. Qed.

Example dirname_trailing : Py.dirname "multimedia/anv/" = "multimedia/anv".
Proof. reflexivity. Qed.

Example dirname_double : Py.dirname "a//b" = "a".
Proof. reflexivity. Qed.

Example dirname_top : Py.dirname "/a" = "/".
Proof. reflexivity. Qed.

Example drop_first_dot : Py.drop_first "." = "".
Proof. reflexivity. Qed.

(** ** Running a computation *)

Lemma bind_return {A B} (m : M A) (k : A -> M B) t a t' :
  m t = (Return a, t') -> bind m k t = k a t'.
Proof. intros H. unfold bind. rewrite H. reflexivity. Qed.

Lemma requests_of_app t1 t2 :
  requests_of (t1 ++ t2) = requests_of t1 ++ requests_of t2.
Proof.
  induction t1 as [|e t1 IH]; simpl; [reflexivity|].
  destruct e; simpl; rewrite IH; reflexivity.
Qed.

(** ** The offset sentinel (C1) *)

Section OffsetSentinel.

Variable w : World.

Lemma remote_file_offset_json src dst t j :
  w_post w t (ReqOffset src dst) = RespOk j ->
  remote_file_offset w src dst t
  = (Return (offset j), t ++ [EvRequest (ReqOffset src dst) (RespOk j)]).
Proof.
  intros H. unfold remote_file_offset, send_request, post, bind.
  rewrite H. reflexivity.
Qed.

(** C1 (the code departs from it): when the offset query answers the
    completion sentinel -1, [upload_one_file] does not return success:
    the tuple [True, None] is dropped, the file is opened and the seek
    to -1 raises [OSError].  The offset query is the only request of
    the call: no upload request is posted. *)
Theorem upload_one_file_sentinel_raises src dst verbose t j :
  w_post w t (ReqOffset src dst) = RespOk j ->
  offset j = (-1)%Z ->
  exists msg t',
    upload_one_file w src dst false verbose t = (Raise (OSError msg), t')
    /\ requests_of t' = requests_of t ++ [ReqOffset src dst].
Proof.
  intros Hpost Hoff.
  unfold upload_one_file.
  rewrite (bind_return _ _ t false t) by reflexivity.
  cbv beta iota.
  rewrite (bind_return _ _ _ _ _ (remote_file_offset_json _ _ _ _ Hpost)).
  rewrite Hoff. unfold open_rb.
  destruct (w_open w src) eqn:Hopen.
  - exists "Invalid argument". eexists. split.
    + unfold bind, emit, ret, seek, raise. simpl. reflexivity.
    + rewrite !requests_of_app. simpl. rewrite app_nil_r. reflexivity.
  - exists "No such file or directory". eexists. split.
    + unfold bind, raise. reflexivity.
    + rewrite requests_of_app. reflexivity.
Qed.

End OffsetSentinel.

Lemma upload_one_file_sentinel_raises_witness :
  exists msg t',
    upload_one_file (world_of photos_fs complete_server)
      "photos/a.jpg" "albums/2020/a.jpg" false false []
    = (Raise (OSError msg), t')
    /\ requests_of t' = [ReqOffset "photos/a.jpg" "albums/2020/a.jpg"].
Proof.
  apply (upload_one_file_sentinel_raises (world_of photos_fs complete_server)
           "photos/a.jpg" "albums/2020/a.jpg" false []
           (mk_json true [] (-1) [])); reflexivity.
Defined.

(** ** The dedup mode (C2) *)

(** C2 (the code departs from it): with the dedup flag set,
    [upload_one_file] never returns success: after the progress line
    of [-v] the call of [digest_of_path], a name that client.py does
    not bind, raises [NameError].  The server is not asked whether it
    holds the digest; no request at all is posted. *)
Theorem dedup_raises_name_error (w : World) src dst (verbose : bool) (t : trace) :
  upload_one_file w src dst true verbose t
  = (Raise (NameError "digest_of_path"),
     if verbose then t ++ [EvPrint (EStr "calculating/loading digest")] else t)
  /\ requests_of (snd (upload_one_file w src dst true verbose t))
     = requests_of t.
Proof.
  assert (E : upload_one_file w src dst true verbose t
              = (Raise (NameError "digest_of_path"),
                 if verbose
                 then t ++ [EvPrint (EStr "calculating/loading digest")]
                 else t)).
  { unfold upload_one_file, digest_of_path, bind.
    destruct verbose; reflexivity. }
  split; [exact E|]. rewrite E.
  destruct verbose; simpl snd; [|reflexivity].
  rewrite requests_of_app. simpl. apply app_nil_r.
Qed.

(** The command [cp -o genesis.mp3 :backup/genesis.mp3] on a server
    that accepts everything: the parent directory is requested, then
    the name error ends the command; the exit code is 1. *)
Example cp_dedup_exit_code :
  main_cp (world_of media_fs mirrored_server) 10
    ["-o"; "genesis.mp3"; ":backup/genesis.mp3"] []
  = (Return 1%Z,
     [EvRequest (ReqMkdir true false ["backup"]) (RespOk json_ok);
      EvPrintExn (NameError "digest_of_path")]).
Proof. vm_compute. reflexivity. Qed.

(** ** What a computation appends to the trace *)

Lemma appends_ret {A} P (a : A) : appends P (ret a).
Proof. intros t. exists []. simpl. rewrite app_nil_r. auto. Qed.

Lemma appends_raise {A} P e : appends P (@raise A e).
Proof. intros t. exists []. simpl. rewrite app_nil_r. auto. Qed.

Lemma appends_out_of_fuel {A} P : appends P (@out_of_fuel A).
Proof. intros t. exists []. simpl. rewrite app_nil_r. auto. Qed.

Lemma appends_lift {A} P (o : outcome A) : appends P (lift o).
Proof. intros t. exists []. simpl. rewrite app_nil_r. auto. Qed.

Lemma appends_emit P e : P e = true -> appends P (emit e).
Proof. intros H t. exists [e]. simpl. rewrite H. auto. Qed.

Lemma appends_bind {A B} P (m : M A) (k : A -> M B) :
  appends P m -> (forall a, appends P (k a)) -> appends P (bind m k).
Proof.
  intros Hm Hk t. destruct (Hm t) as (evs & E & F).
  unfold bind. destruct (m t) as [[a|e|] t']; simpl in E; subst t'.
  - destruct (Hk a (t ++ evs)) as (evs' & E' & F').
    exists (evs ++ evs'). rewrite E', app_assoc, forallb_app, F, F'. auto.
  - exists evs. auto.
  - exists evs. auto.
Qed.

Lemma appends_weaken {A} (P Q : event -> bool) (m : M A) :
  (forall e, P e = true -> Q e = true) -> appends P m -> appends Q m.
Proof.
  intros HPQ Hm t. destruct (Hm t) as (evs & E & F). exists evs.
  split; [exact E|]. rewrite forallb_forall in *. auto.
Qed.

Lemma appends_post P w rq :
  (forall rs, P (EvRequest rq rs) = true) -> appends P (post w rq).
Proof. intros H t. eexists [_]. simpl. rewrite H. auto. Qed.

Lemma appends_print_each P f l :
  (forall v, P (EvPrint v) = true) -> appends P (print_each f l).
Proof.
  intros H. induction l as [|x l IH]; simpl.
  - apply appends_ret.
  - apply appends_bind; [apply appends_emit, H | intros _; exact IH].
Qed.

Ltac appends_step :=
  match goal with
  | |- appends _ (bind _ _) => apply appends_bind; [| intros ?]
  | |- appends _ (ret _) => apply appends_ret
  | |- appends _ (raise _) => apply appends_raise
  | |- appends _ (lift _) => apply appends_lift
  | |- appends _ (emit _) => apply appends_emit; reflexivity
  | |- appends _ (print _) => apply appends_emit; reflexivity
  | |- appends _ (print_each _ _) => apply appends_print_each; reflexivity
  | |- appends _ (post _ _) => apply appends_post; reflexivity
  | |- appends _ (if ?c then _ else _) => destruct c
  | |- appends _ (match ?x with _ => _ end) => destruct x
  end.

Lemma quiet_created_dirs evs : forallb quiet evs = true -> created_dirs evs = [].
Proof.
  induction evs as [|e evs IH]; simpl; [reflexivity|].
  intros H. apply andb_prop in H as [He H].
  destruct e as [[]| | | |]; simpl in *; try discriminate; auto.
Qed.

Lemma print_requests evs : forallb is_print evs = true -> requests_of evs = [].
Proof.
  induction evs as [|e evs IH]; simpl; [reflexivity|].
  intros H. apply andb_prop in H as [He H].
  destruct e; simpl in *; try discriminate; auto.
Qed.

Lemma created_dirs_app t1 t2 :
  created_dirs (t1 ++ t2) = created_dirs t1 ++ created_dirs t2.
Proof. unfold created_dirs. rewrite requests_of_app. apply flat_map_app. Qed.

Lemma probes_app t1 t2 : probes (t1 ++ t2) = probes t1 ++ probes t2.
Proof. unfold probes. rewrite requests_of_app. apply filter_app. Qed.

Section Appends.

Variable w : World.

Lemma upload_one_file_quiet src dst one verbose :
  appends quiet (upload_one_file w src dst one verbose).
Proof.
  unfold upload_one_file, digest_of_path, one_mode_upload, remote_file_offset,
    send_request, assert_res, open_rb, seek.
  repeat appends_step.
Qed.

Lemma scan_entries_quiet one verbose dir dst_dir subs :
  forall dirs last,
    appends quiet (scan_entries w one verbose dir dst_dir subs dirs last).
Proof.
  induction subs as [|sub subs IH]; intros dirs last; simpl.
  - apply appends_ret.
  - destruct (w_isdir w _); [apply IH|].
    destruct (w_isfile w _); [|apply IH].
    apply appends_bind; [apply upload_one_file_quiet | intros r; apply IH].
Qed.

End Appends.

Lemma bind_assoc {A B C} (m : M A) (f : A -> M B) (g : B -> M C) t :
  bind (bind m f) g t = bind m (fun a => bind (f a) g) t.
Proof. unfold bind. destruct (m t) as [[a|e|] t']; reflexivity. Qed.

Lemma bind_tail {A B} P (m : M A) (k : A -> M B) t :
  (forall a, appends P (k a)) ->
  exists evs, snd (bind m k t) = snd (m t) ++ evs /\ forallb P evs = true.
Proof.
  intros Hk. unfold bind. destruct (m t) as [[a|e|] t']; simpl.
  - apply Hk.
  - exists []. rewrite app_nil_r. auto.
  - exists []. rewrite app_nil_r. auto.
Qed.

(** ** The effective remote directory of a directory task (C3) *)

Lemma bind_inv {A B} (m : M A) (k : A -> M B) t b t' :
  bind m k t = (Return b, t') ->
  exists a t1, m t = (Return a, t1) /\ k a t1 = (Return b, t').
Proof.
  unfold bind. destruct (m t) as [[a|e|] t1]; intros H; try discriminate.
  eauto.
Qed.

Lemma appends_run {A} P (m : M A) t o t' :
  appends P m -> m t = (o, t') ->
  exists evs, t' = t ++ evs /\ forallb P evs = true.
Proof.
  intros Hm E. destruct (Hm t) as (evs & Ht & F). rewrite E in Ht.
  exists evs. auto.
Qed.

Lemma file_destinations_app t1 t2 :
  file_destinations (t1 ++ t2) = file_destinations t1 ++ file_destinations t2.
Proof. unfold file_destinations. rewrite requests_of_app. apply flat_map_app. Qed.

Lemma not_offset_destinations evs :
  forallb not_offset evs = true -> file_destinations evs = [].
Proof.
  induction evs as [|e evs IH]; simpl; [reflexivity|].
  intros H. apply andb_prop in H as [He H].
  destruct e as [[]| | | |]; simpl in *; try discriminate; auto.
Qed.

Section DirTask.

Variable w : World.

Lemma mkdir_trace args t :
  exists evs,
    snd (mkdir w args t)
    = t ++ EvRequest (ReqMkdir (parse_flag "-p" args) (parse_flag "-v" args)
                        (parse_names ["-p"; "-v"] args))
                     (w_post w t (ReqMkdir (parse_flag "-p" args)
                                    (parse_flag "-v" args)
                                    (parse_names ["-p"; "-v"] args)))
           :: evs
    /\ forallb is_print evs = true.
Proof.
  unfold mkdir, send_request. cbv zeta. rewrite bind_assoc.
  match goal with
  | |- context [bind (post w ?rq) ?k t] =>
      destruct (bind_tail is_print (post w rq) k t) as (evs & E & F)
  end.
  - intros rs. repeat appends_step.
  - exists evs. rewrite E. simpl. rewrite <- app_assoc. auto.
Qed.

Lemma mkdir_created args t :
  created_dirs (snd (mkdir w args t))
  = created_dirs t ++ parse_names ["-p"; "-v"] args.
Proof.
  destruct (mkdir_trace args t) as (evs & E & F). rewrite E.
  rewrite created_dirs_app. unfold created_dirs at 2. simpl.
  fold (created_dirs evs). unfold created_dirs at 2.
  rewrite (print_requests evs F). simpl. rewrite app_nil_r. reflexivity.
Qed.

Lemma mkdir_args_names new_dir (verbose : bool) :
  new_dir <> "-p" -> new_dir <> "-v" ->
  parse_names ["-p"; "-v"]
    (if verbose then [new_dir; "-p"; "-v"] else [new_dir; "-p"])
  = [new_dir].
Proof.
  intros Hp Hv. apply String.eqb_neq in Hp, Hv.
  unfold parse_names. destruct verbose; simpl; rewrite Hp, Hv; reflexivity.
Qed.

(** The directory whose creation a directory task requests: the
    target itself when the probe is skipped or finds it absent, the
    target joined with the local directory path when the probe finds
    it present. *)
Lemma dir_task_created_dir one verbose (dir dst_dir : string) dirs
    (assume_not_exists : bool) last (t : trace) (target_exists : bool) :
  (if assume_not_exists then target_exists = false
   else exists j, w_post w t (ReqExists dst_dir) = RespOk j
                  /\ status j = target_exists) ->
  let new_dir := if target_exists then Py.join dst_dir dir else dst_dir in
  new_dir <> "-p" -> new_dir <> "-v" ->
  created_dirs
    (snd (dir_task w one verbose dir dst_dir dirs assume_not_exists last t))
  = created_dirs t ++ [new_dir].
Proof.
  intros Hprobe new_dir Hp Hv. unfold dir_task.
  assert (Hrest : forall (absent a : bool),
             appends quiet
               (assert_ a "" ;;
                subs <- listdir w dir ;;
                '(dirs0, last0) <-
                   scan_entries w one verbose dir dst_dir subs dirs last ;;
                ret (dirs0, if absent then true else assume_not_exists, last0))).
  { intros absent a. unfold assert_, listdir.
    repeat appends_step. apply scan_entries_quiet. }
  destruct assume_not_exists.
  - subst target_exists. rewrite (bind_return _ _ t true t) by reflexivity.
    cbv zeta.
    match goal with
    | |- context [bind (mkdir w ?args) ?k t] =>
        destruct (bind_tail quiet (mkdir w args) k t) as (evs & E & F);
        [intros a; apply (Hrest true a)|]
    end.
    rewrite E, created_dirs_app, mkdir_created, (quiet_created_dirs evs F).
    rewrite app_nil_r. subst new_dir. simpl app.
    rewrite (mkdir_args_names dst_dir verbose Hp Hv). reflexivity.
  - destruct Hprobe as (j & Hj & Hs).
    assert (Hrex : rexists w dst_dir t
                   = (Return (status j),
                      t ++ [EvRequest (ReqExists dst_dir) (RespOk j)])).
    { unfold rexists, send_request, post, bind. rewrite Hj. reflexivity. }
    rewrite bind_assoc, (bind_return _ _ _ _ _ Hrex).
    rewrite (bind_return _ _ _ (negb (status j)) _) by reflexivity.
    cbv zeta. rewrite Hs.
    match goal with
    | |- context [bind (mkdir w ?args) ?k ?t1] =>
        destruct (bind_tail quiet (mkdir w args) k t1) as (evs & E & F);
        [intros a; apply (Hrest (negb target_exists) a)|]
    end.
    rewrite E, created_dirs_app, mkdir_created, (quiet_created_dirs evs F).
    rewrite app_nil_r, created_dirs_app. unfold created_dirs at 2. simpl.
    rewrite app_nil_r. subst new_dir.
    destruct target_exists; simpl negb; cbv iota;
      rewrite (mkdir_args_names _ verbose Hp Hv); reflexivity.
Qed.

Lemma mkdir_not_offset args : appends not_offset (mkdir w args).
Proof. unfold mkdir, send_request. repeat appends_step. Qed.

Lemma upload_one_file_destination src dst one verbose t r t' :
  upload_one_file w src dst one verbose t = (Return r, t') ->
  file_destinations t' = file_destinations t ++ [dst]
  /\ created_dirs t' = created_dirs t.
Proof.
  intros H. split.
  - destruct one.
    { unfold upload_one_file, digest_of_path, bind in H.
      destruct verbose; discriminate. }
    unfold upload_one_file in H.
    rewrite (bind_return _ _ t false t) in H by reflexivity.
    cbv beta iota in H.
    apply bind_inv in H as (off & t1 & Ho & H).
    assert (Ht1 : exists rs, t1 = t ++ [EvRequest (ReqOffset src dst) rs]).
    { unfold remote_file_offset, send_request, post, bind in Ho.
      destruct (w_post w t (ReqOffset src dst)) as [j|code|e]; simpl in Ho;
        inversion Ho. eauto. }
    destruct Ht1 as (rs & ->).
    apply appends_run with (P := not_offset) in H as (evs & -> & F).
    + rewrite !file_destinations_app, (not_offset_destinations _ F).
      unfold file_destinations at 2. simpl. rewrite app_nil_r. reflexivity.
    + cbv zeta. unfold open_rb, seek, send_request, assert_res.
      repeat appends_step.
  - apply appends_run with (P := quiet) in H as (evs & -> & F);
      [|apply upload_one_file_quiet].
    rewrite created_dirs_app, (quiet_created_dirs _ F), app_nil_r.
    reflexivity.
Qed.

Lemma scan_entries_mirror one verbose dir dst_dir entries :
  Forall (fun e => models w (Py.join dir (fst e)) (snd e)) entries ->
  forall dirs last t r t',
    scan_entries w one verbose dir dst_dir (map fst entries) dirs last t
    = (Return r, t') ->
    fst r = dirs ++ child_tasks dir dst_dir entries
    /\ file_destinations t' = file_destinations t ++ direct_files dst_dir entries
    /\ created_dirs t' = created_dirs t.
Proof.
  induction 1 as [|[n s] es Hm _ IH]; intros dirs last t r t' H; simpl in *.
  - inversion H. simpl. rewrite !app_nil_r. auto.
  - inversion Hm as [p es' Hd Hl Hes | p Hd Hf | p Hd Hf]; subst; simpl in *.
    + rewrite Hd in H. apply IH in H as (H1 & H2 & H3).
      rewrite H1, <- app_assoc. auto.
    + rewrite Hd, Hf in H. apply bind_inv in H as (r1 & t1 & Hu & H).
      apply upload_one_file_destination in Hu as (Hu1 & Hu2).
      apply IH in H as (H1 & H2 & H3).
      rewrite H2, Hu1, H3, Hu2, <- app_assoc. auto.
    + rewrite Hd, Hf in H. apply IH in H. exact H.
Qed.

(** Where a directory task that runs to its end puts the entries of
    the local directory, whatever the probe found. *)
Lemma dir_task_entries one verbose dir dst_dir entries dirs
    (assume_not_exists : bool) last t r t' :
  models w dir (SDir entries) ->
  dir_task w one verbose dir dst_dir dirs assume_not_exists last t
  = (Return r, t') ->
  fst (fst r) = dirs ++ child_tasks dir dst_dir entries
  /\ file_destinations t' = file_destinations t ++ direct_files dst_dir entries.
Proof.
  intros Hm H. inversion Hm as [p es Hd Hl Hes| |]; subst.
  unfold dir_task in H.
  apply bind_inv in H as (absent & t0 & Hp & H).
  assert (F0 : file_destinations t0 = file_destinations t).
  { apply appends_run with (P := not_offset) in Hp as (evs & -> & F).
    - rewrite file_destinations_app, (not_offset_destinations _ F), app_nil_r.
      reflexivity.
    - unfold rexists, send_request, assert_res. repeat appends_step. }
  cbv zeta in H.
  apply bind_inv in H as (ok & t1 & Hmk & H).
  apply bind_inv in H as (u & t2 & Ha & H).
  assert (t2 = t1) as ->.
  { destruct ok; simpl in Ha; inversion Ha; reflexivity. }
  unfold listdir in H. rewrite Hl in H.
  rewrite (bind_return (ret _) _ _ _ _ eq_refl) in H.
  apply bind_inv in H as ([d l] & t3 & Hs & H).
  inversion H; subst. simpl.
  apply scan_entries_mirror in Hs as (S1 & S2 & S3); [|exact Hes].
  simpl in S1.
  assert (F1 : file_destinations t1 = file_destinations t0).
  { apply appends_run with (P := not_offset) in Hmk as (evs & -> & F);
      [|apply mkdir_not_offset].
    rewrite file_destinations_app, (not_offset_destinations _ F), app_nil_r.
    reflexivity. }
  rewrite S2, F1, F0. auto.
Qed.

(** C3 (as amended): in a directory task that runs to its end, the
    effective remote directory is the target itself, whatever the
    probe found: every subdirectory of the local directory is queued
    with the target joined with its name, and every regular file is
    sent to the target joined with its name.  When the probe is
    skipped or finds the target absent, the directory whose creation
    is requested is the target itself (its name must not read as a
    flag of [mkdir]).  So a directory uploaded to an absent target is
    not nested under its own name. *)
Theorem dir_task_effective_dir one verbose dir dst_dir entries dirs
    (assume_not_exists : bool) last t r t' :
  models w dir (SDir entries) ->
  dir_task w one verbose dir dst_dir dirs assume_not_exists last t
  = (Return r, t') ->
  fst (fst r) = dirs ++ child_tasks dir dst_dir entries
  /\ file_destinations t' = file_destinations t ++ direct_files dst_dir entries
  /\ (assume_not_exists = true
      \/ (exists j, w_post w t (ReqExists dst_dir) = RespOk j
                    /\ status j = false) ->
      not_flag dst_dir ->
      created_dirs t' = created_dirs t ++ [dst_dir]).
Proof.
  intros Hm H.
  destruct (dir_task_entries _ _ _ _ _ _ _ _ _ _ _ Hm H) as [E1 E2].
  split; [exact E1|]. split; [exact E2|].
  intros Habsent [Hp Hv].
  pose proof (dir_task_created_dir one verbose dir dst_dir dirs
                assume_not_exists last t false) as C.
  rewrite H in C. simpl in C. apply C; auto.
  destruct assume_not_exists; [reflexivity|].
  destruct Habsent as [Ha|Ha]; [discriminate | exact Ha].
Qed.

End DirTask.

Lemma photos_models_on post :
  models (world_of photos_fs post) "photos" (SDir photos_shape).
Proof.
  constructor; [reflexivity | reflexivity |].
  repeat constructor.
Qed.

Lemma dir_task_effective_dir_witness :
  (* the target is absent *)
  ([("photos/sub", "albums/2020/sub")]
   = [] ++ child_tasks "photos" "albums/2020" photos_shape
   /\ file_destinations
        [EvRequest (ReqExists "albums/2020") (RespOk (json_no []));
         EvRequest (ReqMkdir true false ["albums/2020"]) (RespOk json_ok);
         EvRequest (ReqOffset "photos/a.jpg" "albums/2020/a.jpg") (RespOk json_ok);
         EvOpen "photos/a.jpg"; EvSeek "photos/a.jpg" 0;
         EvRequest (ReqUpload 0 "a.jpg" "photos/a.jpg") (RespOk json_ok)]
      = file_destinations [] ++ direct_files "albums/2020" photos_shape
   /\ created_dirs
        [EvRequest (ReqExists "albums/2020") (RespOk (json_no []));
         EvRequest (ReqMkdir true false ["albums/2020"]) (RespOk json_ok);
         EvRequest (ReqOffset "photos/a.jpg" "albums/2020/a.jpg") (RespOk json_ok);
         EvOpen "photos/a.jpg"; EvSeek "photos/a.jpg" 0;
         EvRequest (ReqUpload 0 "a.jpg" "photos/a.jpg") (RespOk json_ok)]
      = created_dirs [] ++ ["albums/2020"])
  (* the target is present *)
  /\ ([("photos/sub", "albums/2020/sub")]
      = [] ++ child_tasks "photos" "albums/2020" photos_shape
      /\ file_destinations
           [EvRequest (ReqExists "albums/2020") (RespOk json_ok);
            EvRequest (ReqMkdir true false ["albums/2020/photos"]) (RespOk json_ok);
            EvRequest (ReqOffset "photos/a.jpg" "albums/2020/a.jpg") (RespOk json_ok);
            EvOpen "photos/a.jpg"; EvSeek "photos/a.jpg" 0;
            EvRequest (ReqUpload 0 "a.jpg" "photos/a.jpg") (RespOk json_ok)]
         = file_destinations [] ++ direct_files "albums/2020" photos_shape).
Proof.
  split.
  - destruct (dir_task_effective_dir (world_of photos_fs fresh_server)
                false false "photos" "albums/2020" photos_shape [] false None []
                ([("photos/sub", "albums/2020/sub")], true,
                 Some (true, EList []))
                [EvRequest (ReqExists "albums/2020") (RespOk (json_no []));
                 EvRequest (ReqMkdir true false ["albums/2020"]) (RespOk json_ok);
                 EvRequest (ReqOffset "photos/a.jpg" "albums/2020/a.jpg")
                   (RespOk json_ok);
                 EvOpen "photos/a.jpg"; EvSeek "photos/a.jpg" 0;
                 EvRequest (ReqUpload 0 "a.jpg" "photos/a.jpg") (RespOk json_ok)]
                (photos_models_on fresh_server) eq_refl) as (H1 & H2 & H3).
    split; [exact H1|]. split; [exact H2|]. apply H3.
    + right. exists (json_no []). split; reflexivity.
    + split; discriminate.
  - destruct (dir_task_effective_dir (world_of photos_fs mirrored_server)
                false false "photos" "albums/2020" photos_shape [] false None []
                ([("photos/sub", "albums/2020/sub")], false,
                 Some (true, EList []))
                [EvRequest (ReqExists "albums/2020") (RespOk json_ok);
                 EvRequest (ReqMkdir true false ["albums/2020/photos"])
                   (RespOk json_ok);
                 EvRequest (ReqOffset "photos/a.jpg" "albums/2020/a.jpg")
                   (RespOk json_ok);
                 EvOpen "photos/a.jpg"; EvSeek "photos/a.jpg" 0;
                 EvRequest (ReqUpload 0 "a.jpg" "photos/a.jpg") (RespOk json_ok)]
                (photos_models_on mirrored_server) eq_refl) as (H1 & H2 & _).
    split; [exact H1 | exact H2].
Defined.

(** C3 (as stated, refuted): in the scenario [cp -r photos
    :albums/2020] with the target absent, the upload runs to its end,
    the client creates [albums/2020] and [albums/2020/sub] and sends
    the files to [albums/2020/a.jpg] and [albums/2020/sub/b.jpg]:
    nothing is created or sent under [albums/2020/photos], the
    effective directory of section 4.2 for an absent target. *)
Lemma upload_scenario_not_as_specified :
  fst scenario_absent = Return (true, EList [])
  /\ created_dirs (snd scenario_absent) = ["albums/2020"; "albums/2020/sub"]
  /\ file_destinations (snd scenario_absent)
     = ["albums/2020/a.jpg"; "albums/2020/sub/b.jpg"]
  /\ spec_effective_dir false "albums/2020" "photos" = "albums/2020/photos"
  /\ Forall (fun p => Py.startswith p
                        (spec_effective_dir false "albums/2020" "photos")
                      = false)
       (created_dirs (snd scenario_absent)
        ++ file_destinations (snd scenario_absent)).
Proof.
  vm_compute. repeat split; repeat constructor.
Qed.

(** With the target present the files go under the target as well,
    as section 4.2 says; the directory requested first,
    [albums/2020/photos], is left empty. *)
Example upload_present_target_merges :
  file_destinations (snd scenario_present)
  = ["albums/2020/a.jpg"; "albums/2020/sub/b.jpg"]
  /\ created_dirs (snd scenario_present)
     = ["albums/2020/photos"; "albums/2020/sub/photos/sub"].
Proof. vm_compute. split; reflexivity. Qed.

(** ** One probe per walk (C4) *)

(** C4 (the code departs from it): when the first probe finds the
    target present, [assume_not_exists] stays [False] and the next
    directory task probes again: the walk over [photos] and
    [photos/sub] calls [rexists] twice. *)
Theorem walk_probes_twice :
  probes (snd scenario_present)
  = [ReqExists "albums/2020"; ReqExists "albums/2020/sub"].
Proof. vm_compute. reflexivity. Qed.

Lemma yields_bind {A B} (Q1 : A -> Prop) (Q : B -> Prop)
    (m : M A) (k : A -> M B) :
  yields Q1 m -> (forall a, Q1 a -> yields Q (k a)) -> yields Q (bind m k).
Proof.
  intros Hm Hk t b. unfold bind. specialize (Hm t).
  destruct (m t) as [[a|e|] t']; simpl in *; try discriminate.
  apply (Hk a (Hm a eq_refl) t' b).
Qed.

Lemma yields_any {A} (m : M A) : yields (fun _ => True) m.
Proof. intros t a _. exact I. Qed.

Lemma appends_bind_yields {A B} P (Q : A -> Prop) (m : M A) (k : A -> M B) :
  appends P m -> yields Q m -> (forall a, Q a -> appends P (k a)) ->
  appends P (bind m k).
Proof.
  intros Hm Hq Hk t. destruct (Hm t) as (evs & E & F). specialize (Hq t).
  unfold bind. destruct (m t) as [[a|e|] t']; simpl in E, Hq; subst t'.
  - destruct (Hk a (Hq a eq_refl) (t ++ evs)) as (evs' & E' & F').
    exists (evs ++ evs'). rewrite E', app_assoc, forallb_app, F, F'. auto.
  - exists evs. auto.
  - exists evs. auto.
Qed.

Lemma not_probe_probes evs : forallb not_probe evs = true -> probes evs = [].
Proof.
  induction evs as [|e evs IH]; simpl; [reflexivity|].
  intros H. apply andb_prop in H as [He H].
  destruct e as [[]| | | |]; simpl in *; try discriminate; auto.
Qed.

Section ProbeOnce.

Variable w : World.

Lemma dir_task_assumed_flag one verbose dir dst_dir dirs last :
  yields (fun r => snd (fst r) = true)
    (dir_task w one verbose dir dst_dir dirs true last).
Proof.
  unfold dir_task. cbv iota.
  apply (yields_bind (fun absent => absent = true)).
  { intros t a H. inversion H. reflexivity. }
  intros absent ->. cbv zeta iota.
  repeat (apply (yields_bind (fun _ => True)); [apply yields_any | intros ? _]).
  match goal with |- yields _ (match ?x with _ => _ end) => destruct x end.
  intros t r H. inversion H. reflexivity.
Qed.

Lemma dir_task_assumed_no_probe one verbose dir dst_dir dirs last :
  appends not_probe (dir_task w one verbose dir dst_dir dirs true last).
Proof.
  unfold dir_task. cbv iota.
  apply appends_bind; [apply appends_ret|]. intros absent.
  unfold mkdir, send_request, assert_, listdir.
  repeat appends_step.
  apply (appends_weaken quiet); [|apply scan_entries_quiet].
  intros [[]| | | |]; simpl; congruence.
Qed.

Lemma walk_assumed_no_probe fuel one verbose :
  forall dirs last, appends not_probe (walk w fuel one verbose dirs true last).
Proof.
  induction fuel as [|fuel IH]; intros dirs last;
    destruct dirs as [|[dir dst_dir] dirs]; simpl.
  - apply appends_ret.
  - apply appends_out_of_fuel.
  - apply appends_ret.
  - apply (appends_bind_yields _ (fun r => snd (fst r) = true)).
    + apply dir_task_assumed_no_probe.
    + apply dir_task_assumed_flag.
    + intros [[d a] l] Ha. simpl in Ha. subst a. apply IH.
Qed.

(** The probe that finds the target absent sets the flag: the task goes
    on as a task whose probe is skipped. *)
Lemma dir_task_probe_absent one verbose dir dst_dir dirs last t j :
  w_post w t (ReqExists dst_dir) = RespOk j -> status j = false ->
  dir_task w one verbose dir dst_dir dirs false last t
  = dir_task w one verbose dir dst_dir dirs true last
      (t ++ [EvRequest (ReqExists dst_dir) (RespOk j)]).
Proof.
  intros Hj Hs. unfold dir_task.
  assert (Hrex : rexists w dst_dir t
                 = (Return (status j),
                    t ++ [EvRequest (ReqExists dst_dir) (RespOk j)])).
  { unfold rexists, send_request, post, bind. rewrite Hj. reflexivity. }
  rewrite bind_assoc, (bind_return _ _ _ _ _ Hrex).
  rewrite (bind_return _ _ _ (negb (status j)) _) by reflexivity.
  rewrite Hs. reflexivity.
Qed.

(** The half of C4 that the code keeps: when the first probe finds the
    target absent, it is the only probe of the walk. *)
Lemma upload_probes_once_when_absent fuel src dst one verbose t j :
  w_isdir w src = true ->
  w_post w t (ReqExists dst) = RespOk j -> status j = false ->
  probes (snd (upload w (S fuel) src dst one true verbose t))
  = probes t ++ [ReqExists dst].
Proof.
  intros Hd Hj Hs. unfold upload. rewrite Hd.
  change (negb true) with false. cbv iota.
  match goal with
  | |- context [bind ?m ?k t] =>
      destruct (bind_tail not_probe m k t) as (evs & E & F)
  end.
  { intros [r|]; [apply appends_ret | apply appends_raise]. }
  rewrite E. simpl walk. unfold bind at 1.
  rewrite (dir_task_probe_absent _ _ _ _ _ _ _ _ Hj Hs).
  match goal with
  | |- context [dir_task w ?o ?v ?d ?dd ?ds true ?l ?t1] =>
      destruct (appends_bind_yields not_probe (fun r => snd (fst r) = true)
                  (dir_task w o v d dd ds true l)
                  (fun r => let '(dirs0, a0, last0) := r in
                            walk w fuel o v dirs0 a0 last0)
                  (dir_task_assumed_no_probe o v d dd ds l)
                  (dir_task_assumed_flag o v d dd ds l)) with (t := t1)
        as (evs' & E' & F')
  end.
  { intros [[d a] l] Ha. simpl in Ha. subst a. apply walk_assumed_no_probe. }
  unfold bind in E'. rewrite E'.
  rewrite !probes_app, (not_probe_probes _ F), (not_probe_probes _ F').
  simpl. rewrite !app_nil_r. reflexivity.
Qed.

End ProbeOnce.

(** ** A failed directory creation (C5) *)

(** C5 (as stated, refuted): the creation of [r/x] fails, and the walk
    stops with an assertion error; the sibling [d/y] is never
    processed, its directory [r/y] never requested. *)
Lemma failed_mkdir_stops_walk :
  fst refused_run = Raise (AssertionError "")
  /\ created_dirs (snd refused_run) = ["r"; "r/x"]
  /\ ~ In "r/y" (created_dirs (snd refused_run)).
Proof.
  vm_compute. repeat split; try discriminate.
  intros [H|[H|[]]]; discriminate.
Qed.

Section FailedMkdir.

Variable w : World.

Lemma print_each_run f l t :
  print_each f l t = (Return tt, t ++ map (fun x => EvPrint (EStr (f x))) l).
Proof.
  revert t. induction l as [|x l IH]; intros t; simpl.
  - unfold ret. rewrite app_nil_r. reflexivity.
  - unfold bind, print, emit. rewrite IH, <- app_assoc. reflexivity.
Qed.

Lemma requests_of_prints (g : string -> errval) l :
  requests_of (map (fun x => EvPrint (g x)) l) = [].
Proof. induction l; simpl; auto. Qed.

Lemma mkdir_rejected args t :
  rejected (w_post w t (ReqMkdir (parse_flag "-p" args) (parse_flag "-v" args)
                          (parse_names ["-p"; "-v"] args))) = true ->
  exists t',
    mkdir w args t = (Return false, t')
    /\ requests_of t'
       = requests_of t ++ [ReqMkdir (parse_flag "-p" args) (parse_flag "-v" args)
                             (parse_names ["-p"; "-v"] args)].
Proof.
  intros H. unfold mkdir, send_request, post, bind. cbv zeta.
  destruct (w_post w t _) as [j|code|e]; simpl in H; try discriminate.
  - unfold ret at 1. cbv beta iota. rewrite H.
    destruct (parse_flag "-v" args); unfold ret, bind;
      rewrite ?print_each_run; eexists; (split; [reflexivity|]);
      rewrite !requests_of_app, ?requests_of_prints; simpl;
      rewrite ?app_nil_r; reflexivity.
  - eexists. split; [reflexivity|].
    rewrite !requests_of_app. simpl. rewrite app_nil_r. reflexivity.
Qed.

End FailedMkdir.

Lemma forallb_map_print (g : string -> errval) l :
  forallb is_print (map (fun x => EvPrint (g x)) l) = true.
Proof. induction l; simpl; auto. Qed.

Lemma no_mkdir_split evs before rq rs after :
  forallb no_mkdir evs = true ->
  evs = before ++ EvRequest rq rs :: after ->
  is_mkdir rq = true -> False.
Proof.
  intros F -> Hmk. rewrite forallb_app in F. apply andb_prop in F as [_ F].
  simpl in F. destruct rq; simpl in *; discriminate.
Qed.

Lemma quiet_no_mkdir e : quiet e = true -> no_mkdir e = true.
Proof. destruct e as [[]| | | |]; simpl; congruence. Qed.

Lemma fail_fast_no_mkdir {A} (m : M A) : appends no_mkdir m -> fail_fast m.
Proof.
  intros Hm t. destruct (Hm t) as (evs & E & F). exists evs.
  split; [exact E|]. intros before rq rs after Hs Hmk _.
  destruct (no_mkdir_split _ _ _ _ _ F Hs Hmk).
Qed.

Lemma fail_fast_bind {A B} (m : M A) (k : A -> M B) :
  fail_fast m -> (forall a, fail_fast (k a)) -> fail_fast (bind m k).
Proof.
  intros Hm Hk t. destruct (Hm t) as (e1 & E1 & F1). unfold bind.
  destruct (m t) as [[a|e|] t1]; simpl in E1, F1; subst t1.
  - destruct (Hk a (t ++ e1)) as (e2 & E2 & F2).
    exists (e1 ++ e2). split; [rewrite E2, app_assoc; reflexivity|].
    intros before rq rs after Hs Hmk Hrej.
    apply app_eq_app in Hs as (l & [[H1 H2]|[H1 H2]]).
    + destruct l as [|x l]; simpl in H2.
      * apply (F2 [] rq rs after); auto.
      * inversion H2; subst.
        destruct (F1 before rq rs l eq_refl Hmk Hrej) as [Habs _].
        discriminate.
    + apply (F2 l rq rs after); auto.
  - exists e1. split; [reflexivity|].
    intros before rq rs after Hs Hmk Hrej.
    destruct (F1 before rq rs after Hs Hmk Hrej) as [H1 H2].
    inversion H1. auto.
  - exists e1. split; [reflexivity|].
    intros before rq rs after Hs Hmk Hrej.
    destruct (F1 before rq rs after Hs Hmk Hrej) as [H1 H2].
    discriminate.
Qed.

Lemma fail_fast_ext {A} (m m' : M A) :
  (forall t, m t = m' t) -> fail_fast m -> fail_fast m'.
Proof.
  intros E Hm t. destruct (Hm t) as (evs & E1 & F1). rewrite <- E. eauto.
Qed.

Lemma faithful_silent w {A} (m : M A) : appends no_request m -> faithful w m.
Proof.
  intros Hm t. destruct (Hm t) as (evs & E & F). exists evs.
  split; [exact E|]. intros before rq rs after ->.
  rewrite forallb_app in F. apply andb_prop in F as [_ F]. discriminate.
Qed.

Lemma faithful_post w rq : faithful w (post w rq).
Proof.
  intros t. exists [EvRequest rq (w_post w t rq)]. split; [reflexivity|].
  intros before rq' rs after H. destruct before as [|x before].
  - inversion H. rewrite app_nil_r. reflexivity.
  - inversion H. destruct before; discriminate.
Qed.

Lemma faithful_bind w {A B} (m : M A) (k : A -> M B) :
  faithful w m -> (forall a, faithful w (k a)) -> faithful w (bind m k).
Proof.
  intros Hm Hk t. destruct (Hm t) as (e1 & E1 & F1). unfold bind.
  destruct (m t) as [[a|e|] t1]; simpl in E1; subst t1;
    try (exists e1; split; [reflexivity | exact F1]).
  destruct (Hk a (t ++ e1)) as (e2 & E2 & F2).
  exists (e1 ++ e2). split; [rewrite E2, app_assoc; reflexivity|].
  intros before rq rs after Hs.
  apply app_eq_app in Hs as (l & [[H1 H2]|[H1 H2]]).
  - destruct l as [|x l]; simpl in H2.
    + subst e1. rewrite app_nil_r in *.
      rewrite <- (app_nil_r (t ++ before)). apply (F2 [] rq rs after).
      symmetry. exact H2.
    + inversion H2; subst. apply (F1 before rq rs l eq_refl).
  - subst before. rewrite app_assoc. apply (F2 l rq rs after). exact H2.
Qed.

Ltac faithful_step :=
  match goal with
  | |- faithful _ (bind _ _) => apply faithful_bind; [| intros ?]
  | |- faithful _ (post _ _) => apply faithful_post
  | |- faithful _ (if ?c then _ else _) => destruct c
  | |- faithful _ (match ?x with _ => _ end) => destruct x
  | |- faithful _ _ => solve [apply faithful_silent; repeat appends_step]
  end.

Section FailFast.

Variable w : World.

Lemma mkdir_faithful args : faithful w (mkdir w args).
Proof. unfold mkdir, send_request. repeat faithful_step. Qed.

Lemma upload_one_file_faithful src dst one verbose :
  faithful w (upload_one_file w src dst one verbose).
Proof.
  unfold upload_one_file, digest_of_path, one_mode_upload, remote_file_offset,
    send_request, assert_res, open_rb, seek.
  repeat faithful_step.
Qed.

Lemma scan_entries_faithful one verbose dir dst_dir subs :
  forall dirs last,
    faithful w (scan_entries w one verbose dir dst_dir subs dirs last).
Proof.
  induction subs as [|sub subs IH]; intros dirs last; simpl.
  - faithful_step.
  - destruct (w_isdir w _); [apply IH|].
    destruct (w_isfile w _); [|apply IH].
    apply faithful_bind; [apply upload_one_file_faithful | intros r; apply IH].
Qed.

Lemma dir_task_faithful one verbose dir dst_dir dirs a last :
  faithful w (dir_task w one verbose dir dst_dir dirs a last).
Proof.
  unfold dir_task, rexists, send_request, assert_res, assert_, listdir.
  repeat first [apply mkdir_faithful | apply scan_entries_faithful
               | faithful_step].
Qed.

Lemma walk_faithful fuel one verbose :
  forall dirs a last, faithful w (walk w fuel one verbose dirs a last).
Proof.
  induction fuel as [|fuel IH]; intros dirs a last;
    destruct dirs as [|[dir dst_dir] dirs]; simpl.
  - apply faithful_silent, appends_ret.
  - apply faithful_silent, appends_out_of_fuel.
  - apply faithful_silent, appends_ret.
  - apply faithful_bind; [apply dir_task_faithful|].
    intros [[d a'] l]. apply IH.
Qed.

(** The trace of [upload] records the answers of the server. *)
Lemma upload_faithful fuel src dst one recursive verbose :
  faithful w (upload w fuel src dst one recursive verbose).
Proof.
  unfold upload, return_status, assert_.
  repeat first [apply mkdir_faithful | apply walk_faithful
               | apply upload_one_file_faithful | faithful_step].
Qed.

(** A run of [mkdir]: the request, then only lines printed; the value
    tells whether the server accepted. *)
Lemma mkdir_run args t :
  let rq := ReqMkdir (parse_flag "-p" args) (parse_flag "-v" args)
              (parse_names ["-p"; "-v"] args) in
  exists prints,
    forallb is_print prints = true
    /\ mkdir w args t
       = (match w_post w t rq with
          | RespRaise e => Raise e
          | rs => Return (negb (rejected rs))
          end,
          t ++ EvRequest rq (w_post w t rq) :: prints).
Proof.
  intros rq. unfold mkdir. cbv zeta. fold rq.
  unfold send_request, post, bind.
  destruct (w_post w t rq) as [j|code|e]; cbv beta iota.
  - unfold ret at 1. cbv beta iota.
    destruct (parse_flag "-v" args), (status j) eqn:Es; cbn [negb];
      cbv beta iota; eexists;
      (split;
       [|unfold ret; cbv beta iota; rewrite ?print_each_run; cbv beta iota;
         rewrite ?print_each_run; cbv beta iota;
         unfold rejected; rewrite ?Es; cbn [negb];
         rewrite <- ?app_assoc; cbn [app]; reflexivity]);
      rewrite ?forallb_app, ?forallb_map_print; reflexivity.
  - exists [EvPrint (EStr ("request failed (code " ++ Py.str_of_int code ++ ")"))].
    split; [reflexivity|]. unfold print, emit, ret. simpl.
    rewrite <- app_assoc. reflexivity.
  - exists []. split; reflexivity.
Qed.

(** [assert mkdir(args, mkdir_api)] *)
Lemma mkdir_assert_fail_fast args :
  fail_fast (ok <- mkdir w args ;; assert_ ok "").
Proof.
  intros t. destruct (mkdir_run args t) as (prints & Fp & E).
  cbv zeta in E. unfold bind. rewrite E.
  set (rq := ReqMkdir _ _ _) in *. set (rs := w_post w t rq) in *.
  exists (EvRequest rq rs :: prints).
  assert (Hsplit : forall before rq' rs' after,
             EvRequest rq rs :: prints = before ++ EvRequest rq' rs' :: after ->
             before = [] /\ rs' = rs /\ after = prints).
  { intros before rq' rs' after H. destruct before as [|x before].
    - inversion H. auto.
    - inversion H; subst.
      exfalso. rewrite forallb_app in Fp. apply andb_prop in Fp as [_ Fp].
      simpl in Fp. discriminate. }
  destruct rs as [j|code|e] eqn:Ers.
  - destruct (status j) eqn:Es; unfold rejected; rewrite Es; cbn [negb].
    + split; [reflexivity|]. intros before rq' rs' after H _ Hrej.
      apply Hsplit in H as (_ & -> & _). simpl in Hrej. rewrite Es in Hrej.
      discriminate.
    + split; [reflexivity|]. intros before rq' rs' after H _ _.
      apply Hsplit in H as (_ & _ & ->). split; [reflexivity|].
      apply print_requests. exact Fp.
  - split; [reflexivity|]. intros before rq' rs' after H _ _.
    apply Hsplit in H as (_ & _ & ->). split; [reflexivity|].
    apply print_requests. exact Fp.
  - split; [reflexivity|]. intros before rq' rs' after H _ Hrej.
    apply Hsplit in H as (_ & -> & _). discriminate.
Qed.

Lemma mkdir_assert_then {B} args (k : M B) :
  fail_fast k -> fail_fast (ok <- mkdir w args ;; assert_ ok "" ;; k).
Proof.
  intros Hk.
  apply (fail_fast_ext ((ok <- mkdir w args ;; assert_ ok "") ;; k)).
  - intros t. apply bind_assoc.
  - apply fail_fast_bind; [apply mkdir_assert_fail_fast | intros _; exact Hk].
Qed.

Lemma dir_task_fail_fast one verbose dir dst_dir dirs a last :
  fail_fast (dir_task w one verbose dir dst_dir dirs a last).
Proof.
  unfold dir_task. apply fail_fast_bind.
  { apply fail_fast_no_mkdir. unfold rexists, send_request, assert_res.
    repeat appends_step. }
  intros absent. cbv zeta. apply mkdir_assert_then.
  apply fail_fast_no_mkdir. unfold listdir. repeat appends_step.
  apply (appends_weaken quiet); [apply quiet_no_mkdir | apply scan_entries_quiet].
Qed.

Lemma walk_fail_fast fuel one verbose :
  forall dirs a last, fail_fast (walk w fuel one verbose dirs a last).
Proof.
  induction fuel as [|fuel IH]; intros dirs a last;
    destruct dirs as [|[dir dst_dir] dirs]; simpl.
  - apply fail_fast_no_mkdir, appends_ret.
  - apply fail_fast_no_mkdir, appends_out_of_fuel.
  - apply fail_fast_no_mkdir, appends_ret.
  - apply fail_fast_bind; [apply dir_task_fail_fast|].
    intros [[d a'] l]. apply IH.
Qed.

Lemma upload_fail_fast fuel src dst one recursive verbose :
  fail_fast (upload w fuel src dst one recursive verbose).
Proof.
  unfold upload. destruct (w_isdir w src).
  - destruct (negb recursive); [apply fail_fast_no_mkdir, appends_ret|].
    apply fail_fast_bind; [apply walk_fail_fast|].
    intros [r|]; apply fail_fast_no_mkdir;
      [apply appends_ret | apply appends_raise].
  - apply mkdir_assert_then. apply fail_fast_no_mkdir.
    apply appends_bind.
    + apply (appends_weaken quiet);
        [apply quiet_no_mkdir | apply upload_one_file_quiet].
    + intros r. apply appends_ret.
Qed.

(** C5 (as amended): in every run of [upload], in any environment,
    when the server rejects a directory-creation request at the moment
    it is posted (a false status or a response that is not OK), the
    operation is aborted: [upload] raises the assertion error and no
    request follows the rejected one, so the directories still queued
    are not traversed. *)
Theorem mkdir_failure_aborts_walk fuel src dst one recursive verbose t out
    before rq rs after :
  upload w fuel src dst one recursive verbose t
  = (out, t ++ before ++ EvRequest rq rs :: after) ->
  is_mkdir rq = true ->
  rejected (w_post w (t ++ before) rq) = true ->
  out = Raise (AssertionError "") /\ requests_of after = [].
Proof.
  intros H Hmk Hrej.
  destruct (upload_faithful fuel src dst one recursive verbose t)
    as (evs0 & E0 & F0).
  destruct (upload_fail_fast fuel src dst one recursive verbose t)
    as (evs & E & F).
  rewrite H in E0, E, F. simpl in E0, E, F.
  apply app_inv_head in E0. apply app_inv_head in E. subst evs0 evs.
  rewrite <- (F0 before rq rs after eq_refl) in Hrej.
  apply (F before rq rs after); auto.
Qed.

End FailFast.

Lemma mkdir_failure_aborts_walk_witness :
  fst refused_run = Raise (AssertionError "")
  /\ requests_of [EvPrint (EStr "error: permission denied")] = [].
Proof.
  apply (mkdir_failure_aborts_walk (world_of siblings_fs refusing_server)
           10 "d" "r" false true false [] (fst refused_run)
           [EvRequest (ReqExists "r") (RespOk (json_no []));
            EvRequest (ReqMkdir true false ["r"]) (RespOk json_ok)]
           (ReqMkdir true false ["r/x"])
           (RespOk (json_no ["permission denied"]))
           [EvPrint (EStr "error: permission denied")]);
    reflexivity.
Defined.

(** ** The exit status of a directory transfer (C6) *)

(** C6 (the code departs from it): in [cp -r d :r] the upload of [d/a]
    is rejected by the server and the upload of [d/b] succeeds; [upload]
    keeps only the status of the last file, [cp] prints nothing and the
    exit code is 0. *)
Theorem cp_directory_forgets_failure :
  fst quota_run = Return 0%Z
  /\ In (EvRequest (ReqUpload 0 "a" "d/a") (RespOk (json_no ["disk full"])))
        (snd quota_run)
  /\ filter is_print (snd quota_run) = [].
Proof.
  vm_compute. repeat split. right. right. right. right. right. left.
  reflexivity.
Qed.

(** ** The classification of the path tokens (C7, C8) *)

(** C7 (as stated, refuted): the tokens [a :b] have uniform markers,
    yet [process_names] fails when [a] does not exist locally; and the
    mixed tokens ['' :x :d] fail with an index error, not with the
    address error. *)
Lemma process_names_uniform_may_fail :
  uniform_markers ["a"; ":b"] = true
  /\ process_names (world_of [] fresh_server) ["a"; ":b"]
     = Raise (AssertionError "file not exists: a")
  /\ uniform_markers [""; ":x"; ":d"] = false
  /\ process_names (world_of [] fresh_server) [""; ":x"; ":d"]
     = Raise (IndexError "string index out of range").
Proof. vm_compute. repeat split. Qed.

Section ProcessNames.

Variable w : World.

Lemma is_remote_cons c r :
  is_remote (String c r) = if ascii_dec c ":" then true else false.
Proof.
  unfold is_remote, Py.startswith.
  change (prefix ":" (String c r))
    with (match ascii_dec ":"%char c with
          | left _ => prefix "" r
          | right _ => false
          end).
  destruct (ascii_dec ":" c), (ascii_dec c ":"); try congruence.
  destruct r; reflexivity.
Qed.

Lemma first_chars_count src :
  Forall (fun s => s <> EmptyString) src ->
  exists chars,
    first_chars src = Return chars
    /\ List.length chars = List.length src
    /\ Nat.eqb (count_occ ascii_dec chars ":"%char) 0
       = forallb (fun s => negb (is_remote s)) src
    /\ Nat.eqb (count_occ ascii_dec chars ":"%char) (List.length chars)
       = forallb is_remote src.
Proof.
  induction 1 as [|s src Hs _ IH].
  - exists []. repeat split.
  - destruct IH as (cs & E & L & Z0 & ZL).
    destruct s as [|c r]; [congruence|].
    exists (c :: cs). simpl first_chars. rewrite E. simpl obind.
    split; [reflexivity|]. split; [simpl; congruence|].
    pose proof (count_occ_bound ascii_dec ":"%char cs) as B.
    simpl forallb. rewrite is_remote_cons. simpl count_occ. simpl List.length.
    destruct (ascii_dec c ":").
    + split; [reflexivity|]. simpl. exact ZL.
    + split; [simpl; exact Z0|]. simpl. apply Nat.eqb_neq. lia.
Qed.

Lemma assert_all_exist_ok src :
  forallb (w_exists w) src = true -> assert_all_exist w src = Return tt.
Proof.
  induction src as [|s src IH]; simpl; [reflexivity|].
  intros H. apply andb_prop in H as [Hs H]. rewrite Hs. simpl. auto.
Qed.

(** The checks of the file system, after the classification. *)
Lemma process_names_tail src dst :
  (if is_remote dst then forallb (w_exists w) src
   else if w_exists w dst then w_isdir w dst
        else w_isdir w (Py.dirname dst)) = true ->
  (_ <~ (if Py.startswith dst ":" then assert_all_exist w src
         else if w_exists w dst
              then oassert (w_isdir w dst)
                     "destination exists but is not a directory"
              else oassert (w_isdir w (Py.dirname dst))
                     (Py.dirname dst ++ " not exists or not a directory")) ;;
   Return (src, Py.drop_first dst, Py.startswith dst ":"))
  = Return (src, Py.drop_first dst, is_remote dst).
Proof.
  unfold is_remote. intros H.
  destruct (Py.startswith dst ":").
  - rewrite (assert_all_exist_ok _ H). reflexivity.
  - destruct (w_exists w dst); rewrite H; reflexivity.
Qed.

(** C7 (as amended): fewer than two tokens give the usage error.  For
    two tokens or more (with three or more, no source being the empty
    string): mixed markers give the address error; uniform markers,
    when the checks of the local file system pass, give the sources,
    the destination without its first character, and the direction
    "upload" exactly when the destination carries the marker. *)
Theorem process_names_classifies (names : list string) :
  (List.length names < 2 -> process_names w names = Raise usage_error)
  /\ (2 <= List.length names -> sources_indexable names ->
      uniform_markers names = false ->
      process_names w names = Raise address_error)
  /\ (2 <= List.length names -> sources_indexable names ->
      uniform_markers names = true -> fs_ready w names = true ->
      process_names w names
      = Return (removelast names, Py.drop_first (last names ""),
                is_remote (last names ""))).
Proof.
  destruct names as [|a [|b [|c rest]]].
  - split; [reflexivity | split; simpl; lia].
  - split; [reflexivity | split; simpl; lia].
  - split; [simpl; lia|].
    unfold uniform_markers, fs_ready, process_names. simpl removelast.
    simpl last. simpl List.length. simpl oassert. simpl forallb.
    fold (is_remote a). fold (is_remote b).
    split.
    + intros _ _ U. destruct (is_remote b), (is_remote a); simpl in U |- *;
        try discriminate; reflexivity.
    + intros _ _ U R.
      unfold obind at 1.
      destruct (is_remote b) eqn:Eb, (is_remote a) eqn:Ea; simpl in U;
        try discriminate; simpl andb; simpl orb; cbv iota;
        unfold obind at 1; cbv iota beta.
      * pose proof (process_names_tail [a] b) as T. rewrite Eb in T.
        simpl forallb in T. apply T. exact R.
      * pose proof (process_names_tail [a] b) as T. rewrite Eb in T.
        apply T. exact R.
  - split; [simpl; lia|].
    unfold uniform_markers, fs_ready, process_names.
    set (names := a :: b :: c :: rest).
    set (src := removelast names). set (dst := last names "").
    change (2 <=? List.length names)%nat with true. simpl oassert.
    unfold obind at 1.
    assert (Hidx : sources_indexable names ->
                   Forall (fun s => s <> EmptyString) src).
    { intros [H|H]; [simpl in H; lia | exact H]. }
    change (match names with
            | [src0; dst0] => _
            | _ => ?e
            end) with e.
    fold src. fold dst. fold (is_remote dst).
    split.
    + intros _ I U. destruct (first_chars_count src (Hidx I))
        as (cs & E & L & Z0 & ZL).
      rewrite E. simpl obind at 2. rewrite Z0, ZL.
      destruct (is_remote dst); rewrite U; reflexivity.
    + intros _ I U R. destruct (first_chars_count src (Hidx I))
        as (cs & E & L & Z0 & ZL).
      rewrite E. simpl obind at 2. rewrite Z0, ZL.
      pose proof (process_names_tail src dst) as T.
      destruct (is_remote dst) eqn:Ed; rewrite U; simpl negb; simpl andb;
        simpl orb; cbv iota; unfold obind at 1; cbv iota beta;
        apply T; exact R.
Qed.

End ProcessNames.

Lemma process_names_classifies_witness :
  process_names (world_of media_fs fresh_server) ["genesis.mp3"]
  = Raise usage_error
  /\ process_names (world_of media_fs fresh_server)
       ["genesis.mp3"; ":calculus.pdf"; "fetched"]
     = Raise address_error
  /\ process_names (world_of media_fs fresh_server)
       ["genesis.mp3"; "goodday.mp4"; ":multimedia/anv/"]
     = Return (["genesis.mp3"; "goodday.mp4"], "multimedia/anv/", true).
Proof.
  split; [|split].
  - apply (proj1 (process_names_classifies (world_of media_fs fresh_server)
                    ["genesis.mp3"])).
    simpl. lia.
  - apply (proj1 (proj2 (process_names_classifies
                           (world_of media_fs fresh_server)
                           ["genesis.mp3"; ":calculus.pdf"; "fetched"]))).
    + simpl. lia.
    + right. simpl. repeat constructor; discriminate.
    + reflexivity.
  - apply (proj2 (proj2 (process_names_classifies
                           (world_of media_fs fresh_server)
                           ["genesis.mp3"; "goodday.mp4"; ":multimedia/anv/"]))).
    + simpl. lia.
    + right. simpl. repeat constructor; discriminate.
    + reflexivity.
    + reflexivity.
Defined.

Lemma byte_in_spec lo hi c :
  Py.byte_in lo hi c = true <-> lo <= nat_of_ascii c <= hi.
Proof.
  unfold Py.byte_in. cbv zeta. rewrite andb_true_iff, !Nat.leb_le. tauto.
Qed.

Lemma byte_in_out lo hi c :
  nat_of_ascii c < lo \/ hi < nat_of_ascii c -> Py.byte_in lo hi c = false.
Proof.
  intros H. destruct (Py.byte_in lo hi c) eqn:E; [|reflexivity].
  apply byte_in_spec in E. lia.
Qed.

Lemma byte_in_in lo hi c :
  lo <= nat_of_ascii c <= hi -> Py.byte_in lo hi c = true.
Proof. apply byte_in_spec. Qed.

Lemma lead3_out a b :
  nat_of_ascii a < 224 \/ 239 < nat_of_ascii a -> Py.lead3 a b = false.
Proof.
  intros H. unfold Py.lead3.
  rewrite !(byte_in_out _ _ a) by lia. reflexivity.
Qed.

Lemma lead4_out a b :
  nat_of_ascii a < 240 \/ 244 < nat_of_ascii a -> Py.lead4 a b = false.
Proof.
  intros H. unfold Py.lead4.
  rewrite !(byte_in_out _ _ a) by lia. reflexivity.
Qed.

Lemma lead3_in a b :
  nat_of_ascii a = 224 /\ 160 <= nat_of_ascii b <= 191
  \/ 225 <= nat_of_ascii a <= 236 /\ 128 <= nat_of_ascii b <= 191
  \/ nat_of_ascii a = 237 /\ 128 <= nat_of_ascii b <= 159
  \/ 238 <= nat_of_ascii a <= 239 /\ 128 <= nat_of_ascii b <= 191 ->
  Py.lead3 a b = true.
Proof.
  unfold Py.lead3, Py.continuation.
  intros [[Ha Hb]|[[Ha Hb]|[[Ha Hb]|[Ha Hb]]]].
  - rewrite (byte_in_in 224 224 a), (byte_in_in 160 191 b) by lia. reflexivity.
  - rewrite (byte_in_in 225 236 a), (byte_in_in 128 191 b) by lia.
    apply orb_true_iff. left. apply orb_true_iff. left. apply orb_true_r.
  - rewrite (byte_in_in 237 237 a), (byte_in_in 128 159 b) by lia.
    apply orb_true_iff. left. apply orb_true_r.
  - rewrite (byte_in_in 238 239 a), (byte_in_in 128 191 b) by lia.
    apply orb_true_r.
Qed.

Lemma lead4_in a b :
  nat_of_ascii a = 240 /\ 144 <= nat_of_ascii b <= 191
  \/ 241 <= nat_of_ascii a <= 243 /\ 128 <= nat_of_ascii b <= 191
  \/ nat_of_ascii a = 244 /\ 128 <= nat_of_ascii b <= 143 ->
  Py.lead4 a b = true.
Proof.
  unfold Py.lead4, Py.continuation.
  intros [[Ha Hb]|[[Ha Hb]|[Ha Hb]]].
  - rewrite (byte_in_in 240 240 a), (byte_in_in 144 191 b) by lia. reflexivity.
  - rewrite (byte_in_in 241 243 a), (byte_in_in 128 191 b) by lia.
    apply orb_true_iff. left. apply orb_true_r.
  - rewrite (byte_in_in 244 244 a), (byte_in_in 128 143 b) by lia.
    apply orb_true_r.
Qed.

(** [s[1:]] removes exactly the first character of a string that
    begins with a well-formed one. *)
Lemma drop_first_char ch rest :
  utf8_char ch -> Py.drop_first (ch ++ rest) = rest.
Proof.
  intros H. unfold Py.drop_first.
  destruct H as [a Ha | a b Ha Hb | a b c Hab Hc | a b c d Hab Hc Hd].
  - assert (W : Py.first_width (String a rest) = 1).
    { destruct rest as [|b [|c [|d r]]]; cbn [Py.first_width];
        rewrite ?(byte_in_out 194 223 a), ?lead3_out, ?lead4_out by lia;
        reflexivity. }
    cbn [append]. rewrite W. reflexivity.
  - assert (W : Py.first_width (String a (String b rest)) = 2).
    { unfold Py.continuation.
      destruct rest as [|c [|d r]]; cbn [Py.first_width];
        unfold Py.continuation;
        rewrite (byte_in_in 194 223 a), (byte_in_in 128 191 b) by lia;
        reflexivity. }
    cbn [append]. rewrite W. reflexivity.
  - assert (Ha : 224 <= nat_of_ascii a <= 239) by lia.
    assert (W : Py.first_width (String a (String b (String c rest))) = 3).
    { destruct rest as [|d r]; cbn [Py.first_width];
        unfold Py.continuation;
        rewrite (byte_in_out 194 223 a), (lead3_in a b Hab),
          (byte_in_in 128 191 c) by lia;
        reflexivity. }
    cbn [append]. rewrite W. reflexivity.
  - assert (Ha : 240 <= nat_of_ascii a <= 244) by lia.
    assert (W : Py.first_width
                  (String a (String b (String c (String d rest)))) = 4).
    { cbn [Py.first_width]. unfold Py.continuation.
      rewrite (byte_in_out 194 223 a), (lead3_out a b), (lead4_in a b Hab),
        (byte_in_in 128 191 c), (byte_in_in 128 191 d) by lia.
      reflexivity. }
    cbn [append]. rewrite W. reflexivity.
Qed.

(** A string that begins with a well-formed character carries the
    remote marker exactly when that character is the colon. *)
Lemma is_remote_char ch rest :
  utf8_char ch -> is_remote (ch ++ rest) = (ch =? ":")%string.
Proof.
  intros H.
  destruct H as [a Ha | a b Ha Hb | a b c Hab Hc | a b c d Hab Hc Hd];
    cbn [append]; rewrite is_remote_cons; cbn [String.eqb].
  - destruct (ascii_dec a ":") as [->|Hn].
    + reflexivity.
    + apply Ascii.eqb_neq in Hn. rewrite Hn. reflexivity.
  - destruct (ascii_dec a ":") as [->|Hn];
      [change (nat_of_ascii ":") with 58 in Ha; lia|].
    apply Ascii.eqb_neq in Hn. rewrite Hn. reflexivity.
  - destruct (ascii_dec a ":") as [->|Hn];
      [change (nat_of_ascii ":") with 58 in Hab; lia|].
    apply Ascii.eqb_neq in Hn. rewrite Hn. reflexivity.
  - destruct (ascii_dec a ":") as [->|Hn];
      [change (nat_of_ascii ":") with 58 in Hab; lia|].
    apply Ascii.eqb_neq in Hn. rewrite Hn. reflexivity.
Qed.

Section StripDestination.

Variable w : World.

Lemma obind_const_inv {A B} (m : outcome A) (v v' : B) :
  obind m (fun _ => Return v) = Return v' -> v = v'.
Proof. destruct m; simpl; congruence. Qed.

(** What [process_names] returns for the destination and the
    direction, in the operations of the code. *)
Lemma process_names_returns names src dst is_upload :
  process_names w names = Return (src, dst, is_upload) ->
  dst = Py.drop_first (last names "")
  /\ is_upload = is_remote (last names "").
Proof.
  unfold process_names, is_remote.
  destruct names as [|a [|b [|c rest]]]; try discriminate.
  - simpl oassert. unfold obind at 1. simpl last.
    destruct (_ || _); [discriminate|].
    unfold obind at 1. cbv iota beta.
    intros H. apply obind_const_inv in H. inversion H. auto.
  - set (names := a :: b :: c :: rest).
    change (2 <=? List.length names)%nat with true. simpl oassert.
    unfold obind at 1.
    change (match names with
            | [src0; dst0] => _
            | _ => ?e
            end) with e.
    destruct (first_chars (removelast names)) as [cs|e|]; try discriminate.
    simpl obind at 2.
    destruct (_ || _); [discriminate|].
    unfold obind at 1. cbv iota beta.
    intros H. apply obind_const_inv in H. inversion H. auto.
Qed.

(** C8: whenever [process_names] returns, the destination it returns
    is the last token without its first character, whether or not
    that character is the remote marker: a token made of the character
    [ch] followed by [rest] comes back as [rest].  The direction is
    "upload" exactly when [ch] is the colon, so a local destination
    (the download direction) loses the first character of the path
    that the user gave. *)
Theorem process_names_strips_destination names src dst is_upload ch rest :
  process_names w names = Return (src, dst, is_upload) ->
  last names "" = (ch ++ rest)%string ->
  utf8_char ch ->
  dst = rest /\ is_upload = (ch =? ":")%string.
Proof.
  intros H Hl Hc. apply process_names_returns in H as [-> ->].
  rewrite Hl. split; [apply drop_first_char | apply is_remote_char]; exact Hc.
Qed.

End StripDestination.

(** The downloads [cp :calculus.pdf .] and [cp :calculus.pdf
    ./fetched]: the destinations come back as the empty string and as
    [/fetched]. *)
Lemma process_names_strips_destination_witness :
  ("" = "" /\ false = ("." =? ":")%string)
  /\ ("/fetched" = "/fetched" /\ false = ("." =? ":")%string).
Proof.
  split.
  - apply (process_names_strips_destination (world_of media_fs fresh_server)
             [":calculus.pdf"; "."] [":calculus.pdf"] "" false "." "").
    + reflexivity.
    + reflexivity.
    + apply utf8_one. change (nat_of_ascii ".") with 46. lia.
  - apply (process_names_strips_destination (world_of media_fs fresh_server)
             [":calculus.pdf"; "./fetched"] [":calculus.pdf"] "/fetched" false
             "." "/fetched").
    + reflexivity.
    + reflexivity.
    + apply utf8_one. change (nat_of_ascii ".") with 46. lia.
Defined.

Example process_names_strips_run :
  process_names (world_of media_fs fresh_server) [":calculus.pdf"; "./fetched"]
  = Return ([":calculus.pdf"], "/fetched", false).
Proof. reflexivity. Qed.

(** The first character of a name may take several bytes: the two
    bytes of a small e with acute accent are removed together, and so
    are the four bytes of a character beyond the basic plane; a byte
    that begins no well-formed sequence is removed alone. *)
Example drop_first_two_bytes :
  Py.drop_first (String "195" (String "169" "t")) = "t".
Proof. reflexivity. Qed.

Example drop_first_four_bytes :
  Py.drop_first
    (String "240" (String "159" (String "152" (String "128" "z")))) = "z".
Proof. reflexivity. Qed.

Example drop_first_stray_byte :
  Py.drop_first (String "226" (String "130" "A")) = String "130" "A".
Proof. reflexivity. Qed.

Example drop_first_surrogate :
  Py.drop_first (String "237" (String "160" (String "128" "x")))
  = String "160" (String "128" "x").
Proof. reflexivity. Qed.

(** ** The direction in [cp] (C9) *)

Section CpDirection.

Variable w : World.

Lemma uploads_each_length fuel dst one recursive verbose src t rs t' :
  uploads_each w fuel dst one recursive verbose src t rs t' ->
  List.length rs = List.length src.
Proof. induction 1; simpl; congruence. Qed.

(** The loop of [cp]: every source is uploaded in turn, until an
    upload does not return. *)
Lemma cp_loop_runs fuel dst one recursive verbose src :
  forall res t,
    match cp_loop w fuel src dst one recursive verbose res t with
    | (Return b, t') =>
        exists rs,
          uploads_each w fuel dst one recursive verbose src t rs t'
          /\ b = res && forallb fst rs
    | (Raise e, t') =>
        exists done s rest rs t1,
          src = done ++ s :: rest
          /\ uploads_each w fuel dst one recursive verbose done t rs t1
          /\ upload w fuel s dst one recursive verbose t1 = (Raise e, t')
    | (OutOfFuel, t') =>
        exists done s rest rs t1,
          src = done ++ s :: rest
          /\ uploads_each w fuel dst one recursive verbose done t rs t1
          /\ upload w fuel s dst one recursive verbose t1 = (OutOfFuel, t')
    end.
Proof.
  induction src as [|s src IH]; intros res t; simpl.
  - exists []. split; [constructor|]. simpl. rewrite andb_true_r. reflexivity.
  - unfold bind at 1.
    destruct (upload w fuel s dst one recursive verbose t)
      as [[[st msg]|e|] t1] eqn:Hu.
    + assert (Hnext :
          (if negb st
           then print msg ;; cp_loop w fuel src dst one recursive verbose false
           else cp_loop w fuel src dst one recursive verbose res) t1
          = cp_loop w fuel src dst one recursive verbose (res && st)
              (if st then t1 else t1 ++ [EvPrint msg])).
      { destruct st; cbn [negb]; cbv iota.
        - rewrite andb_true_r. reflexivity.
        - rewrite andb_false_r. reflexivity. }
      rewrite Hnext.
      specialize (IH (res && st) (if st then t1 else t1 ++ [EvPrint msg])).
      destruct (cp_loop w fuel src dst one recursive verbose (res && st)
                  (if st then t1 else t1 ++ [EvPrint msg]))
        as [[b|e|] t'].
      * destruct IH as (rs & Hrs & ->).
        exists ((st, msg) :: rs). split.
        -- apply (uploads_next _ _ _ _ _ _ _ _ _ st msg t1); assumption.
        -- simpl. rewrite andb_assoc. reflexivity.
      * destruct IH as (done & s' & rest & rs & t2 & -> & Hrs & Hup).
        exists (s :: done), s', rest, ((st, msg) :: rs), t2.
        split; [reflexivity|]. split; [|exact Hup].
        apply (uploads_next _ _ _ _ _ _ _ _ _ st msg t1); assumption.
      * destruct IH as (done & s' & rest & rs & t2 & -> & Hrs & Hup).
        exists (s :: done), s', rest, ((st, msg) :: rs), t2.
        split; [reflexivity|]. split; [|exact Hup].
        apply (uploads_next _ _ _ _ _ _ _ _ _ st msg t1); assumption.
    + exists [], s, src, [], t. split; [reflexivity|].
      split; [constructor | exact Hu].
    + exists [], s, src, [], t. split; [reflexivity|].
      split; [constructor | exact Hu].
Qed.


End CpDirection.


Example cp_download_request_uploads :
  requests_of
    (snd (cp (world_of media_fs fresh_server) 10 [":calculus.pdf"; "."] []))
  = [ReqMkdir true false [""]; ReqOffset ":calculus.pdf" ""].
Proof. vm_compute. reflexivity. Qed.

(** ** A tree without regular files (C10) *)

Lemma ensures_ret {A} strict (Q : A -> Prop) a : Q a -> ensures strict Q (ret a).
Proof. intros H t. exact H. Qed.

Lemma ensures_bind {A B} strict (Q1 : A -> Prop) (Q : B -> Prop)
    (m : M A) (k : A -> M B) :
  ensures strict Q1 m -> (forall a, Q1 a -> ensures strict Q (k a)) ->
  ensures strict Q (bind m k).
Proof.
  intros Hm Hk t. specialize (Hm t). unfold bind.
  destruct (m t) as [[a|e|] t']; simpl in *; auto.
  apply (Hk a Hm t').
Qed.

Lemma list_sum_child_shapes entries :
  list_sum (map dirs_in (child_shapes entries))
  = list_sum (map (fun e => dirs_in (snd e)) entries).
Proof.
  induction entries as [|[n s] r IH]; simpl; [reflexivity|].
  destruct s; simpl in *; rewrite IH; reflexivity.
Qed.

Section Fileless.

Variable w : World.
Variable strict : bool.
Hypothesis accepts : strict = true -> server_accepts w.

Lemma rexists_ensures path : ensures strict (fun _ => True) (rexists w path).
Proof.
  intros t. unfold rexists, send_request, post, bind, assert_res. simpl.
  destruct strict eqn:S.
  - destruct (proj1 (accepts eq_refl) t path) as (j & ->). simpl. exact I.
  - destruct (w_post w t (ReqExists path)); simpl; auto.
Qed.

Lemma mkdir_ensures args :
  ensures strict (fun ok => strict = true -> ok = true) (mkdir w args).
Proof.
  intros t. unfold mkdir, send_request, post, bind. cbv zeta. simpl.
  destruct strict eqn:S.
  - destruct (proj2 (accepts eq_refl) t (parse_flag "-p" args)
                (parse_flag "-v" args) (parse_names ["-p"; "-v"] args))
      as (j & -> & Hj).
    unfold ret at 1. cbv beta iota. rewrite Hj. simpl negb. cbv iota.
    destruct (parse_flag "-v" args); rewrite ?print_each_run; simpl; auto.
  - destruct (w_post w t _) as [j|code|e]; simpl; auto.
    destruct (parse_flag "-v" args), (status j);
      rewrite ?print_each_run; simpl; rewrite ?print_each_run; simpl;
      intros; discriminate.
Qed.

Lemma scan_entries_fileless one verbose dir dst_dir entries :
  Forall (fun e => models w (Py.join dir (fst e)) (snd e)) entries ->
  forallb (fun e => no_files (snd e)) entries = true ->
  forall dirs last t,
    scan_entries w one verbose dir dst_dir (map fst entries) dirs last t
    = (Return (dirs ++ child_tasks dir dst_dir entries, last), t).
Proof.
  induction 1 as [|[n s] r Hm _ IH]; intros Hn dirs last t; simpl in *.
  - rewrite app_nil_r. reflexivity.
  - apply andb_prop in Hn as [Hs Hr].
    inversion Hm as [p es Hd Hl Hes | p Hd Hf | p Hd Hf]; subst;
      simpl in Hs; try discriminate.
    + rewrite Hd, (IH Hr), <- app_assoc. reflexivity.
    + rewrite Hd, Hf. apply (IH Hr).
Qed.

Lemma child_tasks_queued dir dst_dir entries :
  Forall (fun e => models w (Py.join dir (fst e)) (snd e)) entries ->
  forallb (fun e => no_files (snd e)) entries = true ->
  Forall2 (queued w) (child_tasks dir dst_dir entries) (child_shapes entries).
Proof.
  induction 1 as [|[n s] r Hm _ IH]; intros Hn; simpl in *.
  - constructor.
  - apply andb_prop in Hn as [Hs Hr]. destruct s; auto.
    constructor; [|auto]. repeat split; eauto.
Qed.

Lemma dir_task_fileless one verbose dir dst_dir entries dirs a :
  models w dir (SDir entries) -> no_files (SDir entries) = true ->
  ensures strict
    (fun r => exists a', r = (dirs ++ child_tasks dir dst_dir entries, a', None))
    (dir_task w one verbose dir dst_dir dirs a None).
Proof.
  intros Hm Hn. inversion Hm as [p es Hd Hl Hes| |]; subst.
  unfold dir_task.
  apply (ensures_bind strict (fun _ => True)).
  { destruct a; [apply ensures_ret; exact I|].
    apply (ensures_bind strict (fun _ => True));
      [apply rexists_ensures | intros; apply ensures_ret; exact I]. }
  intros absent _. cbv zeta.
  apply (ensures_bind strict _ _ _ _ (mkdir_ensures _)).
  intros ok Hok.
  apply (ensures_bind strict (fun _ => True)).
  { intros t. destruct ok; simpl; auto. destruct strict; auto.
    specialize (Hok eq_refl). discriminate. }
  intros _ _. unfold listdir. rewrite Hl.
  intros t. unfold bind, ret at 1. cbv beta iota.
  rewrite (scan_entries_fileless one verbose dir dst_dir entries Hes Hn).
  simpl. eauto.
Qed.

Lemma walk_fileless one verbose fuel :
  forall dirs shapes a,
    Forall2 (queued w) dirs shapes ->
    list_sum (map dirs_in shapes) <= fuel ->
    ensures strict (fun last => last = None) (walk w fuel one verbose dirs a None).
Proof.
  induction fuel as [|fuel IH]; intros dirs shapes a Hq Hf;
    destruct Hq as [|[dir dst_dir] s dirs shapes Hs Hq].
  - apply ensures_ret. reflexivity.
  - destruct Hs as ((es & ->) & _). simpl in Hf. lia.
  - apply ensures_ret. reflexivity.
  - destruct Hs as ((es & ->) & Hm & Hn). simpl walk.
    apply (ensures_bind strict _ _ _ _
             (dir_task_fileless one verbose dir dst_dir es dirs a Hm Hn)).
    intros r (a' & ->).
    inversion Hm as [p es' Hd Hl Hes| |]; subst.
    apply (IH _ (shapes ++ child_shapes es)).
    + apply Forall2_app; [exact Hq|].
      apply child_tasks_queued; assumption.
    + rewrite map_app, list_sum_app, list_sum_child_shapes.
      simpl in Hf. lia.
Qed.

Lemma upload_fileless fuel src dst one verbose entries :
  models w src (SDir entries) -> no_files (SDir entries) = true ->
  dirs_in (SDir entries) <= fuel ->
  ensures strict (fun last => last = None)
    (walk w fuel one verbose [(src, dst)] false None).
Proof.
  intros Hm Hn Hf. apply (walk_fileless one verbose fuel _ [SDir entries]).
  - constructor; [|constructor]. repeat split; eauto.
  - simpl in *. lia.
Qed.

End Fileless.

Lemma ensures_none_raises strict (m : M last_status) t :
  ensures strict (fun last => last = None) m ->
  exists e t',
    bind m return_status t = (Raise e, t')
    /\ (strict = true -> e = UnboundLocalError "status").
Proof.
  intros H. specialize (H t). unfold bind.
  destruct (m t) as [[last|e|] t']; simpl in H.
  - subst last. exists (UnboundLocalError "status"), t'. split; auto.
  - exists e, t'. split; [reflexivity|]. congruence.
  - contradiction.
Qed.


Lemma siblings_models :
  models (world_of siblings_fs fresh_server) "d" (SDir siblings_shape).
Proof.
  constructor; [reflexivity | reflexivity |].
  repeat constructor.
Qed.

Lemma fresh_server_accepts fs : server_accepts (world_of fs fresh_server).
Proof.
  split.
  - intros t name. exists (json_no []). reflexivity.
  - intros t p v names. exists json_ok. split; reflexivity.
Qed.


Example upload_fileless_run :
  upload (world_of siblings_fs fresh_server) 3 "d" "r" false true false []
  = (Raise (UnboundLocalError "status"),
     [EvRequest (ReqExists "r") (RespOk (json_no []));
      EvRequest (ReqMkdir true false ["r"]) (RespOk json_ok);
      EvRequest (ReqMkdir true false ["r/x"]) (RespOk json_ok);
      EvRequest (ReqMkdir true false ["r/y"]) (RespOk json_ok)]).
Proof. vm_compute. reflexivity. Qed.

(** ** Enough fuel for a finite tree *)

Lemma total_bind {A B} (m : M A) (k : A -> M B) :
  total m -> (forall a, total (k a)) -> total (bind m k).
Proof.
  intros Hm Hk.
  apply (ensures_bind false (fun _ => True)); [exact Hm | intros a _; apply Hk].
Qed.

Lemma total_ret {A} (a : A) : total (ret a).
Proof. intros t. exact I. Qed.

Lemma total_raise {A} e : total (@raise A e).
Proof. intros t. reflexivity. Qed.

Lemma total_emit e : total (emit e).
Proof. intros t. exact I. Qed.

Lemma total_post w rq : total (post w rq).
Proof. intros t. exact I. Qed.

Ltac total_step :=
  match goal with
  | |- total (bind _ _) => apply total_bind; [| intros ?]
  | |- total (ret _) => apply total_ret
  | |- total (raise _) => apply total_raise
  | |- total (emit _) => apply total_emit
  | |- total (print _) => apply total_emit
  | |- total (post _ _) => apply total_post
  | |- total (if ?c then _ else _) => destruct c
  | |- total (match ?x with _ => _ end) => destruct x
  end.

Ltac as_total :=
  match goal with |- ensures false _ ?m => change (total m) end.

Section Termination.

Variable w : World.

Lemma upload_one_file_total src dst one verbose :
  total (upload_one_file w src dst one verbose).
Proof.
  unfold upload_one_file, digest_of_path, one_mode_upload, remote_file_offset,
    send_request, assert_res, open_rb, seek.
  repeat total_step.
Qed.

Lemma scan_entries_modelled one verbose dir dst_dir entries :
  Forall (fun e => models w (Py.join dir (fst e)) (snd e)) entries ->
  forall dirs last,
    ensures false (fun r => fst r = dirs ++ child_tasks dir dst_dir entries)
      (scan_entries w one verbose dir dst_dir (map fst entries) dirs last).
Proof.
  induction 1 as [|[n s] r Hm _ IH]; intros dirs last; simpl in *.
  - apply ensures_ret. simpl. rewrite app_nil_r. reflexivity.
  - inversion Hm as [p es Hd Hl Hes | p Hd Hf | p Hd Hf]; subst; simpl in *.
    + rewrite Hd. intros t. specialize (IH (dirs ++ [(Py.join dir n, Py.join dst_dir n)]) last t).
      destruct (fst (scan_entries _ _ _ _ _ _ _ _ t)); auto.
      rewrite IH, <- app_assoc. reflexivity.
    + rewrite Hd, Hf.
      apply (ensures_bind false (fun _ => True));
        [apply upload_one_file_total | intros a _; apply IH].
    + rewrite Hd, Hf. apply IH.
Qed.

Lemma child_tasks_queued_dir dir dst_dir entries :
  Forall (fun e => models w (Py.join dir (fst e)) (snd e)) entries ->
  Forall2 (queued_dir w) (child_tasks dir dst_dir entries) (child_shapes entries).
Proof.
  induction 1 as [|[n s] r Hm _ IH]; simpl in *.
  - constructor.
  - destruct s; auto. constructor; [|auto]. split; eauto.
Qed.

Lemma dir_task_modelled one verbose dir dst_dir entries dirs a last :
  models w dir (SDir entries) ->
  ensures false
    (fun r => fst (fst r) = dirs ++ child_tasks dir dst_dir entries)
    (dir_task w one verbose dir dst_dir dirs a last).
Proof.
  intros Hm. inversion Hm as [p es Hd Hl Hes| |]; subst.
  unfold dir_task.
  apply (ensures_bind false (fun _ => True)).
  { as_total. unfold rexists, send_request, assert_res. repeat total_step. }
  intros absent _. cbv zeta.
  apply (ensures_bind false (fun _ => True)).
  { as_total. unfold mkdir, send_request. repeat total_step.
    all: intros t; rewrite ?print_each_run; simpl;
      rewrite ?print_each_run; exact I. }
  intros ok _.
  apply (ensures_bind false (fun _ => True)).
  { as_total. unfold assert_. repeat total_step. }
  intros _ _. unfold listdir. rewrite Hl.
  apply (ensures_bind false (fun subs => subs = map fst entries));
    [apply ensures_ret; reflexivity|].
  intros subs ->.
  apply (ensures_bind false _ _ _ _
           (scan_entries_modelled one verbose dir dst_dir entries Hes dirs last)).
  intros [d l] Hr. simpl in Hr. subst d. apply ensures_ret. reflexivity.
Qed.

Lemma walk_total one verbose fuel :
  forall dirs shapes a last,
    Forall2 (queued_dir w) dirs shapes ->
    list_sum (map dirs_in shapes) <= fuel ->
    total (walk w fuel one verbose dirs a last).
Proof.
  induction fuel as [|fuel IH]; intros dirs shapes a last Hq Hf;
    destruct Hq as [|[dir dst_dir] s dirs shapes Hs Hq].
  - apply total_ret.
  - destruct Hs as ((es & ->) & _). simpl in Hf. lia.
  - apply total_ret.
  - destruct Hs as ((es & ->) & Hm). simpl walk.
    apply (ensures_bind false _ _ _ _
             (dir_task_modelled one verbose dir dst_dir es dirs a last Hm)).
    intros [[d a'] l] Hr. simpl in Hr. subst d.
    inversion Hm as [p es' Hd Hl Hes| |]; subst.
    apply (IH _ (shapes ++ child_shapes es)).
    + apply Forall2_app; [exact Hq|].
      apply child_tasks_queued_dir; assumption.
    + rewrite map_app, list_sum_app, list_sum_child_shapes.
      simpl in Hf. lia.
Qed.

(** On a finite local tree, fuel for every directory is enough: the
    upload returns or raises. *)
Lemma upload_total fuel src dst one recursive verbose s t :
  models w src s -> dirs_in s <= fuel ->
  fst (upload w fuel src dst one recursive verbose t) <> OutOfFuel.
Proof.
  intros Hm Hf.
  assert (T : total (upload w fuel src dst one recursive verbose)).
  { unfold upload.
    destruct (w_isdir w src) eqn:Hd.
    - destruct recursive; simpl negb; cbv iota; [|apply total_ret].
      apply total_bind.
      + inversion Hm as [p es Hd' Hl Hes | p Hd' Hf' | p Hd' Hf']; subst;
          try congruence.
        apply (walk_total one verbose fuel _ [SDir es]).
        * constructor; [|constructor]. split; eauto.
        * simpl in *. lia.
      + intros [r|]; [apply total_ret | apply total_raise].
    - apply total_bind.
      { unfold mkdir, send_request. repeat total_step.
        all: intros t0; rewrite ?print_each_run; simpl;
          rewrite ?print_each_run; exact I. }
      intros ok. apply total_bind; [unfold assert_; repeat total_step|].
      intros _. apply total_bind; [apply upload_one_file_total|].
      intros r. apply total_ret. }
  specialize (T t). intros E. rewrite E in T. exact T.
Qed.

End Termination.

(** * Further properties of the transfer engine *)

(** ** Requests and their answers *)

Section Requests.

Variable w : World.

Lemma send_request_ok rq t j :
  w_post w t rq = RespOk j ->
  send_request w rq t = (Return (Some j), t ++ [EvRequest rq (RespOk j)]).
Proof. intros H. unfold send_request, post, bind. rewrite H. reflexivity. Qed.

Lemma send_request_fail rq t code :
  w_post w t rq = RespFail code ->
  send_request w rq t
  = (Return None,
     t ++ [EvRequest rq (RespFail code);
           EvPrint (EStr ("request failed (code " ++ Py.str_of_int code ++ ")"))]).
Proof.
  intros H. unfold send_request, post, bind, print, emit, ret. rewrite H.
  simpl. rewrite <- app_assoc. reflexivity.
Qed.

Lemma open_rb_run src t :
  w_open w src = true -> open_rb w src t = (Return src, t ++ [EvOpen src]).
Proof. intros H. unfold open_rb. rewrite H. reflexivity. Qed.

Lemma seek_run sfile pos t :
  (0 <= pos < off_t_bound)%Z -> w_seek w sfile pos = true ->
  seek w sfile pos t = (Return tt, t ++ [EvSeek sfile pos]).
Proof.
  intros [H0 H1] Hs. unfold seek.
  assert (E1 : (pos <? - off_t_bound)%Z = false).
  { apply Z.ltb_ge. unfold off_t_bound in *. lia. }
  assert (E2 : (off_t_bound <=? pos)%Z = false) by (apply Z.leb_gt; exact H1).
  assert (E3 : (pos <? 0)%Z = false) by (apply Z.ltb_ge; exact H0).
  rewrite E1, E2, E3, Hs. reflexivity.
Qed.

(** ** One file *)

(** Resumed transfer: when the server reports that [offset] bytes are
    already stored (a position that fits [off_t] and that the file
    system accepts), the file is opened, positioned at that offset and
    posted once to the upload endpoint with the same offset, under the
    base name of the local path; the status and the errors of the
    server's answer are returned as they are. *)
Theorem upload_one_file_resumes src dst (verbose : bool) (t : trace) jo ju :
  let t1 := t ++ [EvRequest (ReqOffset src dst) (RespOk jo);
                  EvOpen src; EvSeek src (offset jo)]
              ++ (if verbose
                  then [EvPrint (EStr ("uploading " ++ src ++ " -> " ++ dst))]
                  else []) in
  w_post w t (ReqOffset src dst) = RespOk jo ->
  (0 <= offset jo < off_t_bound)%Z ->
  w_open w src = true ->
  w_seek w src (offset jo) = true ->
  w_post w t1 (ReqUpload (offset jo) (Py.basename src) src) = RespOk ju ->
  upload_one_file w src dst false verbose t
  = (Return (status ju, EList (errors ju)),
     t1 ++ [EvRequest (ReqUpload (offset jo) (Py.basename src) src) (RespOk ju)]).
Proof.
  intros t1 Ho Hpos Hopen Hseek Hu. unfold upload_one_file.
  rewrite (bind_return _ _ t false t) by reflexivity. cbv beta iota.
  rewrite (bind_return _ _ _ _ _ (remote_file_offset_json w _ _ _ _ Ho)).
  cbv zeta.
  rewrite (bind_return _ _ _ _ _ (open_rb_run _ _ Hopen)).
  rewrite (bind_return _ _ _ _ _ (seek_run _ _ _ Hpos Hseek)).
  subst t1. destruct verbose; cbv iota.
  - rewrite (bind_return (print _) _ _ tt _ eq_refl).
    rewrite <- !app_assoc in *. cbn [app] in *.
    rewrite (bind_return _ _ _ _ _ (send_request_ok _ _ _ Hu)).
    rewrite <- app_assoc. reflexivity.
  - rewrite (bind_return (ret tt) _ _ tt _ eq_refl).
    rewrite <- !app_assoc in *. cbn [app] in *.
    rewrite (bind_return _ _ _ _ _ (send_request_ok _ _ _ Hu)).
    rewrite <- app_assoc. reflexivity.
Qed.

(** An offset that does not fit [off_t] stops the transfer at the
    seek, with [ValueError]: the file has been opened, and nothing is
    posted to the upload endpoint. *)
Theorem upload_one_file_offset_overflow src dst (verbose : bool) t jo :
  w_post w t (ReqOffset src dst) = RespOk jo ->
  (offset jo < - off_t_bound \/ off_t_bound <= offset jo)%Z ->
  w_open w src = true ->
  upload_one_file w src dst false verbose t
  = (Raise (ValueError "cannot fit 'int' into an offset-sized integer"),
     t ++ [EvRequest (ReqOffset src dst) (RespOk jo); EvOpen src]).
Proof.
  intros Ho Hbig Hopen. unfold upload_one_file.
  rewrite (bind_return _ _ t false t) by reflexivity. cbv beta iota.
  rewrite (bind_return _ _ _ _ _ (remote_file_offset_json w _ _ _ _ Ho)).
  cbv zeta.
  rewrite (bind_return _ _ _ _ _ (open_rb_run _ _ Hopen)).
  unfold seek, bind.
  assert (E : (offset jo <? - off_t_bound)%Z || (off_t_bound <=? offset jo)%Z
              = true).
  { apply orb_true_iff. destruct Hbig as [H|H];
      [left; apply Z.ltb_lt | right; apply Z.leb_le]; exact H. }
  rewrite E. unfold raise. rewrite <- app_assoc. reflexivity.
Qed.

(** A transport failure of the offset query is fatal for the file: the
    assertion fails after the message of [send_request], the local
    file is not opened and nothing is posted to the upload endpoint. *)
Theorem upload_one_file_offset_unreachable src dst (verbose : bool) t code :
  w_post w t (ReqOffset src dst) = RespFail code ->
  upload_one_file w src dst false verbose t
  = (Raise (AssertionError ""),
     t ++ [EvRequest (ReqOffset src dst) (RespFail code);
           EvPrint (EStr ("request failed (code " ++ Py.str_of_int code ++ ")"))]).
Proof.
  intros H. unfold upload_one_file.
  rewrite (bind_return _ _ t false t) by reflexivity. cbv beta iota.
  unfold remote_file_offset. rewrite !bind_assoc.
  rewrite (bind_return _ _ _ _ _ (send_request_fail _ _ _ H)).
  reflexivity.
Qed.

(** ** Creating a directory *)

(** The command [mkdir] on a response with a JSON body: its value is
    the [status] of the body; with [-v] it prints one line for every
    name of [output], also when the status is false, and then one line
    for every error.  It does not raise. *)
Theorem mkdir_answered args t j :
  let rq := ReqMkdir (parse_flag "-p" args) (parse_flag "-v" args)
              (parse_names ["-p"; "-v"] args) in
  w_post w t rq = RespOk j ->
  mkdir w args t
  = (Return (status j),
     t ++ [EvRequest rq (RespOk j)]
       ++ (if parse_flag "-v" args
           then map (fun name => EvPrint (EStr ("created directory: " ++ name)))
                    (output j)
           else [])
       ++ (if status j then []
           else map (fun e => EvPrint (EStr ("error: " ++ e))) (errors j))).
Proof.
  intros rq H. unfold mkdir. cbv zeta. fold rq.
  rewrite (bind_return _ _ _ _ _ (send_request_ok _ _ _ H)).
  destruct (parse_flag "-v" args).
  - rewrite (bind_return _ _ _ _ _ (print_each_run _ _ _)).
    destruct (status j); cbn [negb]; cbv iota.
    + unfold ret. rewrite app_nil_r, <- app_assoc. reflexivity.
    + rewrite (bind_return _ _ _ _ _ (print_each_run _ _ _)).
      unfold ret. rewrite <- !app_assoc. reflexivity.
  - rewrite (bind_return (ret tt) _ _ tt _ eq_refl).
    destruct (status j); cbn [negb]; cbv iota.
    + unfold ret. rewrite app_nil_r. reflexivity.
    + rewrite (bind_return _ _ _ _ _ (print_each_run _ _ _)).
      unfold ret. rewrite <- app_assoc. reflexivity.
Qed.

(** A response that is not OK makes [mkdir] return [False], after the
    message of [send_request]; unlike [rexists] and
    [remote_file_offset], it does not raise. *)
Theorem mkdir_unreachable args t code :
  let rq := ReqMkdir (parse_flag "-p" args) (parse_flag "-v" args)
              (parse_names ["-p"; "-v"] args) in
  w_post w t rq = RespFail code ->
  mkdir w args t
  = (Return false,
     t ++ [EvRequest rq (RespFail code);
           EvPrint (EStr ("request failed (code " ++ Py.str_of_int code ++ ")"))])
  /\ forall path,
       w_post w t (ReqExists path) = RespFail code ->
       fst (rexists w path t) = Raise (AssertionError "").
Proof.
  intros rq H. split.
  - unfold mkdir. cbv zeta. fold rq.
    rewrite (bind_return _ _ _ _ _ (send_request_fail _ _ _ H)). reflexivity.
  - intros path Hp. unfold rexists.
    rewrite (bind_return _ _ _ _ _ (send_request_fail _ _ _ Hp)). reflexivity.
Qed.

(** ** A single file given to [upload] *)

(** For a source that is not a directory, [upload] first asks for the
    parent directory of the destination, [dirname(dst)] with [-p];
    when the server rejects that request the assertion fails and no
    request is made for the file itself.  (The name of the parent must
    not read as a flag of [mkdir].) *)
Theorem upload_file_needs_parent fuel src dst one recursive verbose t :
  w_isdir w src = false ->
  not_flag (Py.dirname dst) ->
  rejected (w_post w t (ReqMkdir true false [Py.dirname dst])) = true ->
  exists t',
    upload w fuel src dst one recursive verbose t = (Raise (AssertionError ""), t')
    /\ requests_of t' = requests_of t ++ [ReqMkdir true false [Py.dirname dst]].
Proof.
  intros Hd [Hp Hv] Hrej. unfold upload. rewrite Hd.
  assert (Ea : parse_flag "-p" [Py.dirname dst; "-p"] = true).
  { unfold parse_flag. cbn [existsb]. rewrite String.eqb_refl.
    apply orb_true_r. }
  assert (Eb : parse_flag "-v" [Py.dirname dst; "-p"] = false).
  { unfold parse_flag. cbn [existsb]. apply not_eq_sym, String.eqb_neq in Hv.
    rewrite Hv. reflexivity. }
  pose proof (mkdir_args_names (Py.dirname dst) false Hp Hv) as En.
  destruct (mkdir_rejected w [Py.dirname dst; "-p"] t) as (t' & E & R).
  { rewrite Ea, Eb, En. exact Hrej. }
  rewrite (bind_return _ _ _ _ _ E).
  exists t'. split; [reflexivity|]. rewrite R, Ea, Eb, En. reflexivity.
Qed.

End Requests.

(** ** The path tokens *)

Section Names.

Variable w : World.

(** The checks of the local file system made by [process_names]. *)
Lemma process_names_classified names :
  2 <= List.length names -> sources_indexable names ->
  uniform_markers names = true ->
  process_names w names
  = (_ <~ (if Py.startswith (last names "") ":"
           then assert_all_exist w (removelast names)
           else if w_exists w (last names "")
                then oassert (w_isdir w (last names ""))
                       "destination exists but is not a directory"
                else oassert (w_isdir w (Py.dirname (last names "")))
                       (Py.dirname (last names "")
                        ++ " not exists or not a directory")) ;;
     Return (removelast names, Py.drop_first (last names ""),
             Py.startswith (last names "") ":")).
Proof.
  destruct names as [|a [|b [|c rest]]]; simpl List.length; try lia.
  - intros _ _. unfold uniform_markers, process_names. simpl removelast.
    simpl last. simpl List.length. simpl oassert. simpl forallb.
    unfold is_remote. intros U. unfold obind at 1.
    destruct (Py.startswith b ":") eqn:Eb, (Py.startswith a ":") eqn:Ea;
      simpl in U; try discriminate; simpl andb; simpl orb; cbv iota;
      unfold obind at 1; cbv iota beta; rewrite ?Eb; reflexivity.
  - intros _ I. unfold uniform_markers, process_names.
    set (names := a :: b :: c :: rest).
    set (src := removelast names). set (dst := last names "").
    change (2 <=? List.length names)%nat with true. simpl oassert.
    unfold obind at 1.
    assert (Hidx : Forall (fun s => s <> EmptyString) src).
    { destruct I as [H|H]; [simpl in H; lia | exact H]. }
    change (match names with
            | [src0; dst0] => _
            | _ => ?e
            end) with e.
    fold src. fold dst. intros U. unfold is_remote at 1 in U.
    destruct (first_chars_count src Hidx) as (cs & E & L & Z0 & ZL).
    rewrite E. simpl obind at 2. rewrite Z0, ZL.
    destruct (Py.startswith dst ":") eqn:Ed; rewrite U; simpl negb;
      simpl andb; simpl orb; cbv iota; unfold obind at 1; cbv iota beta;
      rewrite ?Ed; reflexivity.
Qed.

Lemma first_chars_nonempty src :
  forall cs, first_chars src = Return cs ->
             Forall (fun s => s <> EmptyString) src.
Proof.
  induction src as [|x r IH]; intros cs H; [constructor|].
  destruct x as [|c x]; simpl in H; [discriminate|].
  destruct (first_chars r) as [cs'| |]; simpl in H; try discriminate.
  constructor; [discriminate | eapply IH; reflexivity].
Qed.

Lemma assert_all_exist_inv src :
  assert_all_exist w src = Return tt -> forallb (w_exists w) src = true.
Proof.
  induction src as [|s r IH]; simpl; [reflexivity|].
  destruct (w_exists w s); simpl; [auto | discriminate].
Qed.

Lemma assert_all_exist_first_missing pre x post :
  forallb (w_exists w) pre = true -> w_exists w x = false ->
  assert_all_exist w (pre ++ x :: post)
  = Raise (AssertionError ("file not exists: " ++ x)).
Proof.
  induction pre as [|p pre IH]; simpl; intros Hp Hx.
  - rewrite Hx. reflexivity.
  - apply andb_prop in Hp as [H1 H2]. rewrite H1. simpl. auto.
Qed.

Lemma oassert_inv c msg : oassert c msg = Return tt -> c = true.
Proof. destruct c; simpl; [reflexivity | discriminate]. Qed.

Lemma process_names_checks_inv src dst r :
  (_ <~ (if Py.startswith dst ":" then assert_all_exist w src
         else if w_exists w dst
              then oassert (w_isdir w dst)
                     "destination exists but is not a directory"
              else oassert (w_isdir w (Py.dirname dst))
                     (Py.dirname dst ++ " not exists or not a directory")) ;;
   Return (src, Py.drop_first dst, Py.startswith dst ":")) = Return r ->
  r = (src, Py.drop_first dst, is_remote dst)
  /\ (if is_remote dst then forallb (w_exists w) src
      else if w_exists w dst then w_isdir w dst
           else w_isdir w (Py.dirname dst)) = true.
Proof.
  unfold is_remote. destruct (Py.startswith dst ":").
  - destruct (assert_all_exist w src) as [[]| |] eqn:E; simpl;
      try discriminate.
    intros H. inversion H. split; [reflexivity|].
    apply assert_all_exist_inv. exact E.
  - destruct (w_exists w dst).
    + destruct (w_isdir w dst); simpl; try discriminate.
      intros H. inversion H. auto.
    + destruct (w_isdir w (Py.dirname dst)); simpl; try discriminate.
      intros H. inversion H. auto.
Qed.

(** Whatever [process_names] returns is a well-formed request: there
    were at least two tokens, the sources are all the tokens but the
    last, unchanged (a remote source keeps its marker), exactly one
    side is remote, and the checks of the local file system passed. *)
Theorem process_names_sound names src dst is_upload :
  process_names w names = Return (src, dst, is_upload) ->
  2 <= List.length names
  /\ src = removelast names
  /\ uniform_markers names = true
  /\ fs_ready w names = true.
Proof.
  unfold process_names, uniform_markers, fs_ready.
  destruct names as [|a [|b [|c rest]]]; try discriminate.
  - simpl oassert. unfold obind at 1. simpl last. simpl removelast.
    simpl forallb. fold (is_remote a). fold (is_remote b).
    destruct (is_remote b) eqn:Eb, (is_remote a) eqn:Ea; simpl andb;
      simpl orb; cbv iota; try discriminate;
      unfold obind at 1; cbv iota beta; intros H;
      apply process_names_checks_inv in H as [H1 H2]; inversion H1;
      rewrite Eb in H2; simpl in *; (split; [lia|]); auto.
  - set (names := a :: b :: c :: rest).
    change (2 <=? List.length names)%nat with true. simpl oassert.
    unfold obind at 1.
    change (match names with
            | [src0; dst0] => _
            | _ => ?e
            end) with e.
    set (srcs := removelast names). set (d := last names "").
    fold (is_remote d).
    destruct (first_chars srcs) as [cs|e|] eqn:E; try discriminate.
    destruct (first_chars_count srcs (first_chars_nonempty _ _ E))
      as (cs' & E' & L & Z0 & ZL).
    rewrite E in E'. inversion E'. subst cs'.
    simpl obind at 2. rewrite Z0, ZL.
    destruct (is_remote d) eqn:Ed;
      [destruct (forallb (fun s => negb (is_remote s)) srcs)
      |destruct (forallb is_remote srcs)];
      simpl negb; simpl andb; simpl orb; cbv iota; try discriminate;
      unfold obind at 1; cbv iota beta; intros H;
      apply process_names_checks_inv in H as [H1 H2]; inversion H1;
      fold (is_remote d) in H2; rewrite Ed in H2;
      (split; [simpl; lia|]); auto.
Qed.


(** For a download, a destination that exists must be a directory, and
    a destination that does not exist must have a directory as its
    parent; otherwise the request is refused with the matching
    message. *)
Theorem process_names_download_destination names :
  2 <= List.length names -> sources_indexable names ->
  uniform_markers names = true ->
  is_remote (last names "") = false ->
  (w_exists w (last names "") = true -> w_isdir w (last names "") = false ->
   process_names w names
   = Raise (AssertionError "destination exists but is not a directory"))
  /\ (w_exists w (last names "") = false ->
      w_isdir w (Py.dirname (last names "")) = false ->
      process_names w names
      = Raise (AssertionError (Py.dirname (last names "")
                               ++ " not exists or not a directory"))).
Proof.
  intros L I U R. rewrite (process_names_classified names L I U).
  unfold is_remote in R. rewrite R. split; intros He Hd; rewrite He, Hd;
    reflexivity.
Qed.

End Names.

(** ** The command [cp] *)

Section CpCommand.

Variable w : World.

Lemma process_names_success names :
  2 <= List.length names -> sources_indexable names ->
  uniform_markers names = true -> fs_ready w names = true ->
  process_names w names
  = Return (removelast names, Py.drop_first (last names ""),
            is_remote (last names "")).
Proof.
  intros L I U R. rewrite (process_names_classified w names L I U).
  apply process_names_tail. exact R.
Qed.

(** With fewer than two path arguments [cp] stops at the usage error
    before any request; the process prints it and exits with 1. *)
Theorem cp_too_few_names fuel args t :
  List.length (parse_names ["-o"; "-r"; "-v"] args) < 2 ->
  cp w fuel args t = (Raise usage_error, t)
  /\ main_cp w fuel args t = (Return 1%Z, t ++ [EvPrintExn usage_error]).
Proof.
  intros H.
  assert (E : cp w fuel args t = (Raise usage_error, t)).
  { unfold cp, lift, bind, process_names.
    destruct (parse_names ["-o"; "-r"; "-v"] args) as [|a [|b l]];
      simpl in H; try lia; reflexivity. }
  split; [exact E|]. unfold main_cp. rewrite E. reflexivity.
Qed.

Lemma cp_loop_omits fuel dst one verbose srcs :
  Forall (fun s => w_isdir w s = true) srcs ->
  forall res t,
    cp_loop w fuel srcs dst one false verbose res t
    = (Return (match srcs with [] => res | _ => false end),
       t ++ map (fun s => EvPrint (EStr ("omitting directory: " ++ s))) srcs).
Proof.
  induction 1 as [|s srcs Hs _ IH]; intros res t; simpl.
  - unfold ret. rewrite app_nil_r. reflexivity.
  - unfold upload. rewrite Hs. cbn [negb]. cbv iota.
    rewrite (bind_return (ret _) _ _ _ _ eq_refl). cbv beta iota.
    cbn [negb]. cbv iota.
    rewrite (bind_return (print _) _ _ tt _ eq_refl).
    rewrite IH, <- app_assoc. simpl. destruct srcs; reflexivity.
Qed.

(** Without [-r], [cp] of existing local directories to a remote
    destination sends nothing at all: it prints one line "omitting
    directory" for every source, in order, and returns [False]. *)
Theorem cp_omits_directories fuel args srcs dst t :
  parse_flag "-r" args = false ->
  parse_names ["-o"; "-r"; "-v"] args = srcs ++ [dst] ->
  srcs <> [] ->
  is_remote dst = true ->
  Forall (fun s => s <> EmptyString /\ is_remote s = false
                   /\ w_exists w s = true /\ w_isdir w s = true) srcs ->
  cp w fuel args t
  = (Return false,
     t ++ map (fun s => EvPrint (EStr ("omitting directory: " ++ s))) srcs).
Proof.
  intros Hr Hn Hne Hd Hs.
  assert (Hlen : 2 <= List.length (srcs ++ [dst])).
  { rewrite length_app. simpl. destruct srcs; [congruence | simpl; lia]. }
  assert (E : process_names w (srcs ++ [dst])
              = Return (srcs, Py.drop_first dst, true)).
  { rewrite (process_names_success (srcs ++ [dst]) Hlen).
    - rewrite removelast_last, last_last, Hd. reflexivity.
    - right. rewrite removelast_last.
      eapply Forall_impl; [|exact Hs]. intros s H. apply H.
    - unfold uniform_markers. rewrite removelast_last, last_last, Hd.
      apply forallb_forall. intros s Hin.
      rewrite Forall_forall in Hs. destruct (Hs s Hin) as (_ & H & _).
      rewrite H. reflexivity.
    - unfold fs_ready. rewrite removelast_last, last_last, Hd.
      apply forallb_forall. intros s Hin.
      rewrite Forall_forall in Hs. apply (Hs s Hin). }
  unfold cp. rewrite Hn, Hr. unfold lift, bind at 1. rewrite E.
  rewrite cp_loop_omits.
  - destruct srcs; [congruence | reflexivity].
  - eapply Forall_impl; [|exact Hs]. intros s H. apply H.
Qed.

Lemma cp_loop_failed fuel dst one recursive verbose srcs :
  forall t b,
    fst (cp_loop w fuel srcs dst one recursive verbose false t) = Return b ->
    b = false.
Proof.
  induction srcs as [|s srcs IH]; intros t b; simpl.
  - intros H. inversion H. reflexivity.
  - unfold bind at 1.
    destruct (upload w fuel s dst one recursive verbose t)
      as [[[st msg]|e|] t1]; simpl; try discriminate.
    destruct (negb st).
    + unfold bind at 1, print, emit. apply IH.
    + apply IH.
Qed.

(** A source whose upload reports a false status makes [cp] print its
    message at once and go on with the remaining sources; whatever
    they do, [cp] cannot return [True] any more. *)
Theorem cp_remembers_failed_source fuel dst one recursive verbose s rest
    res t msg t1 :
  upload w fuel s dst one recursive verbose t = (Return (false, msg), t1) ->
  cp_loop w fuel (s :: rest) dst one recursive verbose res t
  = cp_loop w fuel rest dst one recursive verbose false (t1 ++ [EvPrint msg])
  /\ forall b,
       fst (cp_loop w fuel (s :: rest) dst one recursive verbose res t)
       = Return b -> b = false.
Proof.
  intros H.
  assert (E : cp_loop w fuel (s :: rest) dst one recursive verbose res t
              = cp_loop w fuel rest dst one recursive verbose false
                  (t1 ++ [EvPrint msg])).
  { simpl. rewrite (bind_return _ _ _ _ _ H). reflexivity. }
  split; [exact E|]. intros b. rewrite E. apply cp_loop_failed.
Qed.

End CpCommand.

(** ** The mirror built by a recursive upload *)

Section Mirror.

Variable w : World.

Lemma dir_task_mirror verbose dir dst_dir entries dirs last t r t' :
  models w dir (SDir entries) ->
  not_flag dst_dir ->
  dir_task w false verbose dir dst_dir dirs true last t = (Return r, t') ->
  fst (fst r) = dirs ++ child_tasks dir dst_dir entries
  /\ snd (fst r) = true
  /\ created_dirs t' = created_dirs t ++ [dst_dir]
  /\ file_destinations t' = file_destinations t ++ direct_files dst_dir entries.
Proof.
  intros Hm [Hp Hv] H. inversion Hm as [p es Hd Hl Hes| |]; subst.
  unfold dir_task in H.
  rewrite (bind_return (ret true) _ t true t) in H by reflexivity.
  cbv beta iota zeta in H.
  apply bind_inv in H as (ok & t1 & Hmk & H).
  apply bind_inv in H as (u & t2 & Ha & H).
  assert (t2 = t1) as ->.
  { destruct ok; simpl in Ha; inversion Ha; reflexivity. }
  unfold listdir in H. rewrite Hl in H.
  rewrite (bind_return (ret _) _ _ _ _ eq_refl) in H.
  apply bind_inv in H as ([d l] & t3 & Hs & H).
  inversion H; subst. simpl.
  apply scan_entries_mirror in Hs as (S1 & S2 & S3); [|exact Hes].
  simpl in S1.
  assert (C1 : created_dirs t1 = created_dirs t ++ [dst_dir]).
  { pose proof (mkdir_created w
                  (if verbose then [dst_dir; "-p"] ++ ["-v"] else [dst_dir; "-p"])
                  t) as C.
    rewrite Hmk in C. simpl snd in C. simpl app in C.
    rewrite (mkdir_args_names dst_dir verbose Hp Hv) in C. exact C. }
  assert (F1 : file_destinations t1 = file_destinations t).
  { apply appends_run with (P := not_offset) in Hmk as (evs & -> & F);
      [|apply mkdir_not_offset].
    rewrite file_destinations_app, (not_offset_destinations _ F), app_nil_r.
    reflexivity. }
  rewrite S3, C1, S2, F1. auto.
Qed.

Lemma children_queue_tasks dir dst_dir entries :
  map fst (children_queue dir dst_dir entries) = child_tasks dir dst_dir entries.
Proof.
  induction entries as [|[n s] r IH]; simpl; [reflexivity|].
  destruct s; simpl; rewrite ?IH; reflexivity.
Qed.

Lemma children_queue_dirs dir dst_dir entries :
  queue_dirs (children_queue dir dst_dir entries)
  = flat_map (fun e => mirror_dirs (Py.join dst_dir (fst e)) (snd e)) entries.
Proof.
  unfold queue_dirs.
  induction entries as [|[n s] r IH]; simpl; [reflexivity|].
  destruct s; simpl; rewrite ?IH; reflexivity.
Qed.

Lemma children_queue_files dir dst_dir entries :
  Permutation
    (direct_files dst_dir entries
     ++ queue_files (children_queue dir dst_dir entries))
    (flat_map (fun e => mirror_files (Py.join dst_dir (fst e)) (snd e)) entries).
Proof.
  unfold queue_files.
  induction entries as [|[n s] r IH]; simpl; [constructor|].
  destruct s as [es| |]; simpl.
  - rewrite <- IH.
    match goal with
    | |- Permutation (?d ++ ?a ++ ?q) (?a ++ ?d ++ ?q) =>
        apply Permutation_app_swap_app
    end.
  - constructor. exact IH.
  - exact IH.
Qed.

Lemma children_queue_models dir dst_dir entries :
  Forall (fun e => models w (Py.join dir (fst e)) (snd e)) entries ->
  Forall (fun x => queued_dir w (fst x) (snd x))
         (children_queue dir dst_dir entries).
Proof.
  induction 1 as [|[n s] r Hm _ IH]; simpl in *; [constructor|].
  destruct s; simpl; [|exact IH|exact IH].
  constructor; [|exact IH]. split; simpl; eauto.
Qed.

Lemma walk_mirror verbose fuel :
  forall (q : tree_queue) last t last' t',
    Forall (fun x => queued_dir w (fst x) (snd x)) q ->
    Forall not_flag (queue_dirs q) ->
    walk w fuel false verbose (map fst q) true last t = (Return last', t') ->
    exists nd nf,
      created_dirs t' = created_dirs t ++ nd
      /\ file_destinations t' = file_destinations t ++ nf
      /\ Permutation nd (queue_dirs q)
      /\ Permutation nf (queue_files q).
Proof.
  induction fuel as [|fuel IH]; intros q last t last' t' Hq Hf H;
    destruct q as [|[[dir dst_dir] s] q]; simpl in H.
  - inversion H. exists [], []. rewrite !app_nil_r. repeat split; constructor.
  - discriminate.
  - inversion H. exists [], []. rewrite !app_nil_r. repeat split; constructor.
  - inversion Hq as [|x q' Hs Hq']; subst.
    destruct Hs as ((es & Es) & Hm). simpl in Es, Hm. subst s.
    apply bind_inv in H as ([[d a] l] & t1 & Hd & H).
    unfold queue_dirs in Hf. simpl in Hf. fold (queue_dirs q) in Hf.
    inversion Hf as [|y l0 Hflag Hf']; subst.
    apply Forall_app in Hf' as [Hfc Hfq].
    apply dir_task_mirror with (entries := es) in Hd
      as (D1 & D2 & D3 & D4); [|exact Hm|exact Hflag].
    simpl in D1, D2. subst d a.
    inversion Hm as [p es' Hdir Hl Hes| |]; subst.
    rewrite <- (children_queue_tasks dir dst_dir es), <- map_app in H.
    apply IH in H as (nd & nf & N1 & N2 & N3 & N4).
    + exists (dst_dir :: nd), (direct_files dst_dir es ++ nf).
      rewrite N1, D3, N2, D4, <- !app_assoc. simpl.
      split; [reflexivity|]. split; [reflexivity|]. split.
      * unfold queue_dirs at 1. simpl. fold (queue_dirs q).
        constructor. rewrite N3. unfold queue_dirs at 1.
        rewrite flat_map_app. fold (queue_dirs q).
        fold (queue_dirs (children_queue dir dst_dir es)).
        rewrite children_queue_dirs. apply Permutation_app_comm.
      * unfold queue_files at 1. simpl. fold (queue_files q).
        rewrite N4. unfold queue_files at 1. rewrite flat_map_app.
        fold (queue_files q).
        fold (queue_files (children_queue dir dst_dir es)).
        rewrite <- (children_queue_files dir dst_dir es).
        rewrite <- app_assoc. apply Permutation_app_head.
        apply Permutation_app_comm.
    + apply Forall_app. split; [exact Hq'|].
      apply children_queue_models. exact Hes.
    + unfold queue_dirs. rewrite flat_map_app. apply Forall_app. split.
      * exact Hfq.
      * fold (queue_dirs (children_queue dir dst_dir es)).
        rewrite children_queue_dirs. exact Hfc.
Qed.

(** A recursive upload (without [-o]) of a finite local tree to a
    remote target that the probe finds absent, when it returns: the
    directories whose creation was requested are exactly those of the
    mirror of the tree at the target, each once, and the files whose
    offset was queried are exactly the files of the mirror, each once.
    (No mirrored directory name reads as a flag of [mkdir].) *)
Theorem upload_mirrors_tree fuel src dst verbose entries t j r t' :
  models w src (SDir entries) ->
  w_post w t (ReqExists dst) = RespOk j -> status j = false ->
  Forall not_flag (mirror_dirs dst (SDir entries)) ->
  upload w fuel src dst false true verbose t = (Return r, t') ->
  exists nd nf,
    created_dirs t' = created_dirs t ++ nd
    /\ file_destinations t' = file_destinations t ++ nf
    /\ Permutation nd (mirror_dirs dst (SDir entries))
    /\ Permutation nf (mirror_files dst (SDir entries)).
Proof.
  intros Hm Hj Hs Hf H.
  assert (Hd : w_isdir w src = true) by (inversion Hm; assumption).
  unfold upload in H. rewrite Hd in H. change (negb true) with false in H.
  cbv iota in H. apply bind_inv in H as (last & t1 & Hw & H).
  assert (t1 = t') as ->.
  { destruct last; simpl in H; inversion H; reflexivity. }
  destruct fuel as [|fuel]; [discriminate|].
  simpl walk in Hw. unfold bind at 1 in Hw.
  rewrite (dir_task_probe_absent w _ _ _ _ _ _ _ _ Hj Hs) in Hw.
  assert (Hw' : walk w (S fuel) false verbose
                  (map fst [((src, dst), SDir entries)]) true None
                  (t ++ [EvRequest (ReqExists dst) (RespOk j)])
                = (Return last, t')).
  { simpl walk. unfold bind at 1. exact Hw. }
  apply walk_mirror in Hw' as (nd & nf & N1 & N2 & N3 & N4).
  - exists nd, nf.
    rewrite created_dirs_app in N1. rewrite file_destinations_app in N2.
    unfold created_dirs at 2 in N1. unfold file_destinations at 2 in N2.
    simpl in N1, N2. rewrite app_nil_r in N1, N2.
    unfold queue_dirs in N3. unfold queue_files in N4. simpl in N3, N4.
    rewrite app_nil_r in N3, N4. auto.
  - constructor; [|constructor]. split; simpl; eauto.
  - unfold queue_dirs. simpl. rewrite app_nil_r. exact Hf.
Qed.

End Mirror.

(** * The other commands *)

Section ShellRuns.

Import Shell.

Lemma sbind_return {A B} (m : SM A) (k : A -> SM B) s a s' :
  m s = (Return a, s') -> sbind m k s = k a s'.
Proof. intros H. unfold sbind. rewrite H. reflexivity. Qed.

Lemma print_lines_run lines s :
  print_lines lines s
  = (Return tt, mk_sstate (session s) (log s ++ map (fun l => SOut (EStr l)) lines)).
Proof.
  revert s. induction lines as [|l r IH]; intros s; simpl.
  - unfold sret. rewrite app_nil_r. destruct s; reflexivity.
  - unfold sbind, sprint, slog. rewrite IH. simpl.
    rewrite <- app_assoc. reflexivity.
Qed.

Lemma sprint_each_run f l s :
  sprint_each f l s
  = (Return tt,
     mk_sstate (session s) (log s ++ map (fun x => SOut (EStr (f x))) l)).
Proof.
  revert s. induction l as [|x r IH]; intros s; simpl.
  - unfold sret. rewrite app_nil_r. destruct s; reflexivity.
  - unfold sbind, sprint, slog. rewrite IH. simpl.
    rewrite <- app_assoc. reflexivity.
Qed.

Lemma report_run st errs s :
  report st errs s
  = (Return (Some st),
     mk_sstate (session s)
       (log s ++ (if st then []
                  else map (fun e => SOut (EStr ("error: " ++ e))) errs))).
Proof.
  unfold report. destruct st; cbn [negb].
  - unfold sret. rewrite app_nil_r. destruct s; reflexivity.
  - unfold sbind. rewrite sprint_each_run. reflexivity.
Qed.

End ShellRuns.

Section Session.

Import Shell.

Variable srv : Server.

(** [login] writes the session file only when it returns [True], and
    then with the non-empty session id that came with an accepted
    answer; in every other case (missing credentials, unreachable
    server, rejected login, accepted login without the cookie) the
    session is what it was. *)
Theorem login_session username password s :
  (fst (login srv username password s) = Return (Some true)
   /\ exists u p body sid,
        sv_login srv u p = AnsOk body /\ lg_status body = true
        /\ lg_sessionid body = Some sid /\ sid <> EmptyString
        /\ session (snd (login srv username password s)) = [("sessionid", sid)])
  \/ (fst (login srv username password s) <> Return (Some true)
      /\ session (snd (login srv username password s)) = session s).
Proof.
  unfold login.
  destruct (truthy username) as [u|]; [|right; split; [discriminate|reflexivity]].
  destruct (truthy password) as [p|]; [|right; split; [discriminate|reflexivity]].
  unfold send_request, sbind, sret, slog, sraise, sprint, slog. simpl.
  destruct (sv_login srv u p) as [body|code|e] eqn:E; simpl;
    try (right; split; [discriminate|reflexivity]).
  destruct (lg_status body) eqn:Es; simpl;
    [|right; split; [discriminate|reflexivity]].
  destruct (lg_sessionid body) as [[|c sid]|] eqn:Ec; simpl;
    try (right; split; [discriminate|reflexivity]).
  left. split; [reflexivity|].
  exists u, p, body, (String c sid). repeat split; auto. discriminate.
Qed.

(** Without a user name or without a password (absent or empty),
    [login] fails its assertion before any request. *)
Theorem login_requires_credentials username password s :
  truthy username = None \/ truthy password = None ->
  login srv username password s
  = (Raise (AssertionError "user name and password are required"), s).
Proof.
  intros [H|H]; unfold login; rewrite H; [reflexivity|].
  destruct (truthy username); reflexivity.
Qed.

Lemma logout_run s :
  match sv_logout srv with
  | None =>
      logout srv s
      = (Return (Some true), mk_sstate [] (log s ++ [SGet; SSave []]))
  | Some e =>
      logout srv s = (Raise e, mk_sstate (session s) (log s ++ [SGet]))
  end.
Proof.
  unfold logout, sbind, slog, save_session, sret, sraise.
  destruct (sv_logout srv); simpl; [reflexivity|].
  rewrite <- app_assoc. reflexivity.
Qed.

(** [logout] empties the session file and returns [True] whatever the
    server made of the GET, which carries no cookie; it fails only when
    the GET itself raises, and then the session is kept. *)
Theorem logout_clears_session s :
  match sv_logout srv with
  | None =>
      logout srv s
      = (Return (Some true), mk_sstate [] (log s ++ [SGet; SSave []]))
  | Some e =>
      logout srv s = (Raise e, mk_sstate (session s) (log s ++ [SGet]))
  end.
Proof.
  unfold logout, sbind, slog, save_session, sret, sraise.
  destruct (sv_logout srv) as [e|]; cbn [session log].
  - reflexivity.
  - rewrite <- app_assoc. reflexivity.
Qed.

(** Every request of [ls] carries the session of the moment. *)
Lemma ls_posts_session long directory names s :
  exists rest,
    log (snd (ls srv long directory names s))
    = log s ++ SPost (session s) (SLs long directory names) :: rest.
Proof.
  unfold ls. destruct long.
  - unfold send_request, sbind, load_session, slog, sret, sraise, sprint, slog.
    simpl.
    destruct (sv_ls_long srv (session s) directory names) as [body|code|e];
      simpl; eauto.
    + unfold slift.
      destruct (first_values (ls_output body)) as [files| |]; simpl; eauto.
      unfold format_output, sbind, slift.
      destruct (py_max _) as [n| |]; simpl; eauto.
      rewrite print_lines_run, report_run. simpl.
      rewrite <- !app_assoc. simpl. eauto.
    + rewrite <- app_assoc. simpl. eauto.
  - unfold send_request, sbind, load_session, slog, sret, sraise, sprint, slog.
    simpl.
    destruct (sv_ls_short srv (session s) directory names) as [body|code|e];
      simpl; eauto.
    + rewrite print_lines_run, report_run. simpl.
      rewrite <- !app_assoc. simpl. eauto.
    + rewrite <- app_assoc. simpl. eauto.
Qed.

(** The session id stored by a successful [login] is the cookie of the
    next request, and after [logout] the next request carries none. *)
Theorem session_reaches_requests u p body sid long directory names s :
  u <> EmptyString -> p <> EmptyString -> sid <> EmptyString ->
  sv_login srv u p = AnsOk body -> lg_status body = true ->
  lg_sessionid body = Some sid ->
  sv_logout srv = None ->
  (exists rest,
     log (snd (sbind (login srv (Some u) (Some p))
                 (fun _ => ls srv long directory names) s))
     = log s ++ [SPost [] (SLogin u p); SSave [("sessionid", sid)];
                 SPost [("sessionid", sid)] (SLs long directory names)]
             ++ rest)
  /\ (exists rest,
        log (snd (sbind (logout srv)
                    (fun _ => ls srv long directory names) s))
        = log s ++ [SGet; SSave []; SPost [] (SLs long directory names)]
                ++ rest).
Proof.
  intros Hu Hp Hs Ha Hst Hc Hl. split.
  - assert (E : login srv (Some u) (Some p) s
                = (Return (Some true),
                   mk_sstate [("sessionid", sid)]
                     (log s ++ [SPost [] (SLogin u p);
                                SSave [("sessionid", sid)]]))).
    { unfold login. destruct u; [congruence|]. destruct p; [congruence|].
      simpl truthy. cbv iota.
      unfold send_request, sbind, sret, slog, save_session. simpl.
      rewrite Ha. simpl. rewrite Hst, Hc. destruct sid; [congruence|].
      simpl. rewrite <- app_assoc. reflexivity. }
    rewrite (sbind_return _ _ _ _ _ E).
    destruct (ls_posts_session long directory names
                (mk_sstate [("sessionid", sid)]
                   (log s ++ [SPost [] (SLogin u p);
                              SSave [("sessionid", sid)]])))
      as (rest & R).
    exists rest. rewrite R. simpl. rewrite <- app_assoc. reflexivity.
  - pose proof (logout_run s) as E. rewrite Hl in E.
    rewrite (sbind_return _ _ _ _ _ E).
    destruct (ls_posts_session long directory names
                (mk_sstate [] (log s ++ [SGet; SSave []])))
      as (rest & R).
    exists rest. rewrite R. simpl. rewrite <- app_assoc. reflexivity.
Qed.

End Session.

Section Listing.

Import Shell.

Variable srv : Server.

Lemma fold_max_ge r : forall x, x <= fold_left Nat.max r x.
Proof.
  induction r as [|y r IH]; intros x; simpl; [lia|].
  specialize (IH (Nat.max x y)). lia.
Qed.

Lemma fold_max_bound r :
  forall x y, In y (x :: r) -> y <= fold_left Nat.max r x.
Proof.
  induction r as [|z r IH]; intros x y H; simpl in *.
  - destruct H as [->|[]]. lia.
  - destruct H as [->|[->|H]].
    + pose proof (fold_max_ge r (Nat.max y z)). lia.
    + pose proof (fold_max_ge r (Nat.max x y)). lia.
    + apply IH. right. exact H.
Qed.

Lemma spaces_length k : String.length (spaces k) = k.
Proof. induction k; simpl; auto. Qed.

Lemma append_length (a b : string) :
  String.length (a ++ b) = String.length a + String.length b.
Proof. induction a; simpl; auto. Qed.

Lemma pad_left_length n s :
  String.length (pad_left n s) = Nat.max n (String.length s).
Proof.
  unfold pad_left. rewrite append_length, spaces_length. lia.
Qed.

Lemma format_output_run files s :
  files <> [] ->
  exists size_len,
    format_output files s
    = (Return tt,
       mk_sstate (session s)
         (log s ++ map (fun f => SOut (EStr (format_line size_len f))) files)).
Proof.
  intros Hne. destruct files as [|f0 files]; [congruence|].
  eexists. unfold format_output, sbind, slift. simpl py_max. cbv iota.
  rewrite print_lines_run, map_map. reflexivity.
Qed.

Lemma blank_spaces k : blank (spaces k) = true.
Proof. induction k; simpl; auto. Qed.

Lemma append_assoc (a b c : string) : ((a ++ b) ++ c = a ++ b ++ c)%string.
Proof. induction a; simpl; congruence. Qed.

(** [format_output] on a listing that is not empty prints one line for
    every entry, in order, and the size column is right-aligned: on
    every line the size is written after as many blanks as it takes to
    fill the width of the column, which is the length of the longest
    size of the listing. *)
Theorem format_output_aligned files s :
  files <> [] ->
  exists size_len,
    format_output files s
    = (Return tt,
       mk_sstate (session s)
         (log s ++ map (fun f => SOut (EStr (format_line size_len f))) files))
    /\ (forall f, In f files ->
        exists pad,
          blank pad = true
          /\ String.length pad + String.length (Py.str_of_int (fi_size f))
             = size_len
          /\ format_line size_len f
             = ((if fi_regular f then "-" else "d") ++ " " ++ fi_owner f ++ " "
                ++ pad ++ Py.str_of_int (fi_size f) ++ " "
                ++ fi_time f ++ " " ++ fi_name f)%string)
    /\ (exists f, In f files
                  /\ String.length (Py.str_of_int (fi_size f)) = size_len).
Proof.
  intros Hne. destruct files as [|f0 files]; [congruence|].
  set (sz := fun f => String.length (Py.str_of_int (fi_size f))).
  exists (fold_left Nat.max (map sz files) (sz f0)).
  split; [|split].
  - unfold format_output, sbind, slift. simpl py_max. cbv iota.
    rewrite print_lines_run, map_map. reflexivity.
  - intros f Hin.
    assert (Hle : sz f <= fold_left Nat.max (map sz files) (sz f0)).
    { apply fold_max_bound. destruct Hin as [->|Hin]; [left; reflexivity|].
      right. apply in_map. exact Hin. }
    exists (spaces (fold_left Nat.max (map sz files) (sz f0) - sz f)).
    split; [apply blank_spaces|]. split.
    + rewrite spaces_length. unfold sz in *. lia.
    + unfold format_line, pad_left. fold (sz f).
      rewrite (append_assoc (spaces _)). reflexivity.
  - clear Hne. revert f0. induction files as [|g files IH]; intros f0; simpl.
    + exists f0. auto.
    + destruct (IH (if Nat.ltb (sz f0) (sz g) then g else f0)) as (f & Hin & Hf).
      assert (Nat.max (sz f0) (sz g)
              = sz (if Nat.ltb (sz f0) (sz g) then g else f0)) as ->.
      { destruct (Nat.ltb (sz f0) (sz g)) eqn:E;
          [apply Nat.ltb_lt in E | apply Nat.ltb_ge in E]; lia. }
      exists f. split; [|exact Hf].
      destruct Hin as [<-|Hin]; [|auto].
      destruct (Nat.ltb (sz f0) (sz g)); auto.
Qed.

(** [ls -l] on a listing without any entry (no block, or blocks whose
    first value is empty) ends in the [ValueError] of [max] on an empty
    list, whatever the status: nothing is printed, not even the errors
    of the server. *)
Theorem ls_long_empty_listing directory names body s :
  sv_ls_long srv (session s) directory names = AnsOk body ->
  first_values (ls_output body) = Return [] ->
  ls srv true directory names s
  = (Raise (OtherError "ValueError" "max() arg is an empty sequence"),
     mk_sstate (session s)
       (log s ++ [SPost (session s) (SLs true directory names)])).
Proof.
  intros Ha Hf. unfold ls, send_request, sbind, load_session, slog, sret.
  simpl. rewrite Ha. simpl. unfold slift. rewrite Hf. reflexivity.
Qed.


End Listing.

Section Dispatch.

Import Shell.

Variable srv : Server.
Variable parse_login : list string -> option string * option string.
Variable parse_ls : list string -> bool * bool * list string.
Variable parse_rmdir : list string -> bool * bool * list string.

Lemma commands_unknown fuel cmd :
  ~ In cmd ["login"; "logout"; "ls"; "mkdir"; "rmdir"; "cp"; "fetch"] ->
  Shell.commands srv parse_login parse_ls parse_rmdir fuel cmd = None.
Proof.
  intros H. unfold Shell.commands.
  repeat match goal with
         | |- context [String.eqb cmd ?c] =>
             destruct (String.eqb_spec cmd c) as [->|_];
             [exfalso; apply H; simpl; tauto|]
         end.
  reflexivity.
Qed.

(** What [__main__] does without running a command: [--help] anywhere
    on the command line prints the help and exits with 0, whatever else
    is there; no argument prints the usage and exits with 1; a name
    that is not a command is reported and the exit code is 1; and
    [fetch], whose body is empty, prints and sends nothing and exits
    with 1. *)
Theorem main_without_command fuel prog rest s :
  (existsb (String.eqb "--help") (prog :: rest) = true ->
   Shell.main srv parse_login parse_ls parse_rmdir fuel prog rest s
   = (Return 0%Z, mk_sstate (session s) (log s ++ [SHelp])))
  /\ (existsb (String.eqb "--help") (prog :: rest) = false ->
      (rest = [] ->
       Shell.main srv parse_login parse_ls parse_rmdir fuel prog rest s
       = (Return 1%Z,
          mk_sstate (session s) (log s ++ [SOut (EStr (usage prog))])))
      /\ (forall cmd args,
            rest = cmd :: args ->
            ~ In cmd ["login"; "logout"; "ls"; "mkdir"; "rmdir"; "cp"; "fetch"] ->
            Shell.main srv parse_login parse_ls parse_rmdir fuel prog rest s
            = (Return 1%Z,
               mk_sstate (session s)
                 (log s ++ [SOut (EStr ("invalid command " ++ cmd))])))
      /\ (forall args,
            rest = "fetch" :: args -> Shell.main srv parse_login parse_ls parse_rmdir fuel prog rest s = (Return 1%Z, s))).
Proof.
  split.
  - intros H. unfold Shell.main. rewrite H. reflexivity.
  - intros H. unfold Shell.main. rewrite H. repeat split.
    + intros ->. reflexivity.
    + intros cmd args -> Hc. rewrite (commands_unknown fuel cmd Hc).
      reflexivity.
    + intros args ->. reflexivity.
Qed.

(** The exit code of [__main__]: an exception of the command never
    leaves it; the code is 0 when [--help] is on the command line or
    the command returned [True], and 1 in every other case in which
    the run comes to an end: no command, a name that is not a command,
    a command that returns [False] or [None], a command that raises. *)
Theorem main_exit_code fuel prog rest s :
  (forall e,
     fst (Shell.main srv parse_login parse_ls parse_rmdir fuel prog rest s)
     <> Raise e)
  /\ (existsb (String.eqb "--help") (prog :: rest) = true
      \/ command_outcome srv parse_login parse_ls parse_rmdir fuel rest s
           (Return (Some true)) ->
      fst (Shell.main srv parse_login parse_ls parse_rmdir fuel prog rest s)
      = Return 0%Z)
  /\ (existsb (String.eqb "--help") (prog :: rest) = false ->
      ~ command_outcome srv parse_login parse_ls parse_rmdir fuel rest s
          (Return (Some true)) ->
      ~ command_outcome srv parse_login parse_ls parse_rmdir fuel rest s
          OutOfFuel ->
      fst (Shell.main srv parse_login parse_ls parse_rmdir fuel prog rest s)
      = Return 1%Z).
Proof.
  unfold Shell.main, command_outcome.
  destruct (existsb (String.eqb "--help") (prog :: rest)).
  { split; [discriminate|]. split; [reflexivity | discriminate]. }
  destruct rest as [|cmd args].
  { split; [discriminate|]. split; [|reflexivity].
    intros [H|(c & a & k & H & _)]; discriminate. }
  destruct (Shell.commands srv parse_login parse_ls parse_rmdir fuel cmd)
    as [command|] eqn:Ec.
  2: { split; [discriminate|]. split; [|reflexivity].
       intros [H|(c & a & k & H & Hc & _)]; [discriminate|].
       inversion H; subst. congruence. }
  destruct (command args s) as [[[[|]|]|e|] s1] eqn:E; cbn [fst];
    (split; [discriminate|]); split;
    try reflexivity;
    try (intros [H|(c & a & k & H & Hc & Hr)]; [discriminate|];
         inversion H; subst; rewrite Ec in Hc; inversion Hc; subst;
         rewrite E in Hr; discriminate).
  - intros _ Hn _. exfalso. apply Hn. exists cmd, args, command.
    rewrite E. auto.
  - intros _ _ Hn. exfalso. apply Hn. exists cmd, args, command.
    rewrite E. auto.
Qed.

(** A login that the server accepts without sending the session
    cookie returns [None]: nothing is printed, the session file is not
    written, and the exit code is 1. *)
Theorem login_without_cookie fuel prog args u p body s :
  existsb (String.eqb "--help") (prog :: "login" :: args) = false ->
  parse_login args = (Some u, Some p) ->
  u <> EmptyString -> p <> EmptyString ->
  sv_login srv u p = AnsOk body ->
  lg_status body = true ->
  truthy (lg_sessionid body) = None ->
  Shell.main srv parse_login parse_ls parse_rmdir fuel prog ("login" :: args) s
  = (Return 1%Z, mk_sstate (session s) (log s ++ [SPost [] (SLogin u p)])).
Proof.
  intros H Hp Hu Hpw Ha Hs Hc. unfold Shell.main. rewrite H.
  change (Shell.commands srv parse_login parse_ls parse_rmdir fuel "login")
    with (Some (fun a : list string =>
                  let '(u0, p0) := parse_login a in login srv u0 p0)).
  cbv beta iota. rewrite Hp. unfold login.
  destruct u; [congruence|]. destruct p; [congruence|]. simpl truthy.
  cbv iota. unfold send_request, sbind, sret, slog. simpl.
  rewrite Ha. simpl. rewrite Hs, Hc. reflexivity.
Qed.

End Dispatch.

(** * Instances *)

Lemma photos_models :
  models (world_of photos_fs fresh_server) "photos" (SDir photos_shape).
Proof. apply photos_models_on. Qed.

Lemma upload_one_file_resumes_witness :
  upload_one_file (world_of photos_fs partial_server)
    "photos/a.jpg" "albums/2020/a.jpg" false false []
  = (Return (true, EList []),
     [EvRequest (ReqOffset "photos/a.jpg" "albums/2020/a.jpg")
        (RespOk (mk_json true [] 5 []));
      EvOpen "photos/a.jpg"; EvSeek "photos/a.jpg" 5;
      EvRequest (ReqUpload 5 "a.jpg" "photos/a.jpg") (RespOk json_ok)]).
Proof.
  apply (upload_one_file_resumes (world_of photos_fs partial_server)
           "photos/a.jpg" "albums/2020/a.jpg" false []
           (mk_json true [] 5 []) json_ok);
    [reflexivity | unfold off_t_bound; simpl; lia | reflexivity
    | reflexivity | reflexivity].
Defined.

Lemma upload_one_file_offset_overflow_witness :
  upload_one_file (world_of photos_fs overflowing_server)
    "photos/a.jpg" "albums/2020/a.jpg" false false []
  = (Raise (ValueError "cannot fit 'int' into an offset-sized integer"),
     [] ++ [EvRequest (ReqOffset "photos/a.jpg" "albums/2020/a.jpg")
              (RespOk (mk_json true [] 9223372036854775808 []));
            EvOpen "photos/a.jpg"]).
Proof.
  apply (upload_one_file_offset_overflow (world_of photos_fs overflowing_server)
           "photos/a.jpg" "albums/2020/a.jpg" false []
           (mk_json true [] 9223372036854775808 []));
    [reflexivity | right; unfold off_t_bound; simpl; lia | reflexivity].
Defined.

Lemma upload_one_file_offset_unreachable_witness :
  upload_one_file (world_of photos_fs down_server)
    "photos/a.jpg" "albums/2020/a.jpg" false false []
  = (Raise (AssertionError ""),
     [EvRequest (ReqOffset "photos/a.jpg" "albums/2020/a.jpg") (RespFail 502);
      EvPrint (EStr "request failed (code 502)")]).
Proof.
  apply (upload_one_file_offset_unreachable (world_of photos_fs down_server)
           "photos/a.jpg" "albums/2020/a.jpg" false [] 502).
  reflexivity.
Defined.

Lemma mkdir_answered_witness :
  mkdir (world_of [] (fun _ => RespOk (mk_json false ["r/y: denied"] 0 ["r/x"])))
    ["r/x"; "r/y"; "-v"] []
  = (Return false,
     [EvRequest (ReqMkdir false true ["r/x"; "r/y"])
        (RespOk (mk_json false ["r/y: denied"] 0 ["r/x"]));
      EvPrint (EStr "created directory: r/x");
      EvPrint (EStr "error: r/y: denied")]).
Proof.
  apply (mkdir_answered
           (world_of [] (fun _ => RespOk (mk_json false ["r/y: denied"] 0 ["r/x"])))
           ["r/x"; "r/y"; "-v"] []
           (mk_json false ["r/y: denied"] 0 ["r/x"])).
  reflexivity.
Defined.

Lemma mkdir_unreachable_witness :
  mkdir (world_of [] down_server) ["r"; "-p"] []
  = (Return false,
     [EvRequest (ReqMkdir true false ["r"]) (RespFail 502);
      EvPrint (EStr "request failed (code 502)")])
  /\ fst (rexists (world_of [] down_server) "r" []) = Raise (AssertionError "").
Proof.
  destruct (mkdir_unreachable (world_of [] down_server) ["r"; "-p"] [] 502
              eq_refl) as [H1 H2].
  split; [exact H1|]. apply H2. reflexivity.
Defined.

Lemma upload_file_needs_parent_witness :
  exists t',
    upload (world_of photos_fs (fun _ => RespOk (json_no ["read-only"]))) 1
      "photos/a.jpg" "albums/2020/a.jpg" false false false []
    = (Raise (AssertionError ""), t')
    /\ requests_of t'
       = requests_of [] ++ [ReqMkdir true false [Py.dirname "albums/2020/a.jpg"]].
Proof.
  apply (upload_file_needs_parent
           (world_of photos_fs (fun _ => RespOk (json_no ["read-only"]))) 1
           "photos/a.jpg" "albums/2020/a.jpg" false false false []).
  - reflexivity.
  - split; discriminate.
  - reflexivity.
Defined.

Lemma process_names_sound_witness :
  2 <= List.length ["genesis.mp3"; "goodday.mp4"; ":multimedia/anv/"]
  /\ ["genesis.mp3"; "goodday.mp4"]
     = removelast ["genesis.mp3"; "goodday.mp4"; ":multimedia/anv/"]
  /\ uniform_markers ["genesis.mp3"; "goodday.mp4"; ":multimedia/anv/"] = true
  /\ fs_ready (world_of media_fs fresh_server)
       ["genesis.mp3"; "goodday.mp4"; ":multimedia/anv/"] = true.
Proof.
  apply (process_names_sound (world_of media_fs fresh_server)
           ["genesis.mp3"; "goodday.mp4"; ":multimedia/anv/"]
           ["genesis.mp3"; "goodday.mp4"] "multimedia/anv/" true).
  reflexivity.
Defined.


Lemma process_names_download_destination_witness :
  process_names (world_of media_fs fresh_server) [":calculus.pdf"; "genesis.mp3"]
  = Raise (AssertionError "destination exists but is not a directory")
  /\ process_names (world_of media_fs fresh_server) [":calculus.pdf"; "out.pdf"]
     = Raise (AssertionError " not exists or not a directory").
Proof.
  split.
  - apply (proj1 (process_names_download_destination
                    (world_of media_fs fresh_server)
                    [":calculus.pdf"; "genesis.mp3"]
                    ltac:(simpl; lia) (or_introl eq_refl) eq_refl eq_refl));
      reflexivity.
  - apply (proj2 (process_names_download_destination
                    (world_of media_fs fresh_server)
                    [":calculus.pdf"; "out.pdf"]
                    ltac:(simpl; lia) (or_introl eq_refl) eq_refl eq_refl));
      reflexivity.
Defined.

Lemma cp_too_few_names_witness :
  cp (world_of pair_fs quota_server) 10 ["-r"; "d"] [] = (Raise usage_error, [])
  /\ main_cp (world_of pair_fs quota_server) 10 ["-r"; "d"] []
     = (Return 1%Z, [] ++ [EvPrintExn usage_error]).
Proof.
  apply (cp_too_few_names (world_of pair_fs quota_server) 10 ["-r"; "d"] []).
  simpl. lia.
Defined.

Lemma cp_omits_directories_witness :
  cp (world_of siblings_fs fresh_server) 10 ["d/x"; "-v"; "d/y"; ":r"] []
  = (Return false,
     [] ++ map (fun s => EvPrint (EStr ("omitting directory: " ++ s)))
             ["d/x"; "d/y"]).
Proof.
  apply (cp_omits_directories (world_of siblings_fs fresh_server) 10
           ["d/x"; "-v"; "d/y"; ":r"] ["d/x"; "d/y"] ":r" []).
  - reflexivity.
  - reflexivity.
  - discriminate.
  - reflexivity.
  - repeat constructor; discriminate.
Defined.

Lemma cp_remembers_failed_source_witness :
  cp_loop (world_of pair_fs fresh_server) 10 ["d"; "d/b"] "r" false false false
    true []
  = cp_loop (world_of pair_fs fresh_server) 10 ["d/b"] "r" false false false
      false ([] ++ [EvPrint (EStr "omitting directory: d")])
  /\ forall b,
       fst (cp_loop (world_of pair_fs fresh_server) 10 ["d"; "d/b"] "r"
              false false false true []) = Return b -> b = false.
Proof.
  apply (cp_remembers_failed_source (world_of pair_fs fresh_server) 10 "r"
           false false false "d" ["d/b"] true []
           (EStr "omitting directory: d") []).
  reflexivity.
Defined.

Lemma upload_mirrors_tree_witness :
  exists nd nf,
    created_dirs (snd scenario_absent) = created_dirs [] ++ nd
    /\ file_destinations (snd scenario_absent) = file_destinations [] ++ nf
    /\ Permutation nd (mirror_dirs "albums/2020" (SDir photos_shape))
    /\ Permutation nf (mirror_files "albums/2020" (SDir photos_shape)).
Proof.
  apply (upload_mirrors_tree (world_of photos_fs fresh_server) 10
           "photos" "albums/2020" false photos_shape [] (json_no [])
           (true, EList [])).
  - exact photos_models.
  - reflexivity.
  - reflexivity.
  - repeat constructor; discriminate.
  - vm_compute. reflexivity.
Defined.

Lemma upload_total_witness :
  fst (upload (world_of photos_fs fresh_server) 2 "photos" "albums/2020"
         false true false []) <> OutOfFuel.
Proof.
  apply (upload_total (world_of photos_fs fresh_server) 2 "photos"
           "albums/2020" false true false (SDir photos_shape) []).
  - exact photos_models.
  - simpl. lia.
Defined.

Lemma upload_probes_once_when_absent_witness :
  probes (snd (upload (world_of photos_fs fresh_server) 10 "photos"
                 "albums/2020" false true false []))
  = probes [] ++ [ReqExists "albums/2020"].
Proof.
  apply (upload_probes_once_when_absent (world_of photos_fs fresh_server) 9
           "photos" "albums/2020" false false [] (json_no []));
    reflexivity.
Defined.

Lemma session_reaches_requests_witness :
  (exists rest,
     Shell.log (snd (Shell.sbind
                       (Shell.login home_server (Some "alice") (Some "secret"))
                       (fun _ => Shell.ls home_server false false [])
                       fresh_state))
     = Shell.log fresh_state
       ++ [Shell.SPost [] (Shell.SLogin "alice" "secret");
           Shell.SSave [("sessionid", "s3ss10n")];
           Shell.SPost [("sessionid", "s3ss10n")] (Shell.SLs false false [])]
       ++ rest)
  /\ (exists rest,
        Shell.log (snd (Shell.sbind (Shell.logout home_server)
                          (fun _ => Shell.ls home_server false false [])
                          fresh_state))
        = Shell.log fresh_state
          ++ [Shell.SGet; Shell.SSave [];
              Shell.SPost [] (Shell.SLs false false [])]
          ++ rest).
Proof.
  apply (session_reaches_requests home_server "alice" "secret"
           (Shell.mk_login_body true [] (Some "s3ss10n")) "s3ss10n"
           false false [] fresh_state);
    try discriminate; reflexivity.
Defined.

Lemma format_output_aligned_witness :
  exists size_len,
    Shell.format_output listed_files fresh_state
    = (Return tt,
       Shell.mk_sstate (Shell.session fresh_state)
         (Shell.log fresh_state
          ++ map (fun f => Shell.SOut (EStr (Shell.format_line size_len f)))
               listed_files))
    /\ (forall f, In f listed_files ->
        exists pad,
          blank pad = true
          /\ String.length pad
             + String.length (Py.str_of_int (Shell.fi_size f))
             = size_len
          /\ Shell.format_line size_len f
             = ((if Shell.fi_regular f then "-" else "d") ++ " "
                ++ Shell.fi_owner f ++ " "
                ++ pad ++ Py.str_of_int (Shell.fi_size f) ++ " "
                ++ Shell.fi_time f ++ " " ++ Shell.fi_name f)%string)
    /\ (exists f, In f listed_files
                 /\ String.length (Py.str_of_int (Shell.fi_size f)) = size_len).
Proof.
  apply (format_output_aligned listed_files fresh_state). discriminate.
Defined.

Example format_output_lines :
  Shell.log (snd (Shell.format_output listed_files fresh_state))
  = [Shell.SOut (EStr "- alice 1048576 2020-05-01 calculus.pdf");
     Shell.SOut (EStr "d alice    4096 2020-05-02 multimedia")].
Proof. vm_compute. reflexivity. Qed.

Lemma ls_long_empty_listing_witness :
  Shell.ls home_server true false ["empty"] fresh_state
  = (Raise (OtherError "ValueError" "max() arg is an empty sequence"),
     Shell.mk_sstate (Shell.session fresh_state)
       (Shell.log fresh_state
        ++ [Shell.SPost (Shell.session fresh_state)
              (Shell.SLs true false ["empty"])])).
Proof.
  apply (ls_long_empty_listing home_server false ["empty"]
           (Shell.mk_ls_body true [] [[("empty", [])]]) fresh_state);
    reflexivity.
Defined.


Lemma main_without_command_witness :
  Shell.main home_server demo_parse_login demo_parse_flags demo_parse_flags 10
    "client.py" ["cp"; "--help"] fresh_state
  = (Return 0%Z, Shell.mk_sstate [] ([] ++ [Shell.SHelp]))
  /\ Shell.main home_server demo_parse_login demo_parse_flags demo_parse_flags
       10 "client.py" ["sync"; "a"] fresh_state
     = (Return 1%Z,
        Shell.mk_sstate [] ([] ++ [Shell.SOut (EStr "invalid command sync")]))
  /\ Shell.main home_server demo_parse_login demo_parse_flags demo_parse_flags
       10 "client.py" ["fetch"; "http://host/download/13/"] fresh_state
     = (Return 1%Z, fresh_state).
Proof.
  split; [|split].
  - apply (proj1 (main_without_command home_server demo_parse_login
                    demo_parse_flags demo_parse_flags 10 "client.py"
                    ["cp"; "--help"] fresh_state)).
    reflexivity.
  - apply (proj1 (proj2 (proj2 (main_without_command home_server
                                  demo_parse_login demo_parse_flags
                                  demo_parse_flags 10 "client.py"
                                  ["sync"; "a"] fresh_state) eq_refl))
             "sync" ["a"] eq_refl).
    simpl. intros H. repeat destruct H as [H|H]; try discriminate. exact H.
  - apply (proj2 (proj2 (proj2 (main_without_command home_server
                                  demo_parse_login demo_parse_flags
                                  demo_parse_flags 10 "client.py"
                                  ["fetch"; "http://host/download/13/"]
                                  fresh_state) eq_refl))
             ["http://host/download/13/"] eq_refl).
Defined.

Lemma main_exit_code_witness :
  fst (Shell.main home_server demo_parse_login demo_parse_flags
         demo_parse_flags 10 "client.py" ["logout"] fresh_state)
  = Return 0%Z
  /\ fst (Shell.main home_server demo_parse_login demo_parse_flags
            demo_parse_flags 10 "client.py" ["ls"; "nofile"] fresh_state)
     = Return 1%Z.
Proof.
  split.
  - apply (proj1 (proj2 (main_exit_code home_server demo_parse_login
                           demo_parse_flags demo_parse_flags 10 "client.py"
                           ["logout"] fresh_state))).
    right. exists "logout", [], (fun _ => Shell.logout home_server).
    repeat split.
  - apply (proj2 (proj2 (main_exit_code home_server demo_parse_login
                           demo_parse_flags demo_parse_flags 10 "client.py"
                           ["ls"; "nofile"] fresh_state))).
    + reflexivity.
    + intros (c & a & k & H & Hc & Hr). inversion H; subst.
      inversion Hc; subst. discriminate.
    + intros (c & a & k & H & Hc & Hr). inversion H; subst.
      inversion Hc; subst. discriminate.
Defined.

Lemma login_without_cookie_witness :
  Shell.main home_server demo_parse_login demo_parse_flags demo_parse_flags 10
    "client.py" ["login"; "-u"; "alice"; "-p"; "wrong"] fresh_state
  = (Return 1%Z,
     Shell.mk_sstate (Shell.session fresh_state)
       (Shell.log fresh_state ++ [Shell.SPost [] (Shell.SLogin "alice" "wrong")])).
Proof.
  apply (login_without_cookie home_server demo_parse_login demo_parse_flags
           demo_parse_flags 10 "client.py" ["-u"; "alice"; "-p"; "wrong"]
           "alice" "wrong" (Shell.mk_login_body true [] None) fresh_state);
    try discriminate; reflexivity.
Defined.

(** * The requests of one file, and the remaining commands *)

Section FileRequests.

Variable w : World.


End FileRequests.

Section RemainingCommands.

Import Shell.

Variable srv : Server.

Lemma shell_send_request_run {A} rq (ans : cookies -> answer A) s :
  send_request true rq ans s
  = match ans (session s) with
    | AnsOk body =>
        (Return (Some body),
         mk_sstate (session s) (log s ++ [SPost (session s) rq]))
    | AnsFail code =>
        (Return None,
         mk_sstate (session s)
           (log s ++ [SPost (session s) rq;
                      SOut (EStr ("request failed (code "
                                  ++ Py.str_of_int code ++ ")"))]))
    | AnsRaise e =>
        (Raise e, mk_sstate (session s) (log s ++ [SPost (session s) rq]))
    end.
Proof.
  unfold send_request, sbind, load_session, slog, sret, sraise, sprint, slog.
  cbv beta iota.
  destruct (ans (session s)); cbn [session log]; try reflexivity.
  rewrite <- app_assoc. reflexivity.
Qed.


(** A block without any value in the answer to a long [ls] ends the
    command with an [IndexError] before anything is printed. *)
Theorem ls_long_empty_block directory names body before after s :
  sv_ls_long srv (session s) directory names = AnsOk body ->
  ls_output body = before ++ [] :: after ->
  Forall (fun block => block <> []) before ->
  ls srv true directory names s
  = (Raise (IndexError "list index out of range"),
     mk_sstate (session s)
       (log s ++ [SPost (session s) (SLs true directory names)])).
Proof.
  intros Ha Ho Hb.
  assert (Hf : first_values (ls_output body)
               = Raise (IndexError "list index out of range")).
  { rewrite Ho. clear Ho. induction Hb as [|b before Hne _ IH]; simpl.
    - reflexivity.
    - destruct b as [|[k v] b]; [congruence|]. rewrite IH. reflexivity. }
  unfold ls, send_request, sbind, load_session, slog, sret.
  simpl. rewrite Ha. simpl. unfold slift. rewrite Hf. reflexivity.
Qed.

(** [rmdir] on a response with a JSON body: its value is the status;
    with [-v] one line "removing directory" is printed for every name
    of [output], then one line for every error when the status is
    false.  A response that is not OK gives [False]. *)
Theorem rmdir_answered parents verbose names s :
  match sv_rmdir srv (session s) parents verbose names with
  | AnsOk j =>
      rmdir srv parents verbose names s
      = (Return (Some (status j)),
         mk_sstate (session s)
           (log s ++ [SPost (session s) (SRmdir parents verbose names)]
              ++ (if verbose
                  then map (fun n => SOut (EStr ("removing directory: " ++ n)))
                           (output j)
                  else [])
              ++ (if status j then []
                  else map (fun e => SOut (EStr ("error: " ++ e))) (errors j))))
  | AnsFail code =>
      fst (rmdir srv parents verbose names s) = Return (Some false)
  | AnsRaise e => fst (rmdir srv parents verbose names s) = Raise e
  end.
Proof.
  destruct (sv_rmdir srv (session s) parents verbose names) as [j|c|e] eqn:E;
    unfold rmdir; unfold sbind at 1; rewrite shell_send_request_run, E;
    [|reflexivity|reflexivity].
  destruct verbose.
  - unfold sbind. rewrite sprint_each_run, report_run. simpl.
    rewrite <- !app_assoc. reflexivity.
  - unfold sbind, sret. rewrite report_run. simpl.
    rewrite <- !app_assoc. reflexivity.
Qed.

End RemainingCommands.


Lemma ls_long_empty_block_witness :
  Shell.ls
    (Shell.mk_server (Shell.sv_login home_server) None
       (Shell.sv_ls_short home_server)
       (fun _ _ _ =>
          Shell.AnsOk (Shell.mk_ls_body true [] [[("a", listed_files)]; []]))
       (Shell.sv_rmdir home_server) (Shell.sv_world home_server))
    true false [] fresh_state
  = (Raise (IndexError "list index out of range"),
     Shell.mk_sstate (Shell.session fresh_state)
       (Shell.log fresh_state
        ++ [Shell.SPost (Shell.session fresh_state) (Shell.SLs true false [])])).
Proof.
  apply (ls_long_empty_block _ false []
           (Shell.mk_ls_body true [] [[("a", listed_files)]; []])
           [[("a", listed_files)]] [] fresh_state).
  - reflexivity.
  - reflexivity.
  - repeat constructor. discriminate.
Defined.
